(** * Sharedog: the OAuth 2.1 credential lifecycle, the entitlement
      resolver, the rate limiter and the MCP gateway

    A shallow embedding of
      - src/lib/oauth/index.ts                 (token codec, PKCE, scopes),
      - src/app/api/oauth/authorize/route.ts   (authorization endpoint),
      - the token, revocation and client routes (the three files kept in
        src/app/api/oauth/clients/route.ts),
      - lib/subscriptions.ts, kept in src/lib/stripe.ts
        (hasKBAccess, getSubscriptionStatus, createFreeSubscription), and
        the install-token route and the billing webhook (both kept in
        src/app/api/stripe/checkout/route.ts),
      - the worker: mcp-server/src/db/supabase.ts, auth/validate.ts,
        utils/rate-limit.ts, mcp/server.ts and index.ts,
      - src/app/api/mcp/[slug]/route.ts        (the in-app protocol route),
      - the tables of supabase/migrations.

    Conventions.  A JavaScript string is the [string] of its UTF-8 bytes; a
    timestamp is a [Z] number of milliseconds since the epoch; a nullable
    column or an optional field is an [option]; a table is the [list] of its
    rows; [Date.now()], [randomBytes] and [gen_random_uuid()] are inputs of
    a request, read once, except that [Worker.fetch_at] reads the clock a
    second time for the request log.  In [Trace] a request is handled to
    its end before the next one starts; [Race] follows two exchanges of a
    code that are in flight at once, one database call at a time. *)

From Stdlib Require Import ZArith Lia Ascii String.
From stdpp Require Import base strings list gmap pretty.

Local Open Scope Z_scope.
Local Open Scope string_scope.

(* ===================================================================== *)
(** * Node's [crypto]: SHA-256 and the digest encodings                   *)
(* ===================================================================== *)

Module Sha256.

(** 32-bit words are [Z] in [0, 2^32) and every addition wraps: the low
    32 bits are kept. *)
Definition wrap32 (x : Z) : Z := Z.land x 4294967295.
Definition add32 (x y : Z) : Z := wrap32 (x + y).
Definition rotr (n x : Z) : Z :=
  Z.lor (Z.shiftr x n) (wrap32 (Z.shiftl x (32 - n))).

Definition Ch (x y z : Z) : Z :=
  Z.lxor (Z.land x y) (Z.land (wrap32 (Z.lnot x)) z).
Definition Maj (x y z : Z) : Z :=
  Z.lxor (Z.lxor (Z.land x y) (Z.land x z)) (Z.land y z).
Definition Sigma0 (x : Z) : Z := Z.lxor (Z.lxor (rotr 2 x) (rotr 13 x)) (rotr 22 x).
Definition Sigma1 (x : Z) : Z := Z.lxor (Z.lxor (rotr 6 x) (rotr 11 x)) (rotr 25 x).
Definition sigma0 (x : Z) : Z := Z.lxor (Z.lxor (rotr 7 x) (rotr 18 x)) (Z.shiftr x 3).
Definition sigma1 (x : Z) : Z := Z.lxor (Z.lxor (rotr 17 x) (rotr 19 x)) (Z.shiftr x 10).

(** The round constants are the first 32 bits of the fractional parts of
    the cube roots of the first 64 primes, and the initial hash value is
    the same of the square roots of the first 8 (FIPS 180-4, 4.2.2 and
    5.3.3). *)
Definition primes : list Z :=
  [ 2; 3; 5; 7; 11; 13; 17; 19; 23; 29; 31; 37; 41; 43; 47; 53; 59; 61; 67; 71;
    73; 79; 83; 89; 97; 101; 103; 107; 109; 113; 127; 131; 137; 139; 149; 151;
    157; 163; 167; 173; 179; 181; 191; 193; 197; 199; 211; 223; 227; 229; 233;
    239; 241; 251; 257; 263; 269; 271; 277; 281; 283; 293; 307; 311 ].

(** The integer cube root of [n < 2^108], one bit at a time. *)
Definition icbrt (n : Z) : Z :=
  fold_left (fun r i =>
               let c := r + Z.shiftl 1 (Z.of_nat i) in
               if (c * c * c <=? n)%Z then c else r)
            (rev (seq 0 36)) 0.

Definition K : list Z :=
  Eval vm_compute in map (fun p => wrap32 (icbrt (p * 2 ^ 96))) primes.

Definition H0 : list Z :=
  Eval vm_compute in map (fun p => wrap32 (Z.sqrt (p * 2 ^ 64))) (firstn 8 primes).

(** The bytes of a string, most significant first in each word. *)
Fixpoint bytes_of_string (s : string) : list Z :=
  match s with
  | EmptyString => []
  | String c r => Z.of_N (Ascii.N_of_ascii c) :: bytes_of_string r
  end.

Definition be_bytes (width : nat) (x : Z) : list Z :=
  map (fun i : nat => Z.land (Z.shiftr x (8 * Z.of_nat i)) 255) (rev (seq 0 width)).

Definition word_of_bytes (bs : list Z) : Z :=
  fold_left (fun acc b => Z.lor (Z.shiftl acc 8) b) bs 0.

(** Padding: a 1 bit, zeros up to 56 mod 64, the bit length on 64 bits. *)
Definition pad (msg : list Z) : list Z :=
  let len := Z.of_nat (length msg) in
  let zeros := Z.to_nat ((55 - len) mod 64) in
  msg ++ [128] ++ repeat 0 zeros ++ be_bytes 8 (8 * len).

Fixpoint chunks (fuel n : nat) (l : list Z) : list (list Z) :=
  match fuel with
  | O => []
  | S fuel' =>
      match l with
      | [] => []
      | _ => firstn n l :: chunks fuel' n (skipn n l)
      end
  end.

(** The message schedule, newest word first while it is built. *)
Fixpoint extend (n : nat) (ws : list Z) : list Z :=
  match n with
  | O => ws
  | S n' =>
      let w := add32 (add32 (sigma1 (nth 1 ws 0)) (nth 6 ws 0))
                     (add32 (sigma0 (nth 14 ws 0)) (nth 15 ws 0)) in
      extend n' (w :: ws)
  end.

Definition schedule (block : list Z) : list Z :=
  rev (extend 48 (rev (map word_of_bytes (chunks 16 4 block)))).

Record regs := Regs { ra : Z; rb : Z; rc : Z; rd : Z; re : Z; rf : Z; rg : Z; rh : Z }.

Definition round (r : regs) (kw : Z * Z) : regs :=
  let t1 := add32 (add32 (add32 (rh r) (Sigma1 (re r)))
                         (add32 (Ch (re r) (rf r) (rg r)) (fst kw))) (snd kw) in
  let t2 := add32 (Sigma0 (ra r)) (Maj (ra r) (rb r) (rc r)) in
  Regs (add32 t1 t2) (ra r) (rb r) (rc r) (add32 (rd r) t1) (re r) (rf r) (rg r).

Definition regs_of (h : list Z) : regs :=
  Regs (nth 0 h 0) (nth 1 h 0) (nth 2 h 0) (nth 3 h 0)
       (nth 4 h 0) (nth 5 h 0) (nth 6 h 0) (nth 7 h 0).

Definition list_of (r : regs) : list Z :=
  [ra r; rb r; rc r; rd r; re r; rf r; rg r; rh r].

Definition compress (h : list Z) (block : list Z) : list Z :=
  let r := fold_left round (combine K (schedule block)) (regs_of h) in
  map (fun p : Z * Z => add32 (fst p) (snd p)) (combine h (list_of r)).

(** [createHash('sha256').update(s).digest()]: 32 bytes. *)
Definition digest (s : string) : list Z :=
  let m := pad (bytes_of_string s) in
  let h := fold_left compress (chunks (length m) 64 m) H0 in
  concat (map (be_bytes 4) h).

End Sha256.

(** [Buffer.toString('hex')] and [Buffer.toString('base64url')]. *)
Module Encoding.

Definition hex_alphabet : string := "0123456789abcdef".
Definition b64url_alphabet : string :=
  "ABCDEFGHIJKLMNOPQRSTUVWXYZabcdefghijklmnopqrstuvwxyz0123456789-_".

Definition char_at (alphabet : string) (i : Z) : string :=
  match String.get (Z.to_nat i) alphabet with
  | Some c => String c EmptyString
  | None => EmptyString
  end.

Fixpoint hex (bs : list Z) : string :=
  match bs with
  | [] => ""
  | b :: r => char_at hex_alphabet (Z.shiftr b 4) +:+
              char_at hex_alphabet (Z.land b 15) +:+ hex r
  end.

(** Three bytes give four characters; a tail of one or two bytes gives
    two or three, and the url variant writes no padding. *)
Fixpoint base64url (bs : list Z) : string :=
  match bs with
  | [] => ""
  | [a] =>
      char_at b64url_alphabet (Z.shiftr a 2) +:+
      char_at b64url_alphabet (Z.shiftl (Z.land a 3) 4)
  | [a; b] =>
      char_at b64url_alphabet (Z.shiftr a 2) +:+
      char_at b64url_alphabet (Z.lor (Z.shiftl (Z.land a 3) 4) (Z.shiftr b 4)) +:+
      char_at b64url_alphabet (Z.shiftl (Z.land b 15) 2)
  | a :: b :: c :: r =>
      char_at b64url_alphabet (Z.shiftr a 2) +:+
      char_at b64url_alphabet (Z.lor (Z.shiftl (Z.land a 3) 4) (Z.shiftr b 4)) +:+
      char_at b64url_alphabet (Z.lor (Z.shiftl (Z.land b 15) 2) (Z.shiftr c 6)) +:+
      char_at b64url_alphabet (Z.land c 63) +:+ base64url r
  end.

End Encoding.


(* ===================================================================== *)
(** * The JavaScript string methods the sources call                      *)
(* ===================================================================== *)

Module Js.

(** [s.split(sep)] for a one-character separator: never empty, and two
    adjacent separators give an empty piece. *)
Fixpoint split (sep : Ascii.ascii) (s : string) : list string :=
  match s with
  | EmptyString => [EmptyString]
  | String c r =>
      if Ascii.eqb c sep then EmptyString :: split sep r
      else match split sep r with
           | [] => [String c EmptyString]
           | h :: t => String c h :: t
           end
  end.

Arguments split sep%_char s%_string.

Definition startsWith (s pre : string) : bool := String.prefix pre s.

Definition endsWith (s suf : string) : bool :=
  let n := String.length s in
  let m := String.length suf in
  if (m <=? n)%nat then String.eqb (String.substring (n - m) m s) suf else false.

Fixpoint includes (hay needle : string) : bool :=
  String.prefix needle hay ||
  match hay with
  | EmptyString => false
  | String _ r => includes r needle
  end.

(** [s.slice(n)] for [n >= 0]. *)
Definition slice (n : nat) (s : string) : string :=
  String.substring n (String.length s - n) s.

Definition lower_ascii (c : Ascii.ascii) : Ascii.ascii :=
  let n := Ascii.nat_of_ascii c in
  if ((65 <=? n) && (n <=? 90))%nat then Ascii.ascii_of_nat (n + 32) else c.

(** [s.toLowerCase()], on the ASCII letters. *)
Fixpoint toLowerCase (s : string) : string :=
  match s with
  | EmptyString => EmptyString
  | String c r => String (lower_ascii c) (toLowerCase r)
  end.

(** Truthiness of a string ([""] is falsy) and of an optional one. *)
Definition truthy (s : string) : bool := negb (String.eqb s "").
Definition truthy_opt (o : option string) : bool :=
  match o with Some s => truthy s | None => false end.

(** [a || b] on an optional string. *)
Definition or_else (o : option string) (d : string) : string :=
  match o with Some s => if truthy s then s else d | None => d end.

(** [x || undefined]. *)
Definition or_undefined (o : option string) : option string :=
  match o with Some s => if truthy s then Some s else None | None => None end.

Definition includes_str (l : list string) (x : string) : bool :=
  existsb (String.eqb x) l.

(** [array.join(' ')]. *)
Fixpoint join_sp (l : list string) : string :=
  match l with
  | [] => ""
  | [x] => x
  | x :: r => x +:+ " " +:+ join_sp r
  end.

(** [query.single()]: the row when exactly one row matches, an error
    otherwise. *)
Definition single {A} (rows : list A) : option A :=
  match rows with
  | [r] => Some r
  | _ => None
  end.

End Js.


(* ===================================================================== *)
(** * src/lib/oauth/index.ts                                              *)
(* ===================================================================== *)

Module OAuth.

Definition PREFIX_ACCESS : string := "sha_kb_".
Definition PREFIX_REFRESH : string := "shr_kb_".
Definition PREFIX_CODE : string := "shc_".
Definition PREFIX_CLIENT_ID : string := "mcp_client_".
Definition PREFIX_CLIENT_SECRET : string := "mcp_secret_".

(** Token lifetimes, in seconds. *)
Definition ACCESS_TOKEN : Z := 60 * 60.
Definition REFRESH_TOKEN : Z := 60 * 60 * 24 * 30.
Definition AUTH_CODE : Z := 60 * 10.

Definition OAUTH_SCOPES : list string := ["search"; "list_sources"; "get_info"].
Definition DEFAULT_SCOPES : list string := ["search"; "list_sources"; "get_info"].

(** [generateToken(prefix, length)]; [random] stands for the bytes that
    [randomBytes(length)] returned. *)
Definition generateToken (prefix : string) (random : list Z) : string :=
  prefix +:+ Encoding.base64url random.

(** [createHash('sha256').update(token).digest('hex')] *)
Definition hashToken (token : string) : string :=
  Encoding.hex (Sha256.digest token).

Definition shortKbId (kbId : string) : string :=
  match Js.split "-" kbId with
  | h :: _ => h
  | [] => ""
  end.

Definition generateAccessToken (kbId : string) (random : list Z) : string :=
  generateToken (PREFIX_ACCESS +:+ shortKbId kbId +:+ "_") random.

Definition generateRefreshToken (kbId : string) (random : list Z) : string :=
  generateToken (PREFIX_REFRESH +:+ shortKbId kbId +:+ "_") random.

Definition generateAuthCode (random : list Z) : string :=
  generateToken PREFIX_CODE random.

Definition generateClientId (random : list Z) : string :=
  generateToken PREFIX_CLIENT_ID random.

Definition generateClientSecret (random : list Z) : string :=
  generateToken PREFIX_CLIENT_SECRET random.

(** The declared type of [method] is ['S256' | 'plain']; the code only
    compares it with ['plain'], so every other string takes the S256
    branch. *)
Definition validateCodeChallenge
    (codeVerifier codeChallenge method : string) : bool :=
  if String.eqb method "plain" then String.eqb codeVerifier codeChallenge
  else
    let computedChallenge := Encoding.base64url (Sha256.digest codeVerifier) in
    String.eqb computedChallenge codeChallenge.

Definition generateCodeChallenge (codeVerifier method : string) : string :=
  if String.eqb method "plain" then codeVerifier
  else Encoding.base64url (Sha256.digest codeVerifier).

Definition parseScopes (scopeString : option string) : list string :=
  match scopeString with
  | None => DEFAULT_SCOPES
  | Some s =>
      if negb (Js.truthy s) then DEFAULT_SCOPES
      else
        let requestedScopes := List.filter Js.truthy (Js.split " " s) in
        let validScopes := List.filter (Js.includes_str OAUTH_SCOPES) requestedScopes in
        if (0 <? length validScopes)%nat then validScopes else DEFAULT_SCOPES
  end.

Definition INVALID_REQUEST : string := "invalid_request".
Definition UNAUTHORIZED_CLIENT : string := "unauthorized_client".
Definition ACCESS_DENIED : string := "access_denied".
Definition UNSUPPORTED_RESPONSE_TYPE : string := "unsupported_response_type".
Definition INVALID_SCOPE : string := "invalid_scope".
Definition SERVER_ERROR : string := "server_error".
Definition TEMPORARILY_UNAVAILABLE : string := "temporarily_unavailable".
Definition INVALID_CLIENT : string := "invalid_client".
Definition INVALID_GRANT : string := "invalid_grant".
Definition UNSUPPORTED_GRANT_TYPE : string := "unsupported_grant_type".

(** The body of a successful token response. *)
Record TokenBody := {
  access_token : string;
  token_type : string;
  expires_in : Z;
  refresh_token : string;
  scope : string
}.

(** What a route handler of the app answers. *)
Inductive Response :=
| ErrorJson (status : Z) (error description : string)
| ErrorRedirect (uri error description : string) (state : option string)
| RedirectTo (url : string)
| CodeRedirect (uri code : string) (state : option string)
| TokenJson (body : TokenBody)
| InstallJson (token : string) (expiresAt : Z)
| Empty (status : Z)
| Threw.

Definition status_of (r : Response) : Z :=
  match r with
  | ErrorJson st _ _ => st
  | ErrorRedirect _ _ _ _ => 302
  | RedirectTo _ => 307
  | CodeRedirect _ _ _ => 307
  | TokenJson _ => 200
  | InstallJson _ _ => 200
  | Empty st => st
  | Threw => 500
  end.

(** The OAuth error code a response carries, if it carries one. *)
Definition error_of (r : Response) : option string :=
  match r with
  | ErrorJson _ e _ => Some e
  | ErrorRedirect _ e _ _ => Some e
  | _ => None
  end.

Section WithURL.

(** [new URL(uri).hostname], and [None] where [new URL(uri)] throws.
    The WHATWG URL parser belongs to the platform. *)
Variable url_hostname : string -> option string.

Definition isValidRedirectUri (uri : string) (allowedUris : list string) : bool :=
  match url_hostname uri with
  | None => false
  | Some hostname =>
      if String.eqb hostname "localhost" || String.eqb hostname "127.0.0.1"
      then true
      else
        existsb (fun allowed =>
          if String.eqb uri allowed then true
          else if Js.startsWith allowed "*." then
            let domain := Js.slice 2 allowed in
            match url_hostname uri with
            | Some h => Js.endsWith h domain
            | None => false
            end
          else false) allowedUris
  end.

(** [oauthError(error, description, redirectUri?, state?)] *)
Definition oauthError (error description : string)
    (redirectUri state : option string) : Response :=
  match redirectUri with
  | Some uri =>
      if Js.truthy uri then
        match url_hostname uri with
        | None => Threw
        | Some _ => ErrorRedirect uri error description (Js.or_undefined state)
        end
      else ErrorJson 400 error description
  | None => ErrorJson 400 error description
  end.

End WithURL.

End OAuth.


(* ===================================================================== *)
(** * The credential store (supabase/migrations)                          *)
(* ===================================================================== *)

(** The columns that the modelled code reads or writes.  Primary keys and
    UNIQUE constraints are enforced by the inserts and updates below;
    foreign keys and row-level security are not modelled, and a statement
    fails for no other reason than a constraint. *)
Module Db.

Inductive Visibility := Private | Public.
Inductive PricingModel := Free | Paid.
Inductive SubStatus := Active | Canceled | PastDue | Expired | Trialing.

Definition visibility_eqb (a b : Visibility) : bool :=
  match a, b with Private, Private | Public, Public => true | _, _ => false end.
Definition pricing_eqb (a b : PricingModel) : bool :=
  match a, b with Free, Free | Paid, Paid => true | _, _ => false end.
Definition status_eqb (a b : SubStatus) : bool :=
  match a, b with
  | Active, Active | Canceled, Canceled | PastDue, PastDue
  | Expired, Expired | Trialing, Trialing => true
  | _, _ => false
  end.

Record KnowledgeBase := {
  kb_id : string;
  kb_user_id : string;
  kb_slug : string;
  kb_visibility : Visibility;
  kb_pricing_model : PricingModel;
  kb_mcp_enabled : bool
}.

Record OAuthClient := {
  oc_client_id : string;
  oc_client_secret_hash : string;
  oc_knowledge_base_id : string;
  oc_user_id : string;
  oc_redirect_uris : list string;
  oc_scopes : list string;
  oc_revoked_at : option Z
}.

Record OAuthCode := {
  cd_id : string;
  cd_code_hash : string;
  cd_client_id : string;
  cd_knowledge_base_id : string;
  cd_user_id : string;
  cd_redirect_uri : string;
  cd_scopes : list string;
  cd_code_challenge : option string;
  cd_code_challenge_method : option string;
  cd_expires_at : Z;
  cd_used_at : option Z
}.

Record OAuthToken := {
  tk_id : string;
  tk_client_id : string;
  tk_knowledge_base_id : string;
  tk_user_id : string;
  tk_access_token_hash : string;
  tk_refresh_token_hash : option string;
  tk_scopes : list string;
  tk_expires_at : Z;
  tk_refresh_expires_at : option Z;
  tk_last_used_at : option Z;
  tk_subscription_id : option string
}.

Record Subscription := {
  sub_id : string;
  sub_knowledge_base_id : string;
  sub_subscriber_id : string;
  sub_status : SubStatus;
  sub_current_period_end : option Z
}.

Record RequestLog := {
  lg_knowledge_base_id : string;
  lg_client_id : option string;
  lg_method : string;
  lg_status_code : Z
}.

Record Store := {
  knowledge_bases : list KnowledgeBase;
  oauth_clients : list OAuthClient;
  oauth_codes : list OAuthCode;
  oauth_tokens : list OAuthToken;
  kb_subscriptions : list Subscription;
  mcp_requests : list RequestLog
}.

Definition with_clients (cs : list OAuthClient) (s : Store) : Store :=
  {| knowledge_bases := knowledge_bases s; oauth_clients := cs;
     oauth_codes := oauth_codes s; oauth_tokens := oauth_tokens s;
     kb_subscriptions := kb_subscriptions s; mcp_requests := mcp_requests s |}.

Definition with_codes (cs : list OAuthCode) (s : Store) : Store :=
  {| knowledge_bases := knowledge_bases s; oauth_clients := oauth_clients s;
     oauth_codes := cs; oauth_tokens := oauth_tokens s;
     kb_subscriptions := kb_subscriptions s; mcp_requests := mcp_requests s |}.

Definition with_tokens (ts : list OAuthToken) (s : Store) : Store :=
  {| knowledge_bases := knowledge_bases s; oauth_clients := oauth_clients s;
     oauth_codes := oauth_codes s; oauth_tokens := ts;
     kb_subscriptions := kb_subscriptions s; mcp_requests := mcp_requests s |}.

Definition with_subscriptions (ss : list Subscription) (s : Store) : Store :=
  {| knowledge_bases := knowledge_bases s; oauth_clients := oauth_clients s;
     oauth_codes := oauth_codes s; oauth_tokens := oauth_tokens s;
     kb_subscriptions := ss; mcp_requests := mcp_requests s |}.

Definition with_requests (ls : list RequestLog) (s : Store) : Store :=
  {| knowledge_bases := knowledge_bases s; oauth_clients := oauth_clients s;
     oauth_codes := oauth_codes s; oauth_tokens := oauth_tokens s;
     kb_subscriptions := kb_subscriptions s; mcp_requests := ls |}.

Definition is_null {A} (o : option A) : bool :=
  match o with None => true | Some _ => false end.

Definition opt_eqb (o : option string) (v : string) : bool :=
  match o with Some x => String.eqb x v | None => false end.

(** The row a foreign key on [knowledge_bases(id)] joins to. *)
Definition kb_by_id (s : Store) (id : string) : option KnowledgeBase :=
  List.find (fun kb => String.eqb (kb_id kb) id) (knowledge_bases s).

(** [oauth_clients]: [client_id] is UNIQUE. *)
Definition insert_client (s : Store) (row : OAuthClient) : option Store :=
  if existsb (fun c => String.eqb (oc_client_id c) (oc_client_id row)) (oauth_clients s)
  then None
  else Some (with_clients (oauth_clients s ++ [row]) s).

Definition delete_client (s : Store) (client_id : string) : Store :=
  with_clients
    (List.filter (fun c => negb (String.eqb (oc_client_id c) client_id)) (oauth_clients s)) s.

(** [oauth_codes]: [id] is the primary key and [code_hash] is UNIQUE. *)
Definition code_conflict (s : Store) (row : OAuthCode) : bool :=
  existsb (fun r => String.eqb (cd_id r) (cd_id row)
                    || String.eqb (cd_code_hash r) (cd_code_hash row))
          (oauth_codes s).

Definition insert_code (s : Store) (row : OAuthCode) : option Store :=
  if code_conflict s row then None
  else Some (with_codes (oauth_codes s ++ [row]) s).

(** [update({ used_at }).eq('id', id)] *)
Definition mark_code_used (s : Store) (id : string) (at_ : Z) : Store :=
  with_codes
    (map (fun r =>
            if String.eqb (cd_id r) id then
              {| cd_id := cd_id r; cd_code_hash := cd_code_hash r;
                 cd_client_id := cd_client_id r;
                 cd_knowledge_base_id := cd_knowledge_base_id r;
                 cd_user_id := cd_user_id r; cd_redirect_uri := cd_redirect_uri r;
                 cd_scopes := cd_scopes r; cd_code_challenge := cd_code_challenge r;
                 cd_code_challenge_method := cd_code_challenge_method r;
                 cd_expires_at := cd_expires_at r; cd_used_at := Some at_ |}
            else r)
         (oauth_codes s)) s.

(** [oauth_tokens]: [id] is the primary key, [access_token_hash] and
    [refresh_token_hash] are UNIQUE (a NULL never conflicts). *)
Definition hash_clash (r : OAuthToken) (access : string) (refresh : option string) : bool :=
  String.eqb (tk_access_token_hash r) access
  || match refresh, tk_refresh_token_hash r with
     | Some a, Some b => String.eqb a b
     | _, _ => false
     end.

Definition insert_token (s : Store) (row : OAuthToken) : option Store :=
  if existsb (fun r => String.eqb (tk_id r) (tk_id row)
                       || hash_clash r (tk_access_token_hash row)
                                       (tk_refresh_token_hash row))
             (oauth_tokens s)
  then None
  else Some (with_tokens (oauth_tokens s ++ [row]) s).

(** The rotation [update({...}).eq('id', id)] of the token endpoint. *)
Definition rotate_token (s : Store) (id : string)
    (access refresh : string) (expires refresh_expires used : Z) : option Store :=
  if existsb (fun r => negb (String.eqb (tk_id r) id)
                       && hash_clash r access (Some refresh))
             (oauth_tokens s)
  then None
  else Some (with_tokens
    (map (fun r =>
            if String.eqb (tk_id r) id then
              {| tk_id := tk_id r; tk_client_id := tk_client_id r;
                 tk_knowledge_base_id := tk_knowledge_base_id r;
                 tk_user_id := tk_user_id r;
                 tk_access_token_hash := access;
                 tk_refresh_token_hash := Some refresh;
                 tk_scopes := tk_scopes r;
                 tk_expires_at := expires;
                 tk_refresh_expires_at := Some refresh_expires;
                 tk_last_used_at := Some used;
                 tk_subscription_id := tk_subscription_id r |}
            else r)
         (oauth_tokens s)) s).

(** [update({ last_used_at }).eq('id', id)] *)
Definition touch_token (s : Store) (id : string) (at_ : Z) : Store :=
  with_tokens
    (map (fun r =>
            if String.eqb (tk_id r) id then
              {| tk_id := tk_id r; tk_client_id := tk_client_id r;
                 tk_knowledge_base_id := tk_knowledge_base_id r;
                 tk_user_id := tk_user_id r;
                 tk_access_token_hash := tk_access_token_hash r;
                 tk_refresh_token_hash := tk_refresh_token_hash r;
                 tk_scopes := tk_scopes r;
                 tk_expires_at := tk_expires_at r;
                 tk_refresh_expires_at := tk_refresh_expires_at r;
                 tk_last_used_at := Some at_;
                 tk_subscription_id := tk_subscription_id r |}
            else r)
         (oauth_tokens s)) s.

(** [delete().eq(column, value)]: the rows that stay, and the rows that
    went (what [.select('id')] returns). *)
Definition delete_tokens (s : Store) (p : OAuthToken -> bool) : Store * list OAuthToken :=
  (with_tokens (List.filter (fun r => negb (p r)) (oauth_tokens s)) s,
   List.filter p (oauth_tokens s)).

(** [update({ revoked_at }).eq('client_id', c).eq('user_id', u)] *)
Definition revoke_client (s : Store) (client_id user : string) (at_ : Z) : Store :=
  with_clients
    (map (fun c =>
            if String.eqb (oc_client_id c) client_id && String.eqb (oc_user_id c) user
            then {| oc_client_id := oc_client_id c;
                    oc_client_secret_hash := oc_client_secret_hash c;
                    oc_knowledge_base_id := oc_knowledge_base_id c;
                    oc_user_id := oc_user_id c;
                    oc_redirect_uris := oc_redirect_uris c;
                    oc_scopes := oc_scopes c;
                    oc_revoked_at := Some at_ |}
            else c)
         (oauth_clients s)) s.

(** [kb_subscriptions]: [id] is the primary key and
    [(knowledge_base_id, subscriber_id)] is UNIQUE; a violation is
    Postgres error 23505. *)
Definition insert_subscription (s : Store) (row : Subscription) : Store + string :=
  if existsb (fun r => String.eqb (sub_id r) (sub_id row)
                       || (String.eqb (sub_knowledge_base_id r) (sub_knowledge_base_id row)
                           && String.eqb (sub_subscriber_id r) (sub_subscriber_id row)))
             (kb_subscriptions s)
  then inr "23505"
  else inl (with_subscriptions (kb_subscriptions s ++ [row]) s).

End Db.

(* ===================================================================== *)
(** * The OAuth routes of the app (src/app/api/oauth)                     *)
(* ===================================================================== *)

Module Routes.
Import Db OAuth.

(** What a request reads from outside the store: the clock, the bytes of
    the [randomBytes] calls it may make (at most three), and the
    [gen_random_uuid()] of the rows it may insert (at most two). *)
Record Env := {
  now : Z;
  random_a : list Z;
  random_b : list Z;
  random_c : list Z;
  uuid : string;
  uuid_b : string
}.

(** The query parameters of [GET /api/oauth/authorize] and the signed-in
    user, if any. *)
Record AuthorizeQuery := {
  q_client_id : option string;
  q_redirect_uri : option string;
  q_response_type : option string;
  q_scope : option string;
  q_state : option string;
  q_code_challenge : option string;
  q_code_challenge_method : option string;
  q_user : option string
}.

(** The parsed form or JSON body of a POST, a [Record<string, string>]. *)
Record Body := {
  grant_type : option string;
  code : option string;
  redirect_uri : option string;
  client_id : option string;
  code_verifier : option string;
  b_refresh_token : option string;
  token : option string;
  token_type_hint : option string
}.

(** A POST request: its [content-type] header and its body, [None] when
    [request.formData()] or [request.json()] throws. *)
Record Post := {
  content_type : option string;
  parsed : option Body
}.

Definition nonempty (o : option string) : option string := Js.or_undefined o.

Section WithURL.
Variable url_hostname : string -> option string.

Local Abbreviation oauthError := (OAuth.oauthError url_hostname).
Local Abbreviation isValidRedirectUri := (OAuth.isValidRedirectUri url_hostname).

(** [GET] of authorize/route.ts *)
Definition authorize (env : Env) (s : Store) (q : AuthorizeQuery)
  : Store * Response :=
  match nonempty (q_client_id q) with
  | None => (s, oauthError INVALID_REQUEST "client_id is required" None None)
  | Some clientId =>
  match nonempty (q_redirect_uri q) with
  | None => (s, oauthError INVALID_REQUEST "redirect_uri is required" None None)
  | Some redirectUri =>
  if negb (opt_eqb (q_response_type q) "code") then
    (s, oauthError UNSUPPORTED_RESPONSE_TYPE "Only response_type=code is supported"
                   (Some redirectUri) (nonempty (q_state q)))
  else
  match nonempty (q_code_challenge q) with
  | None =>
    (s, oauthError INVALID_REQUEST "code_challenge is required (PKCE)"
                   (Some redirectUri) (nonempty (q_state q)))
  | Some codeChallenge =>
  if negb (opt_eqb (q_code_challenge_method q) "S256") then
    (s, oauthError INVALID_REQUEST "code_challenge_method must be S256"
                   (Some redirectUri) (nonempty (q_state q)))
  else
  match q_user q with
  | None => (s, RedirectTo "/login")
  | Some user =>
  (* .eq('client_id', clientId).is('revoked_at', null).single(), inner
     join on the knowledge base *)
  match Js.single
          (List.filter
             (fun c => String.eqb (oc_client_id c) clientId
                       && is_null (oc_revoked_at c)
                       && negb (is_null (kb_by_id s (oc_knowledge_base_id c))))
             (oauth_clients s)) with
  | None =>
    (s, oauthError INVALID_CLIENT "Invalid or revoked client"
                   (Some redirectUri) (nonempty (q_state q)))
  | Some client =>
  match kb_by_id s (oc_knowledge_base_id client) with
  | None =>
    (s, oauthError INVALID_CLIENT "Invalid or revoked client"
                   (Some redirectUri) (nonempty (q_state q)))
  | Some kb =>
  if negb (String.eqb (kb_user_id kb) user) then
    (s, oauthError ACCESS_DENIED "You do not have permission to authorize this client"
                   (Some redirectUri) (nonempty (q_state q)))
  else
  let allowedUris := oc_redirect_uris client in
  if negb (isValidRedirectUri redirectUri allowedUris) then
    (s, oauthError INVALID_REQUEST "Invalid redirect_uri" None None)
  else
  let requestedScopes := parseScopes (q_scope q) in
  let allowedScopes := oc_scopes client in
  let validScopes := List.filter (Js.includes_str allowedScopes) requestedScopes in
  if (length validScopes =? 0)%nat then
    (s, oauthError INVALID_SCOPE "No valid scopes requested"
                   (Some redirectUri) (nonempty (q_state q)))
  else
  let authCode := generateAuthCode (random_a env) in
  let codeHash := hashToken authCode in
  match insert_code s
          {| cd_id := uuid env; cd_code_hash := codeHash;
             cd_client_id := clientId;
             cd_knowledge_base_id := oc_knowledge_base_id client;
             cd_user_id := user; cd_redirect_uri := redirectUri;
             cd_scopes := validScopes;
             cd_code_challenge := Some codeChallenge;
             cd_code_challenge_method := q_code_challenge_method q;
             cd_expires_at := now env + AUTH_CODE * 1000;
             cd_used_at := None |} with
  | None =>
    (s, oauthError SERVER_ERROR "Failed to generate authorization code"
                   (Some redirectUri) (nonempty (q_state q)))
  | Some s' =>
    match url_hostname redirectUri with
    | None => (s', Threw)
    | Some _ => (s', CodeRedirect redirectUri authCode (nonempty (q_state q)))
    end
  end
  end end end end end end.

(** [handleAuthorizationCode] of token/route.ts *)
Definition handleAuthorizationCode (env : Env) (s : Store) (body : Body)
  : Store * Response :=
  match nonempty (code body), nonempty (redirect_uri body),
        nonempty (client_id body), nonempty (code_verifier body) with
  | Some code, Some redirect_uri, Some client_id, Some code_verifier =>
    let codeHash := hashToken code in
    match Js.single
            (List.filter
               (fun r => String.eqb (cd_code_hash r) codeHash && is_null (cd_used_at r))
               (oauth_codes s)) with
    | None =>
      (s, oauthError INVALID_GRANT "Invalid or expired authorization code" None None)
    | Some authCode =>
      if (cd_expires_at authCode <? now env)%Z then
        (mark_code_used s (cd_id authCode) (now env),
         oauthError INVALID_GRANT "Authorization code has expired" None None)
      else if negb (String.eqb (cd_client_id authCode) client_id) then
        (s, oauthError INVALID_GRANT "Client ID mismatch" None None)
      else if negb (String.eqb (cd_redirect_uri authCode) redirect_uri) then
        (s, oauthError INVALID_GRANT "Redirect URI mismatch" None None)
      else
      let challengeMethod := Js.or_else (cd_code_challenge_method authCode) "S256" in
      if negb (validateCodeChallenge code_verifier
                 (Js.or_else (cd_code_challenge authCode) "") challengeMethod) then
        (s, oauthError INVALID_GRANT "Invalid code verifier" None None)
      else
      let s1 := mark_code_used s (cd_id authCode) (now env) in
      let accessToken :=
        generateAccessToken (cd_knowledge_base_id authCode) (random_a env) in
      let refreshToken :=
        generateRefreshToken (cd_knowledge_base_id authCode) (random_b env) in
      let accessExpires := now env + ACCESS_TOKEN * 1000 in
      let refreshExpires := now env + REFRESH_TOKEN * 1000 in
      match insert_token s1
              {| tk_id := uuid env;
                 tk_client_id := cd_client_id authCode;
                 tk_knowledge_base_id := cd_knowledge_base_id authCode;
                 tk_user_id := cd_user_id authCode;
                 tk_access_token_hash := hashToken accessToken;
                 tk_refresh_token_hash := Some (hashToken refreshToken);
                 tk_scopes := cd_scopes authCode;
                 tk_expires_at := accessExpires;
                 tk_refresh_expires_at := Some refreshExpires;
                 tk_last_used_at := None;
                 tk_subscription_id := None |} with
      | None => (s1, oauthError SERVER_ERROR "Failed to generate tokens" None None)
      | Some s2 =>
        (s2, TokenJson {| access_token := accessToken;
                          token_type := "Bearer";
                          expires_in := ACCESS_TOKEN;
                          refresh_token := refreshToken;
                          scope := Js.join_sp (cd_scopes authCode) |})
      end
    end
  | _, _, _, _ =>
    (s, oauthError INVALID_REQUEST
          "Missing required parameters: code, redirect_uri, client_id, code_verifier"
          None None)
  end.

(** [handleRefreshToken] of token/route.ts *)
Definition handleRefreshToken (env : Env) (s : Store) (body : Body)
  : Store * Response :=
  match nonempty (b_refresh_token body) with
  | None => (s, oauthError INVALID_REQUEST "Missing refresh_token" None None)
  | Some refresh_token =>
    let refreshTokenHash := hashToken refresh_token in
    match Js.single
            (List.filter
               (fun r => opt_eqb (tk_refresh_token_hash r) refreshTokenHash)
               (oauth_tokens s)) with
    | None => (s, oauthError INVALID_GRANT "Invalid refresh token" None None)
    | Some existingToken =>
      if match tk_refresh_expires_at existingToken with
         | Some e => (e <? now env)%Z
         | None => false
         end
      then
        (fst (delete_tokens s (fun r => String.eqb (tk_id r) (tk_id existingToken))),
         oauthError INVALID_GRANT "Refresh token has expired" None None)
      else if match nonempty (client_id body) with
              | Some client_id =>
                  negb (String.eqb (tk_client_id existingToken) client_id)
              | None => false
              end
      then (s, oauthError INVALID_GRANT "Client ID mismatch" None None)
      else
      let newAccessToken :=
        generateAccessToken (tk_knowledge_base_id existingToken) (random_a env) in
      let newRefreshToken :=
        generateRefreshToken (tk_knowledge_base_id existingToken) (random_b env) in
      let accessExpires := now env + ACCESS_TOKEN * 1000 in
      let refreshExpires := now env + REFRESH_TOKEN * 1000 in
      match rotate_token s (tk_id existingToken)
              (hashToken newAccessToken) (hashToken newRefreshToken)
              accessExpires refreshExpires (now env) with
      | None => (s, oauthError SERVER_ERROR "Failed to refresh tokens" None None)
      | Some s' =>
        (s', TokenJson {| access_token := newAccessToken;
                          token_type := "Bearer";
                          expires_in := ACCESS_TOKEN;
                          refresh_token := newRefreshToken;
                          scope := Js.join_sp (tk_scopes existingToken) |})
      end
    end
  end.

Definition supported_content_type (ct : option string) : bool :=
  let contentType := Js.or_else ct "" in
  Js.includes contentType "application/x-www-form-urlencoded"
  || Js.includes contentType "application/json".

(** [POST] of token/route.ts *)
Definition token_POST (env : Env) (s : Store) (req : Post) : Store * Response :=
  if negb (supported_content_type (content_type req)) then
    (s, oauthError INVALID_REQUEST "Unsupported content type" None None)
  else
    match parsed req with
    | None => (s, Threw)
    | Some body =>
      if opt_eqb (grant_type body) "authorization_code" then
        handleAuthorizationCode env s body
      else if opt_eqb (grant_type body) "refresh_token" then
        handleRefreshToken env s body
      else
        (s, oauthError UNSUPPORTED_GRANT_TYPE
              "Supported grant types: authorization_code, refresh_token" None None)
    end.

(** [POST] of revoke/route.ts *)
Definition revoke_POST (s : Store) (req : Post) : Store * Response :=
  if negb (supported_content_type (content_type req)) then
    (s, oauthError INVALID_REQUEST "Unsupported content type" None None)
  else
    match parsed req with
    | None => (s, Threw)
    | Some body =>
      match nonempty (token body) with
      | None => (s, oauthError INVALID_REQUEST "Missing token parameter" None None)
      | Some token =>
        let tokenHash := hashToken token in
        if opt_eqb (token_type_hint body) "refresh_token" then
          (fst (delete_tokens s
                  (fun r => opt_eqb (tk_refresh_token_hash r) tokenHash)),
           Empty 200)
        else
          let '(s1, deleted) :=
            delete_tokens s (fun r => String.eqb (tk_access_token_hash r) tokenHash) in
          if (length deleted =? 0)%nat then
            (fst (delete_tokens s1
                    (fun r => opt_eqb (tk_refresh_token_hash r) tokenHash)),
             Empty 200)
          else (s1, Empty 200)
      end
    end.

(** [DELETE] of clients/route.ts: the soft revocation of a client.  The
    update runs as the signed-in user; the deletion of the client's
    tokens runs with the service role. *)
Definition clients_DELETE (env : Env) (s : Store)
    (user : option string) (body : option Body) : Store * Response :=
  match user with
  | None => (s, ErrorJson 401 "unauthorized" "Authentication required")
  | Some user =>
    match body with
    | None => (s, Threw)
    | Some body =>
      match nonempty (client_id body) with
      | None => (s, oauthError INVALID_REQUEST "client_id is required" None None)
      | Some client_id =>
        let s1 := revoke_client s client_id user (now env) in
        (fst (delete_tokens s1 (fun r => String.eqb (tk_client_id r) client_id)),
         Empty 204)
      end
    end
  end.

End WithURL.

End Routes.

(* ===================================================================== *)
(** * The entitlement resolver (src/lib/subscriptions.ts) and its caller  *)
(* ===================================================================== *)

Module Entitlement.
Import Db OAuth Routes.

Record Access := {
  hasAccess : bool;
  subscription : option (string * SubStatus)
}.

Definition denied : Access := {| hasAccess := false; subscription := None |}.
Definition granted : Access := {| hasAccess := true; subscription := None |}.

(** The rows of [.eq('knowledge_base_id', kb).eq('subscriber_id', user)
    .in('status', ['active', 'trialing'])]. *)
Definition live_subscriptions (s : Store) (knowledgeBaseId userId : string)
  : list Subscription :=
  List.filter
    (fun r => String.eqb (sub_knowledge_base_id r) knowledgeBaseId
              && String.eqb (sub_subscriber_id r) userId
              && (status_eqb (sub_status r) Active || status_eqb (sub_status r) Trialing))
    (kb_subscriptions s).

Definition hasKBAccess (now : Z) (s : Store) (knowledgeBaseId userId : string) : Access :=
  match Js.single
          (List.filter (fun kb => String.eqb (kb_id kb) knowledgeBaseId)
                       (knowledge_bases s)) with
  | None => denied
  | Some kb =>
    if String.eqb (kb_user_id kb) userId then granted
    else if negb (visibility_eqb (kb_visibility kb) Public) || negb (kb_mcp_enabled kb)
    then denied
    else if pricing_eqb (kb_pricing_model kb) Free then granted
    else
      match Js.single (live_subscriptions s knowledgeBaseId userId) with
      | None => denied
      | Some subscription =>
        if match sub_current_period_end subscription with
           | Some expiresAt => (expiresAt <? now)%Z
           | None => false
           end
        then denied
        else {| hasAccess := true;
                subscription := Some (sub_id subscription, sub_status subscription) |}
      end
  end.

(** The rows of [.eq('knowledge_base_id', kb).eq('subscriber_id', user)]. *)
Definition subscriptions_of (s : Store) (knowledgeBaseId userId : string)
  : list Subscription :=
  List.filter
    (fun r => String.eqb (sub_knowledge_base_id r) knowledgeBaseId
              && String.eqb (sub_subscriber_id r) userId)
    (kb_subscriptions s).

(** Returns [{ id }] or [null]; [fresh] is the id the database gives the
    inserted row. *)
Definition createFreeSubscription (fresh : string) (s : Store)
    (knowledgeBaseId userId : string) : Store * option string :=
  match insert_subscription s
          {| sub_id := fresh; sub_knowledge_base_id := knowledgeBaseId;
             sub_subscriber_id := userId; sub_status := Active;
             sub_current_period_end := None |} with
  | inl s' => (s', Some fresh)
  | inr code =>
    if String.eqb code "23505" then
      (s, option_map sub_id (Js.single (subscriptions_of s knowledgeBaseId userId)))
    else (s, None)
  end.

(** [POST] of the install-token route, from the lookup of the knowledge
    base on ([user] is the authenticated caller). *)
Definition install_token (env : Env) (s : Store) (slug user : string)
  : Store * Response :=
  match Js.single
          (List.filter (fun kb => String.eqb (kb_slug kb) slug
                                  && visibility_eqb (kb_visibility kb) Public)
                       (knowledge_bases s)) with
  | None => (s, ErrorJson 404 "Knowledge base not found" "")
  | Some kb =>
    if negb (kb_mcp_enabled kb) then
      (s, ErrorJson 400 "MCP is not enabled for this knowledge base" "")
    else
    let accessResult := hasKBAccess (now env) s (kb_id kb) user in
    if negb (hasAccess accessResult) then (s, ErrorJson 403 "Subscription required" "")
    else
    let subscriptionId := option_map fst (subscription accessResult) in
    let '(s1, subscriptionId) :=
      if pricing_eqb (kb_pricing_model kb) Free
         && negb (Js.truthy_opt subscriptionId)
         && negb (String.eqb (kb_user_id kb) user)
      then
        let '(s1, sub) := createFreeSubscription (uuid env) s (kb_id kb) user in
        (s1, Js.or_undefined sub)
      else (s, Js.or_undefined subscriptionId) in
    let clientId := generateToken PREFIX_CLIENT_ID (random_a env) in
    let clientSecret := generateToken PREFIX_CLIENT_SECRET (random_b env) in
    let accessToken := generateToken PREFIX_ACCESS (random_c env) in
    let expiresAt := (now env + 30 * 24 * 60 * 60 * 1000)%Z in
    match insert_client s1
            {| oc_client_id := clientId;
               oc_client_secret_hash := hashToken clientSecret;
               oc_knowledge_base_id := kb_id kb;
               oc_user_id := user;
               oc_redirect_uris := [];
               oc_scopes := ["search"; "list_sources"; "get_info"];
               oc_revoked_at := None |} with
    | None => (s1, ErrorJson 500 "Failed to create connection" "")
    | Some s2 =>
      match insert_token s2
              {| tk_id := uuid_b env;
                 tk_client_id := clientId;
                 tk_knowledge_base_id := kb_id kb;
                 tk_user_id := user;
                 tk_access_token_hash := hashToken accessToken;
                 tk_refresh_token_hash := None;
                 tk_scopes := ["search"; "list_sources"; "get_info"];
                 tk_expires_at := expiresAt;
                 tk_refresh_expires_at := None;
                 tk_last_used_at := None;
                 tk_subscription_id := subscriptionId |} with
      | None => (delete_client s2 clientId, ErrorJson 500 "Failed to create token" "")
      | Some s3 => (s3, InstallJson accessToken expiresAt)
      end
    end
  end.

(** The lookup [.eq('id', knowledgeBaseId).single()] that opens
    [hasKBAccess]. *)
Definition kb_lookup (s : Store) (knowledgeBaseId : string) : option KnowledgeBase :=
  Js.single (List.filter (fun kb => String.eqb (kb_id kb) knowledgeBaseId)
                         (knowledge_bases s)).

End Entitlement.

(* ===================================================================== *)
(** * The gateway worker (mcp-server/src)                                 *)
(* ===================================================================== *)

Module Worker.
Import Db.

(** A call either returns or throws. *)
Inductive Outcome (A : Type) :=
| Returned (a : A)
| Raised.
Arguments Returned {A} a.
Arguments Raised {A}.

(** [TokenValidationResult], with the [subscriptionId] that
    [validateAccessToken] adds. *)
Record TokenValidationResult := {
  valid : bool;
  kb : option KnowledgeBase;
  userId : option string;
  clientId : option string;
  scopes : option (list string);
  subscriptionId : option string;
  error : option string
}.

Definition invalid (msg : string) : TokenValidationResult :=
  {| valid := false; kb := None; userId := None; clientId := None;
     scopes := None; subscriptionId := None; error := Some msg |}.

(** db/supabase.ts *)
Definition validateAccessToken (now : Z) (s : Store) (tokenHash : string)
  : Store * Outcome TokenValidationResult :=
  match Js.single
          (List.filter (fun r => String.eqb (tk_access_token_hash r) tokenHash)
                       (oauth_tokens s)) with
  | None => (s, Returned (invalid "Invalid access token"))
  | Some token =>
    if (tk_expires_at token <? now)%Z then
      (s, Returned (invalid "Access token expired"))
    else
    match kb_by_id s (tk_knowledge_base_id token) with
    | None => (s, Raised)   (* [kb] is null and [kb.pricing_model] throws *)
    | Some kb =>
      let proceed :=
        (touch_token s (tk_id token) now,
         Returned {| valid := true; kb := Some kb;
                     userId := Some (tk_user_id token);
                     clientId := Some (tk_client_id token);
                     scopes := Some (tk_scopes token);
                     subscriptionId := tk_subscription_id token;
                     error := None |}) in
      if pricing_eqb (kb_pricing_model kb) Paid then
        if String.eqb (tk_user_id token) (kb_user_id kb) then proceed
        else
          match Js.or_undefined (tk_subscription_id token) with
          | Some subscription_id =>
            match Js.single
                    (List.filter (fun r => String.eqb (sub_id r) subscription_id)
                                 (kb_subscriptions s)) with
            | None =>
              (s, Returned (invalid "Subscription required for this knowledge base"))
            | Some subscription =>
              if negb (status_eqb (sub_status subscription) Active)
                 && negb (status_eqb (sub_status subscription) Trialing)
              then (s, Returned (invalid "Subscription is not active"))
              else if match sub_current_period_end subscription with
                      | Some e => (e <? now)%Z
                      | None => false
                      end
              then (s, Returned (invalid "Subscription has expired"))
              else proceed
            end
          | None =>
            (s, Returned (invalid "Subscription required for this knowledge base"))
          end
      else proceed
    end
  end.

Definition getKnowledgeBaseBySlug (s : Store) (slug : string) : option KnowledgeBase :=
  Js.single
    (List.filter (fun kb => String.eqb (kb_slug kb) slug && kb_mcp_enabled kb)
                 (knowledge_bases s)).

(** The [hashToken] of auth/validate.ts: SHA-256 through
    [crypto.subtle], written as lower-case hex pairs. *)
Definition hashToken (token : string) : string :=
  Encoding.hex (Sha256.digest token).

(** auth/validate.ts *)
Definition validateToken (now : Z) (s : Store)
    (authHeader : option string) (slug : string)
  : Store * Outcome TokenValidationResult :=
  match Js.or_undefined authHeader with
  | None => (s, Returned (invalid "Missing Authorization header"))
  | Some authHeader =>
    match Js.split " " authHeader with
    | [scheme; token] =>
      if negb (String.eqb (Js.toLowerCase scheme) "bearer") then
        (s, Returned (invalid "Invalid Authorization header format"))
      else if negb (Js.startsWith token "sha_kb_") then
        (s, Returned (invalid "Invalid token format"))
      else
        match getKnowledgeBaseBySlug s slug with
        | None =>
          (s, Returned (invalid "Knowledge base not found or MCP not enabled"))
        | Some kb_ =>
          let tokenHash := hashToken token in
          match validateAccessToken now s tokenHash with
          | (s', Raised) => (s', Raised)
          | (s', Returned tokenResult) =>
            if negb (valid tokenResult) then (s', Returned tokenResult)
            else if negb (match kb tokenResult with
                          | Some k => String.eqb (kb_id k) (kb_id kb_)
                          | None => false
                          end)
            then (s', Returned (invalid "Token not valid for this knowledge base"))
            else
              (s', Returned {| valid := true; kb := kb tokenResult;
                               userId := userId tokenResult;
                               clientId := clientId tokenResult;
                               scopes := scopes tokenResult;
                               subscriptionId := None;
                               error := None |})
          end
        end
    | _ => (s, Returned (invalid "Invalid Authorization header format"))
    end
  end.

Record AuthContext := {
  ctx_kb : KnowledgeBase;
  ctx_userId : string;
  ctx_clientId : string;
  ctx_scopes : list string
}.

Definition createAuthContext (result : TokenValidationResult) : option AuthContext :=
  if negb (valid result) then None
  else
    match kb result, Js.or_undefined (userId result),
          Js.or_undefined (clientId result), scopes result with
    | Some k, Some u, Some c, Some sc =>
      Some {| ctx_kb := k; ctx_userId := u; ctx_clientId := c; ctx_scopes := sc |}
    | _, _, _, _ => None
    end.

(** ** utils/rate-limit.ts *)

Definition KB_LIMIT : Z := 60.
Definition CLIENT_LIMIT : Z := 30.
Definition WINDOW_SIZE : Z := 60.

(** The KV namespace: under a key, the counter and the instant (in
    milliseconds) at which the entry expires.  The counter is kept as the
    number that [String] and [parseInt] convert to and from. *)
Record Kv := {
  entries : gmap string (Z * Z);
  reachable : bool
}.

Definition kv_get (now : Z) (kv : Kv) (key : string) : Outcome (option Z) :=
  if reachable kv then
    match entries kv !! key with
    | Some (count, expires) =>
      if (now <? expires)%Z then Returned (Some count) else Returned None
    | None => Returned None
    end
  else Raised.

Definition kv_put (now : Z) (kv : Kv) (key : string) (count ttl : Z) : Outcome Kv :=
  if reachable kv then
    Returned {| entries := <[key := (count, (now + ttl * 1000)%Z)]> (entries kv);
                reachable := reachable kv |}
  else Raised.

(** [Math.floor(Date.now() / 1000 / WINDOW_SIZE) * WINDOW_SIZE] *)
Definition windowStart (now : Z) : Z := (now / 1000 / WINDOW_SIZE * WINDOW_SIZE)%Z.

Definition getRateLimitKey (now : Z) (kbId : string) (clientId : option string) : string :=
  match Js.or_undefined clientId with
  | Some clientId => "rate:" +:+ kbId +:+ ":" +:+ clientId +:+ ":" +:+ pretty (windowStart now)
  | None => "rate:" +:+ kbId +:+ ":" +:+ pretty (windowStart now)
  end.

Record RateLimitInfo := {
  allowed : bool;
  remaining : Z;
  resetAt : Z;
  limit : Z
}.

Definition checkRateLimit (now : Z) (kv : Kv) (kbId : string) (clientId : option string)
  : Kv * RateLimitInfo :=
  let key := getRateLimitKey now kbId clientId in
  let limit := if Js.truthy_opt clientId then CLIENT_LIMIT else KB_LIMIT in
  let resetAt := (windowStart now + WINDOW_SIZE)%Z in
  let fail_open :=
    (kv, {| allowed := true; remaining := limit; resetAt := resetAt; limit := limit |}) in
  match kv_get now kv key with
  | Raised => fail_open
  | Returned currentCount =>
    let count := match currentCount with Some c => c | None => 0%Z end in
    if (limit <=? count)%Z then
      (kv, {| allowed := false; remaining := 0; resetAt := resetAt; limit := limit |})
    else
      match kv_put now kv key (count + 1) WINDOW_SIZE with
      | Raised => fail_open
      | Returned kv' =>
        (kv', {| allowed := true; remaining := (limit - count - 1)%Z;
                 resetAt := resetAt; limit := limit |})
      end
  end.

(** ** index.ts *)

(** The JSON-RPC fields the dispatcher reads from a request body. *)
Record Rpc := {
  jsonrpc : option string;
  rpc_method : option string;   (* [Some] when [method] is a string *)
  has_id : bool;
  tool_name : option string
}.

Inductive ReqBody :=
| BadJson                 (* [request.json()] throws *)
| JsonNull
| JsonNonObject           (* a number, a string or a boolean *)
| JsonObject (r : Rpc).

Record Request := {
  method : string;
  path : string;
  authorization : option string;
  accept : option string;
  body : ReqBody
}.

Record Response := {
  status : Z;
  message : option string;
  rate_limit : option RateLimitInfo
}.

Definition respond (st : Z) (msg : option string) : Response :=
  {| status := st; message := msg; rate_limit := None |}.

Definition slug_char (c : Ascii.ascii) : bool :=
  let n := Ascii.nat_of_ascii c in
  ((97 <=? n) && (n <=? 122) || (48 <=? n) && (n <=? 57) || (n =? 45))%nat.

Fixpoint all_chars (p : Ascii.ascii -> bool) (s : string) : bool :=
  match s with
  | EmptyString => true
  | String c r => p c && all_chars p r
  end.

(** [path.match(/^\/mcp\/([a-z0-9-]+)$/)] *)
Definition mcp_slug (path : string) : option string :=
  if Js.startsWith path "/mcp/" then
    let slug := Js.slice 5 path in
    if Js.truthy slug && all_chars slug_char slug then Some slug else None
  else None.

Definition parseMCPRequest (b : ReqBody) : option Rpc :=
  match b with
  | JsonObject r =>
    if negb (opt_eqb (jsonrpc r) "2.0") then None
    else match rpc_method r with
         | Some _ => Some r
         | None => None
         end
  | _ => None
  end.

Record World := {
  db : Store;
  kv : Kv
}.

(** What the [try] block of [fetch] leaves behind: the world, the
    response, and the [method] and [statusCode] variables that the
    [finally] block logs. *)
Definition handle_post (now : Z) (w : World) (req : Request) (slug : string)
  : World * Response * string * Z :=
  match validateToken now (db w) (authorization req) slug with
  | (s1, Raised) =>
    ({| db := s1; kv := kv w |}, respond 500 (Some "Internal server error"), "unknown", 500%Z)
  | (s1, Returned tokenResult) =>
    let w1 := {| db := s1; kv := kv w |} in
    if negb (valid tokenResult) then
      (w1, respond 401 (Some (Js.or_else (error tokenResult) "Unauthorized")),
       "unknown", 401%Z)
    else
      match createAuthContext tokenResult with
      | None =>
        (w1, respond 500 (Some "Internal error: invalid auth context"), "unknown", 500%Z)
      | Some authContext =>
        let '(kv1, rateLimitInfo) :=
          checkRateLimit now (kv w1) (kb_id (ctx_kb authContext))
                         (Some (ctx_clientId authContext)) in
        let w2 := {| db := s1; kv := kv1 |} in
        if negb (allowed rateLimitInfo) then
          (w2, {| status := 429; message := Some "Rate limit exceeded";
                  rate_limit := Some rateLimitInfo |}, "unknown", 429%Z)
        else
          match body req with
          | BadJson =>
            (w2, respond 400 (Some "Parse error: invalid JSON"), "unknown", 400%Z)
          | b =>
            match parseMCPRequest b with
            | None => (w2, respond 400 (Some "Invalid request"), "unknown", 400%Z)
            | Some mcpRequest =>
              (* [method = mcpRequest.method], which [parseMCPRequest] has
                 found to be a string *)
              (w2, {| status := 200; message := None;
                      rate_limit := Some rateLimitInfo |},
               default "unknown" (rpc_method mcpRequest), 200%Z)
            end
          end
      end
  end.

(** The [finally] block: validate the token once more and, when it is
    valid, append the request log.  [now] is the clock that this second
    validation reads, which is not earlier than the one of the [try]
    block. *)
Definition log_request (now : Z) (w : World) (req : Request) (slug : string)
    (method_ : string) (statusCode : Z) : World :=
  match validateToken now (db w) (authorization req) slug with
  | (s1, Raised) => {| db := s1; kv := kv w |}
  | (s1, Returned tokenResult) =>
    match valid tokenResult, kb tokenResult with
    | true, Some k =>
      {| db := with_requests
                 (mcp_requests s1 ++
                  [{| lg_knowledge_base_id := kb_id k;
                      lg_client_id := Js.or_undefined (clientId tokenResult);
                      lg_method := method_;
                      lg_status_code := statusCode |}]) s1;
         kv := kv w |}
    | _, _ => {| db := s1; kv := kv w |}
    end
  end.

(** [fetch]: [now] is the clock that the [try] block reads and [later]
    the one that the [finally] block reads when it validates the token
    again. *)
Definition fetch_at (now later : Z) (w : World) (req : Request) : World * Response :=
  if String.eqb (method req) "OPTIONS" then (w, respond 200 None)
  else if String.eqb (path req) "/health" && String.eqb (method req) "GET" then
    (w, respond 200 None)
  else
    match mcp_slug (path req) with
    | None => (w, respond 404 (Some "Not found"))
    | Some slug =>
      if String.eqb (method req) "GET" then
        if Js.includes (Js.or_else (accept req) "") "text/event-stream" then
          match validateToken now (db w) (authorization req) slug with
          | (s1, Raised) => ({| db := s1; kv := kv w |}, respond 500 None)
          | (s1, Returned tokenResult) =>
            if negb (valid tokenResult) then
              ({| db := s1; kv := kv w |},
               respond 401 (Some (Js.or_else (error tokenResult) "Unauthorized")))
            else ({| db := s1; kv := kv w |}, respond 200 None)
          end
        else (w, respond 200 None)
      else if String.eqb (method req) "DELETE" then (w, respond 204 None)
      else if negb (String.eqb (method req) "POST") then
        (w, respond 405 (Some "Method not allowed"))
      else
        let '(w1, response, method_, statusCode) := handle_post now w req slug in
        (log_request later w1 req slug method_ statusCode, response)
    end.

(** A request that is served within one reading of the clock. *)
Definition fetch (now : Z) (w : World) (req : Request) : World * Response :=
  fetch_at now now w req.

End Worker.

(* ===================================================================== *)
(** * The in-app protocol route (src/app/api/mcp/[slug]/route.ts)         *)
(* ===================================================================== *)

Module McpRoute.
Import Db Worker.

Definition getKnowledgeBase (s : Store) (slug : string) : option KnowledgeBase :=
  Js.single
    (List.filter (fun kb => String.eqb (kb_slug kb) slug && kb_mcp_enabled kb)
                 (knowledge_bases s)).

Definition known_tool (name : string) : bool :=
  String.eqb name "search" || String.eqb name "list_sources" || String.eqb name "get_info".

(** The status of [POST]; [tool_throws] says whether the tool that the
    request names throws while it runs (the search and the store are
    collaborators). *)
Definition POST (tool_throws : bool) (s : Store) (slug : string) (b : ReqBody) : Z :=
  match getKnowledgeBase s slug with
  | None => 404
  | Some kb =>
    if negb (visibility_eqb (kb_visibility kb) Public) then 403
    else
      match b with
      | BadJson => 500
      | JsonNull => 500
      | JsonNonObject => 400
      | JsonObject r =>
        if negb (opt_eqb (jsonrpc r) "2.0") || negb (Js.truthy_opt (rpc_method r))
           || negb (has_id r)
        then 400
        else
          let m := Js.or_else (rpc_method r) "" in
          if String.eqb m "initialize" then 200
          else if String.eqb m "tools/list" then 200
          else if String.eqb m "tools/call" then
            match Js.or_undefined (tool_name r) with
            | None => 400
            | Some name =>
              if known_tool name then (if tool_throws then 500 else 200) else 500
            end
          else if String.eqb m "ping" then 200
          else 400
      end
  end.

(** The status of [GET]. *)
Definition GET (s : Store) (slug : string) : Z :=
  match getKnowledgeBase s slug with
  | None => 404
  | Some _ => 200
  end.

End McpRoute.

(* ===================================================================== *)
(** * Fixtures                                                            *)
(* ===================================================================== *)

Module Sample.
Import Db OAuth Routes.

(** A stand-in for the platform's URL parser on plain [http(s)://host/...]
    addresses: the text between ["://"] and the next [/], [:], [?] or [#]. *)
Fixpoint until_delim (s : string) : string :=
  match s with
  | EmptyString => EmptyString
  | String c r =>
    if (Ascii.eqb c "/" || Ascii.eqb c ":" || Ascii.eqb c "?" || Ascii.eqb c "#")%char
    then EmptyString
    else String c (until_delim r)
  end.

Definition hostname (uri : string) : option string :=
  if Js.startsWith uri "https://" then Some (until_delim (Js.slice 8 uri))
  else if Js.startsWith uri "http://" then Some (until_delim (Js.slice 7 uri))
  else None.

Definition kb1 : KnowledgeBase :=
  {| kb_id := "11111111-aaaa"; kb_user_id := "owner"; kb_slug := "docs";
     kb_visibility := Public; kb_pricing_model := Free; kb_mcp_enabled := true |}.

Definition kb_paid : KnowledgeBase :=
  {| kb_id := "22222222-bbbb"; kb_user_id := "owner"; kb_slug := "pro";
     kb_visibility := Public; kb_pricing_model := Paid; kb_mcp_enabled := true |}.

Definition kb_private : KnowledgeBase :=
  {| kb_id := "33333333-cccc"; kb_user_id := "owner"; kb_slug := "secret";
     kb_visibility := Private; kb_pricing_model := Free; kb_mcp_enabled := true |}.

(** Alice subscribes to the paid knowledge base. *)
Definition sub_alice : Subscription :=
  {| sub_id := "sub-1"; sub_knowledge_base_id := "22222222-bbbb";
     sub_subscriber_id := "alice"; sub_status := Active;
     sub_current_period_end := Some 9000000 |}.

Definition client1 : OAuthClient :=
  {| oc_client_id := "mcp_client_1"; oc_client_secret_hash := "";
     oc_knowledge_base_id := "11111111-aaaa"; oc_user_id := "owner";
     oc_redirect_uris := ["https://x.test/cb"];
     oc_scopes := ["search"; "get_info"]; oc_revoked_at := None |}.

Definition store0 : Store :=
  {| knowledge_bases := [kb1; kb_paid; kb_private]; oauth_clients := [client1];
     oauth_codes := []; oauth_tokens := []; kb_subscriptions := [];
     mcp_requests := [] |}.

Definition verifier : string := "dBjftJeZ4CVP-mB92K27uhbUJU1p1r_wW1gFWFOEjXk".

Definition query (scope : option string) : AuthorizeQuery :=
  {| q_client_id := Some "mcp_client_1";
     q_redirect_uri := Some "https://x.test/cb";
     q_response_type := Some "code";
     q_scope := scope;
     q_state := Some "xyz";
     q_code_challenge := Some (generateCodeChallenge verifier "S256");
     q_code_challenge_method := Some "S256";
     q_user := Some "owner" |}.

Definition env (t : Z) (a b : list Z) (id : string) : Env :=
  {| now := t; random_a := a; random_b := b; random_c := [];
     uuid := id; uuid_b := id +:+ "-b" |}.

Definition exchange_body (c : string) : Body :=
  {| grant_type := Some "authorization_code"; code := Some c;
     redirect_uri := Some "https://x.test/cb"; client_id := Some "mcp_client_1";
     code_verifier := Some verifier; b_refresh_token := None; token := None;
     token_type_hint := None |}.

Definition refresh_body (r : string) : Body :=
  {| grant_type := Some "refresh_token"; code := None; redirect_uri := None;
     client_id := None; code_verifier := None; b_refresh_token := Some r;
     token := None; token_type_hint := None |}.

Definition revoke_body (t : string) : Body :=
  {| grant_type := None; code := None; redirect_uri := None; client_id := None;
     code_verifier := None; b_refresh_token := None; token := Some t;
     token_type_hint := None |}.

Definition json (b : Body) : Post :=
  {| content_type := Some "application/json"; parsed := Some b |}.

Definition store_sub : Store := with_subscriptions [sub_alice] store0.

(** Alice installs the free knowledge base at [t = 3000]. *)
Definition env_alice : Env :=
  {| now := 3000; random_a := [51]; random_b := [52]; random_c := [53];
     uuid := "sub-row-1"; uuid_b := "token-row-a" |}.

Definition sub_alice_free : Subscription :=
  {| sub_id := "sub-row-1"; sub_knowledge_base_id := "11111111-aaaa";
     sub_subscriber_id := "alice"; sub_status := Active;
     sub_current_period_end := None |}.

Definition store_alice_free : Store :=
  fst (Entitlement.install_token env_alice store0 "docs" "alice").

(** The code that [authorize] issues at [store0] with random bytes [[1;2;3]]. *)
Definition code1 : string := generateAuthCode [1; 2; 3].

Definition store_with_code : Store :=
  fst (authorize hostname (env 1000 [1; 2; 3] [] "code-row-1") store0 (query None)).

Definition code_row1 : OAuthCode :=
  {| cd_id := "code-row-1"; cd_code_hash := hashToken code1;
     cd_client_id := "mcp_client_1"; cd_knowledge_base_id := "11111111-aaaa";
     cd_user_id := "owner"; cd_redirect_uri := "https://x.test/cb";
     cd_scopes := ["search"; "get_info"];
     cd_code_challenge := Some (generateCodeChallenge verifier "S256");
     cd_code_challenge_method := Some "S256";
     cd_expires_at := 601000; cd_used_at := None |}.

Definition tokens1 : TokenBody :=
  {| access_token := generateAccessToken "11111111-aaaa" [4; 5; 6];
     token_type := "Bearer"; expires_in := 3600;
     refresh_token := generateRefreshToken "11111111-aaaa" [7; 8; 9];
     scope := "search get_info" |}.

(** The exchange of [code1] one second later. *)
Definition access1 : string := generateAccessToken "11111111-aaaa" [4; 5; 6].
Definition refresh1 : string := generateRefreshToken "11111111-aaaa" [7; 8; 9].

Definition store_with_tokens : Store :=
  fst (handleAuthorizationCode hostname (env 2000 [4; 5; 6] [7; 8; 9] "token-row-1")
         store_with_code (exchange_body code1)).


(** The refresh of [refresh1] at [t = 5000]. *)
Definition refresh2 : string := generateRefreshToken "11111111-aaaa" [24; 25; 26].

Definition tokens2 : TokenBody :=
  {| access_token := generateAccessToken "11111111-aaaa" [21; 22; 23];
     token_type := "Bearer"; expires_in := 3600;
     refresh_token := refresh2;
     scope := "search get_info" |}.

Definition store_rotated : Store :=
  fst (handleRefreshToken hostname (env 5000 [21; 22; 23] [24; 25; 26] "unused")
         store_with_tokens (refresh_body refresh1)).


(** The owner revokes [client1] at [t = 1500], while [code1] is still
    outstanding. *)
Definition delete_body : Body :=
  {| grant_type := None; code := None; redirect_uri := None;
     client_id := Some "mcp_client_1"; code_verifier := None;
     b_refresh_token := None; token := None; token_type_hint := None |}.

Definition store_revoked : Store :=
  fst (clients_DELETE hostname (env 1500 [] [] "unused") store_with_code
         (Some "owner") (Some delete_body)).


End Sample.

(* ===================================================================== *)
(** * Sequences of requests                                               *)
(* ===================================================================== *)

Module Trace.
Import Db OAuth Routes.

(** A request to one of the routes of the app. *)
Inductive Call :=
| Authorize (q : AuthorizeQuery)
| Token (req : Post)
| Revoke (req : Post)
| DeleteClient (user : option string) (body : option Body)
| InstallToken (slug user : string).

Section WithURL.
Variable url_hostname : string -> option string.

(** The handlers share no state but the store, so requests handled one
    after the other thread the store through.  Two exchanges in flight at
    once are followed call by call in [Race]. *)
Definition step (s : Store) (ec : Env * Call) : Store * Response :=
  match snd ec with
  | Authorize q => authorize url_hostname (fst ec) s q
  | Token req => token_POST url_hostname (fst ec) s req
  | Revoke req => revoke_POST url_hostname s req
  | DeleteClient user body => clients_DELETE url_hostname (fst ec) s user body
  | InstallToken slug user => Entitlement.install_token (fst ec) s slug user
  end.

Fixpoint run (s : Store) (calls : list (Env * Call)) : Store * list Response :=
  match calls with
  | [] => (s, [])
  | c :: cs =>
    let '(s1, r) := step s c in
    let '(s2, rs) := run s1 cs in
    (s2, r :: rs)
  end.

End WithURL.

(** The call is an [authorization_code] exchange of the code [c] and it
    was answered with tokens. *)
Definition exchanged (c : string) (call : Env * Call) (r : Response) : bool :=
  match snd call, r with
  | Token req, TokenJson _ =>
    match parsed req with
    | Some b => opt_eqb (grant_type b) "authorization_code" && opt_eqb (code b) c
    | None => false
    end
  | _, _ => false
  end.

Definition successes (c : string) (calls : list (Env * Call)) (rs : list Response) : nat :=
  length (List.filter (fun p => exchanged c (fst p) (snd p)) (combine calls rs)).

(** The filter of the code lookup of the token endpoint. *)
Definition unused_with (h : string) (r : OAuthCode) : bool :=
  String.eqb (cd_code_hash r) h && is_null (cd_used_at r).

(** Some row of [oauth_codes] has hash [h]. *)
Definition known (h : string) (s : Store) : Prop :=
  exists r, In r (oauth_codes s) /\ cd_code_hash r = h.

(** Every row of [oauth_codes] with hash [h] has [used_at] set. *)
Definition spent (h : string) (s : Store) : Prop :=
  forall r, In r (oauth_codes s) -> cd_code_hash r = h -> cd_used_at r <> None.

(** The filter of the refresh-token lookup of the token endpoint. *)
Definition refresh_with (h : string) (r : OAuthToken) : bool :=
  opt_eqb (tk_refresh_token_hash r) h.

(** No row of [oauth_tokens] has refresh hash [h]. *)
Definition retired (h : string) (s : Store) : Prop :=
  forall r, In r (oauth_tokens s) -> tk_refresh_token_hash r <> Some h.



(** The same authorization request with another [scope] parameter. *)
Definition with_scope (scope : option string) (q : AuthorizeQuery) : AuthorizeQuery :=
  {| q_client_id := q_client_id q; q_redirect_uri := q_redirect_uri q;
     q_response_type := q_response_type q; q_scope := scope;
     q_state := q_state q; q_code_challenge := q_code_challenge q;
     q_code_challenge_method := q_code_challenge_method q; q_user := q_user q |}.

(** No space-separated entry of [s] is a scope name. *)
Definition unrecognized (s : string) : Prop :=
  Forall (fun entry => ~ In entry OAUTH_SCOPES) (Js.split " " s).

End Trace.

(* ===================================================================== *)
(** * The exchange of a code, one database call at a time                 *)
(* ===================================================================== *)

Module Race.
Import Db OAuth Routes.

(** Where [handleAuthorizationCode] stands once its SELECT has returned
    and the checks on the row it read are done: it has answered, or it
    holds that row and goes on to refuse it as expired, or to issue tokens
    for it. *)
Inductive Selected :=
| Answered (r : Response)
| Expired (authCode : OAuthCode)
| Verified (authCode : OAuthCode).

Section WithURL.
Variable url_hostname : string -> option string.

Local Abbreviation oauthError := (OAuth.oauthError url_hostname).

(** The SELECT [.eq('code_hash', codeHash).is('used_at', null).single()]
    and the checks that follow it, which read the row that was returned
    and nothing else of the store. *)
Definition select_code (env : Env) (s : Store) (body : Body) : Selected :=
  match nonempty (code body), nonempty (redirect_uri body),
        nonempty (client_id body), nonempty (code_verifier body) with
  | Some code, Some redirect_uri, Some client_id, Some code_verifier =>
    let codeHash := hashToken code in
    match Js.single
            (List.filter
               (fun r => String.eqb (cd_code_hash r) codeHash && is_null (cd_used_at r))
               (oauth_codes s)) with
    | None =>
      Answered (oauthError INVALID_GRANT "Invalid or expired authorization code"
                           None None)
    | Some authCode =>
      if (cd_expires_at authCode <? now env)%Z then Expired authCode
      else if negb (String.eqb (cd_client_id authCode) client_id) then
        Answered (oauthError INVALID_GRANT "Client ID mismatch" None None)
      else if negb (String.eqb (cd_redirect_uri authCode) redirect_uri) then
        Answered (oauthError INVALID_GRANT "Redirect URI mismatch" None None)
      else
      let challengeMethod := Js.or_else (cd_code_challenge_method authCode) "S256" in
      if negb (validateCodeChallenge code_verifier
                 (Js.or_else (cd_code_challenge authCode) "") challengeMethod) then
        Answered (oauthError INVALID_GRANT "Invalid code verifier" None None)
      else Verified authCode
    end
  | _, _, _, _ =>
    Answered
      (oauthError INVALID_REQUEST
         "Missing required parameters: code, redirect_uri, client_id, code_verifier"
         None None)
  end.

(** The UPDATE [update({ used_at }).eq('id', authCode.id)].  It carries no
    condition on [used_at] and its result is not read. *)
Definition mark (env : Env) (s : Store) (authCode : OAuthCode) : Store :=
  mark_code_used s (cd_id authCode) (now env).

(** The token row that the handler builds for the row it selected. *)
Definition token_row (env : Env) (authCode : OAuthCode) : OAuthToken :=
  let accessToken :=
    generateAccessToken (cd_knowledge_base_id authCode) (random_a env) in
  let refreshToken :=
    generateRefreshToken (cd_knowledge_base_id authCode) (random_b env) in
  let accessExpires := now env + ACCESS_TOKEN * 1000 in
  let refreshExpires := now env + REFRESH_TOKEN * 1000 in
  {| tk_id := uuid env;
     tk_client_id := cd_client_id authCode;
     tk_knowledge_base_id := cd_knowledge_base_id authCode;
     tk_user_id := cd_user_id authCode;
     tk_access_token_hash := hashToken accessToken;
     tk_refresh_token_hash := Some (hashToken refreshToken);
     tk_scopes := cd_scopes authCode;
     tk_expires_at := accessExpires;
     tk_refresh_expires_at := Some refreshExpires;
     tk_last_used_at := None;
     tk_subscription_id := None |}.

(** The INSERT of the token row, and the answer. *)
Definition issue (env : Env) (s : Store) (authCode : OAuthCode) : Store * Response :=
  match insert_token s (token_row env authCode) with
  | None => (s, oauthError SERVER_ERROR "Failed to generate tokens" None None)
  | Some s2 =>
    (s2, TokenJson
           {| access_token :=
                generateAccessToken (cd_knowledge_base_id authCode) (random_a env);
              token_type := "Bearer";
              expires_in := ACCESS_TOKEN;
              refresh_token :=
                generateRefreshToken (cd_knowledge_base_id authCode) (random_b env);
              scope := Js.join_sp (cd_scopes authCode) |})
  end.

(** What the handler does after its SELECT, on the store as it is by
    then. *)
Definition finish (env : Env) (s : Store) (sel : Selected) : Store * Response :=
  match sel with
  | Answered r => (s, r)
  | Expired authCode =>
    (mark env s authCode,
     oauthError INVALID_GRANT "Authorization code has expired" None None)
  | Verified authCode => issue env (mark env s authCode) authCode
  end.

(** Two exchanges in flight at once, the SELECT of the second returning
    before the UPDATE of the first is applied: the store they leave and
    their two answers. *)
Definition race (env1 env2 : Env) (s : Store) (body1 body2 : Body)
  : Store * Response * Response :=
  let sel1 := select_code env1 s body1 in
  let sel2 := select_code env2 s body2 in
  let '(s1, r1) := finish env1 s sel1 in
  let '(s2, r2) := finish env2 s1 sel2 in
  (s2, r1, r2).

End WithURL.

End Race.

Module Scenario.
Import Db OAuth Routes Trace.

(** [code1] exchanged at [t = 2000], and the same request again at
    [t = 3000]. *)
Definition exchange_twice : list (Env * Call) :=
  [ (Sample.env 2000 [4; 5; 6] [7; 8; 9] "token-row-1",
     Token (Sample.json (Sample.exchange_body Sample.code1)));
    (Sample.env 3000 [14; 15; 16] [17; 18; 19] "token-row-2",
     Token (Sample.json (Sample.exchange_body Sample.code1))) ].


(** A second exchange of [code1], in flight together with the one at
    [t = 2000]: the environment it reads, the pair it hands out, and the
    outcome when its SELECT returns before the UPDATE of the first is
    applied. *)
Definition second_exchange : Env :=
  Sample.env 2001 [14; 15; 16] [17; 18; 19] "token-row-2".

Definition access_b : string := generateAccessToken "11111111-aaaa" [14; 15; 16].

Definition tokens_b : TokenBody :=
  {| access_token := access_b;
     token_type := "Bearer"; expires_in := 3600;
     refresh_token := generateRefreshToken "11111111-aaaa" [17; 18; 19];
     scope := "search get_info" |}.

Definition raced : Store * Response * Response :=
  Race.race Sample.hostname
    (Sample.env 2000 [4; 5; 6] [7; 8; 9] "token-row-1") second_exchange
    Sample.store_with_code
    (Sample.exchange_body Sample.code1) (Sample.exchange_body Sample.code1).

(** The new pair is used: [refresh2] is presented at [t = 6000]. *)
Definition use_new_pair : list (Env * Call) :=
  [ (Sample.env 6000 [31; 32; 33] [34; 35; 36] "unused",
     Token (Sample.json (Sample.refresh_body Sample.refresh2))) ].

End Scenario.

(* ===================================================================== *)
(** * Gateway traffic                                                     *)
(* ===================================================================== *)

Module Traffic.
Import Db Worker.

(** Requests served one after the other, each at its own instant. *)
Fixpoint serve (w : World) (reqs : list (Z * Request)) : World * list Response :=
  match reqs with
  | [] => (w, [])
  | (now, req) :: rest =>
    let '(w1, r) := fetch now w req in
    let '(w2, rs) := serve w1 rest in
    (w2, r :: rs)
  end.

(** The subscription that a token row links to is missing, or is not
    active or trialing, or its period has ended. *)
Definition lapsed (now : Z) (s : Store) (subscription_id : option string) : Prop :=
  match Js.or_undefined subscription_id with
  | None => True
  | Some id =>
    match Js.single (List.filter (fun r => String.eqb (sub_id r) id)
                                 (kb_subscriptions s)) with
    | None => True
    | Some sub =>
      (sub_status sub <> Active /\ sub_status sub <> Trialing)
      \/ exists e, sub_current_period_end sub = Some e /\ (e < now)%Z
    end
  end.

(** [checkRateLimit] called once at each of the instants [times], for the
    same repository and client: the store it leaves and its answers. *)
Fixpoint limiter (kv : Kv) (times : list Z) (kbId : string) (clientId : option string)
  : Kv * list bool :=
  match times with
  | [] => (kv, [])
  | now :: rest =>
    let '(kv1, info) := checkRateLimit now kv kbId clientId in
    let '(kv2, answers) := limiter kv1 rest kbId clientId in
    (kv2, allowed info :: answers)
  end.

(** The counter under [key] reads [c] throughout the window that starts
    at second [W]: the entry is absent and [c = 0], or it holds [c] and
    expires after the window. *)
Definition counts (W : Z) (kv : Kv) (key : string) (c : Z) : Prop :=
  reachable kv = true
  /\ ((entries kv !! key = None /\ c = 0%Z)
      \/ exists expires, entries kv !! key = Some (c, expires)
                         /\ ((W + 60) * 1000 <= expires)%Z).

(** The ceiling that [checkRateLimit] applies. *)
Definition ceiling (clientId : option string) : Z :=
  if Js.truthy_opt clientId then CLIENT_LIMIT else KB_LIMIT.

Definition ping : ReqBody :=
  JsonObject {| jsonrpc := Some "2.0"; rpc_method := Some "ping";
                has_id := true; tool_name := None |}.

Definition post (slug : string) (bearer : string) : Request :=
  {| method := "POST"; path := "/mcp/" +:+ slug;
     authorization := Some ("Bearer " +:+ bearer); accept := None; body := ping |}.

(** Alice, Bob and Carol each install the free knowledge base [docs]. *)
Definition env_for (n : Z) (name : string) : Routes.Env :=
  {| Routes.now := 3000; Routes.random_a := [n]; Routes.random_b := [n + 1];
     Routes.random_c := [n + 2];
     Routes.uuid := "sub-" +:+ name; Routes.uuid_b := "token-" +:+ name |}.

Definition store_three : Store :=
  fst (Entitlement.install_token (env_for 70 "carol")
         (fst (Entitlement.install_token (env_for 60 "bob")
                 (fst (Entitlement.install_token (env_for 50 "alice")
                         Sample.store0 "docs" "alice"))
                 "docs" "bob"))
         "docs" "carol").

Definition token_of (n : Z) : string := OAuth.generateToken OAuth.PREFIX_ACCESS [n + 2].

Definition world_three : World :=
  {| db := store_three; kv := {| entries := ∅; reachable := true |} |}.

(** [n] requests from the holder of [bearer], one millisecond apart from
    [start] on. *)
Definition burst (n : nat) (start : Z) (bearer : string) : list (Z * Request) :=
  map (fun i : nat => ((start + Z.of_nat i)%Z, post "docs" bearer)) (seq 0 n).

(** 61 requests to [docs] inside the window that starts at [t = 120 s]:
    21 from Alice's client, 20 from Bob's and 20 from Carol's. *)
Definition sixty_one : list (Z * Request) :=
  burst 21 120000 (token_of 50) ++ burst 20 121000 (token_of 60)
  ++ burst 20 122000 (token_of 70).

(** Alice subscribes to the paid knowledge base [pro] and installs it;
    later the billing processor marks her subscription past due. *)
Definition store_alice_paid : Store :=
  fst (Entitlement.install_token (env_for 50 "alice") Sample.store_sub "pro" "alice").

Definition past_due (sub : Subscription) : Subscription :=
  {| sub_id := sub_id sub; sub_knowledge_base_id := sub_knowledge_base_id sub;
     sub_subscriber_id := sub_subscriber_id sub; sub_status := PastDue;
     sub_current_period_end := sub_current_period_end sub |}.

Definition store_past_due : Store :=
  with_subscriptions (map past_due (kb_subscriptions store_alice_paid)) store_alice_paid.

(** The token row that the installation gave Alice. *)
Definition alice_paid_token : OAuthToken :=
  {| tk_id := "token-alice";
     tk_client_id := OAuth.generateToken OAuth.PREFIX_CLIENT_ID [50];
     tk_knowledge_base_id := "22222222-bbbb";
     tk_user_id := "alice";
     tk_access_token_hash := OAuth.hashToken (token_of 50);
     tk_refresh_token_hash := None;
     tk_scopes := ["search"; "list_sources"; "get_info"];
     tk_expires_at := 2592003000;
     tk_refresh_expires_at := None;
     tk_last_used_at := None;
     tk_subscription_id := Some "sub-1" |}.

Definition world_of (s : Store) : World :=
  {| db := s; kv := {| entries := ∅; reachable := true |} |}.

End Traffic.

(* ===================================================================== *)
(** * Shapes of strings                                                   *)
(* ===================================================================== *)

Module Shape.

(** The character [c] does not occur in [s]. *)
Definition free_of (c : Ascii.ascii) (s : string) : Prop :=
  Worker.all_chars (fun x => negb (Ascii.eqb x c)) s = true.

(** An [Authorization] header that carries the token [tok]: a scheme that
    reads [bearer] in any case, one space, and a token with the access
    prefix, with no other space. *)
Definition bearer_header (auth : option string) (tok : string) : Prop :=
  exists scheme,
    auth = Some (scheme +:+ " " +:+ tok)
    /\ free_of " " scheme /\ free_of " " tok
    /\ Js.toLowerCase scheme = "bearer"
    /\ Js.startsWith tok "sha_kb_" = true.

(** The characters of [Encoding.hex] and of [Encoding.base64url]. *)
Definition hex_char (c : Ascii.ascii) : bool :=
  let n := Ascii.nat_of_ascii c in
  ((48 <=? n) && (n <=? 57) || (97 <=? n) && (n <=? 102))%nat.

Definition url_safe_char (c : Ascii.ascii) : bool :=
  let n := Ascii.nat_of_ascii c in
  ((48 <=? n) && (n <=? 57) || (65 <=? n) && (n <=? 90)
   || (97 <=? n) && (n <=? 122) || (n =? 45) || (n =? 95))%nat.

End Shape.

(* ===================================================================== *)
(** * Client registration (src/app/api/oauth/clients/route.ts, POST)      *)
(* ===================================================================== *)

Module Clients.
Import Db OAuth Routes.

(** The fields that the handler reads from the JSON body.
    [r_redirect_uris] is [None] when the field is not an array, and
    [r_scopes] is [None] when the field is absent or null. *)
Record Registration := {
  r_knowledge_base_id : option string;
  r_name : option string;
  r_redirect_uris : option (list string);
  r_scopes : option (list string)
}.

(** The 201 answer, or another one. *)
Inductive Answer :=
| Created (client_id client_secret : string) (redirect_uris scopes : list string)
          (slug : string)
| Failed (r : Response).

Section WithURL.
Variable url_hostname : string -> option string.

(** [user] is the signed-in user; [body] is [None] when [request.json()]
    throws.  The repository is looked up as the user, the row is inserted
    with the service role. *)
Definition POST (env : Env) (s : Store) (user : option string)
    (body : option Registration) : Store * Answer :=
  match user with
  | None => (s, Failed (ErrorJson 401 "unauthorized" "Authentication required"))
  | Some user =>
    match body with
    | None => (s, Failed Threw)
    | Some body =>
      match nonempty (r_knowledge_base_id body) with
      | None =>
        (s, Failed (oauthError url_hostname INVALID_REQUEST
                      "knowledge_base_id is required" None None))
      | Some knowledge_base_id =>
        match nonempty (r_name body) with
        | None =>
          (s, Failed (oauthError url_hostname INVALID_REQUEST "name is required" None None))
        | Some name =>
          match Js.single
                  (List.filter (fun kb => String.eqb (kb_id kb) knowledge_base_id
                                          && String.eqb (kb_user_id kb) user)
                               (knowledge_bases s)) with
          | None =>
            (s, Failed (oauthError url_hostname ACCESS_DENIED
                          "Knowledge base not found or access denied" None None))
          | Some kb =>
            let clientId := generateClientId (random_a env) in
            let clientSecret := generateClientSecret (random_b env) in
            let clientSecretHash := hashToken clientSecret in
            let validScopes :=
              match r_scopes body with
              | Some scopes => List.filter (Js.includes_str DEFAULT_SCOPES) scopes
              | None => DEFAULT_SCOPES
              end in
            let validRedirectUris :=
              match r_redirect_uris body with
              | Some uris =>
                List.filter (fun uri => negb (is_null (url_hostname uri))) uris
              | None => []
              end in
            match insert_client s
                    {| oc_client_id := clientId;
                       oc_client_secret_hash := clientSecretHash;
                       oc_knowledge_base_id := kb_id kb;
                       oc_user_id := user;
                       oc_redirect_uris := validRedirectUris;
                       oc_scopes := validScopes;
                       oc_revoked_at := None |} with
            | None =>
              (s, Failed (oauthError url_hostname SERVER_ERROR
                            "Failed to create client" None None))
            | Some s' =>
              (s', Created clientId clientSecret validRedirectUris validScopes
                           (kb_slug kb))
            end
          end
        end
      end
    end
  end.

End WithURL.

End Clients.

(* ===================================================================== *)
(** * Subscription status (lib/subscriptions.ts, in src/lib/stripe.ts)   *)
(* ===================================================================== *)

Module Subscriptions.
Import Db Entitlement.

Record Status := {
  isOwner : bool;
  isFree : bool;
  isSubscribed : bool;
  found : option (string * SubStatus * option Z)
}.

Definition getSubscriptionStatus (s : Store) (knowledgeBaseId userId : string) : Status :=
  match Js.single
          (List.filter (fun kb => String.eqb (kb_id kb) knowledgeBaseId)
                       (knowledge_bases s)) with
  | None => {| isOwner := false; isFree := false; isSubscribed := false; found := None |}
  | Some kb =>
    let isOwner := String.eqb (kb_user_id kb) userId in
    let isFree := pricing_eqb (kb_pricing_model kb) Free in
    if isOwner || isFree then
      {| isOwner := isOwner; isFree := isFree; isSubscribed := true; found := None |}
    else
      let subscription := Js.single (subscriptions_of s knowledgeBaseId userId) in
      let isSubscribed :=
        match subscription with
        | Some sub => status_eqb (sub_status sub) Active
                      || status_eqb (sub_status sub) Trialing
        | None => false
        end in
      {| isOwner := isOwner; isFree := isFree; isSubscribed := isSubscribed;
         found := option_map
                    (fun sub => (sub_id sub, sub_status sub, sub_current_period_end sub))
                    subscription |}
  end.

End Subscriptions.

(* ===================================================================== *)
(** * The billing webhook (app/api/stripe/webhook/route.ts)              *)
(* ===================================================================== *)

Module Webhook.
Import Db.

(** A row of [kb_subscriptions] with the [stripe_subscription_id] column,
    which only the webhook reads; the column is UNIQUE and nullable. *)
Record Billed := {
  row : Subscription;
  stripe_subscription_id : option string
}.

Definition Ledger := list Billed.

(** The store whose subscription table is the ledger. *)
Definition store_of (l : Ledger) (s : Store) : Store :=
  with_subscriptions (map row l) s.

(** What the handlers read of a [Stripe.Subscription]: its id, its
    status, the [current_period_start] and [current_period_end] of its
    first item and its [canceled_at], in seconds. *)
Record StripeSubscription := {
  ss_id : string;
  ss_status : string;
  ss_period_start : option Z;
  ss_period_end : option Z;
  ss_canceled_at : option Z
}.

Definition mapStripeStatus (stripeStatus : string) : SubStatus :=
  if String.eqb stripeStatus "active" then Active
  else if String.eqb stripeStatus "trialing" then Trialing
  else if String.eqb stripeStatus "past_due" then PastDue
  else if String.eqb stripeStatus "canceled" || String.eqb stripeStatus "unpaid"
  then Canceled
  else Expired.

(** The largest time value of a [Date], in milliseconds. *)
Definition MAX_TIME : Z := 8640000000000000.

(** [x ? new Date(x * 1000).toISOString() : null].  Beyond [MAX_TIME] the
    date is invalid and [toISOString] throws a RangeError. *)
Definition iso_or_null (x : option Z) : Worker.Outcome (option Z) :=
  match x with
  | Some p =>
    if (p =? 0)%Z then Worker.Returned None
    else if (Z.abs (p * 1000) <=? MAX_TIME)%Z then Worker.Returned (Some (p * 1000)%Z)
    else Worker.Raised
  | None => Worker.Returned None
  end.

(** The period end that is written when the conversion returns. *)
Definition period_end (periodEnd : option Z) : option Z :=
  match iso_or_null periodEnd with
  | Worker.Returned e => e
  | Worker.Raised => None
  end.

(** The instants of the years 1 to 9999.  [toISOString] writes them with
    a plain four-digit year; outside the years 0 to 9999 it writes a sign
    and six digits. *)
Definition plain_year (ms : Z) : bool :=
  ((-62135596800000 <=? ms) && (ms <=? 253402300799999))%Z.

Definition set_status (b : Billed) (st : SubStatus) (e : option Z) : Billed :=
  {| row := {| sub_id := sub_id (row b);
               sub_knowledge_base_id := sub_knowledge_base_id (row b);
               sub_subscriber_id := sub_subscriber_id (row b);
               sub_status := st;
               sub_current_period_end := e |};
     stripe_subscription_id := stripe_subscription_id b |}.

(** [update({...}).eq('stripe_subscription_id', id)].  The object that
    is written is built first, its three dates in the order of the source;
    the result is [None] when one of the conversions throws.  The columns
    [current_period_start] and [canceled_at], which nothing reads, are not
    kept in the rows. *)
Definition handleSubscriptionUpdate (l : Ledger) (subscription : StripeSubscription)
  : option Ledger :=
  match iso_or_null (ss_period_start subscription) with
  | Worker.Raised => None
  | Worker.Returned _ =>
  match iso_or_null (ss_period_end subscription) with
  | Worker.Raised => None
  | Worker.Returned e =>
  match iso_or_null (ss_canceled_at subscription) with
  | Worker.Raised => None
  | Worker.Returned _ =>
    Some (map (fun b => if opt_eqb (stripe_subscription_id b) (ss_id subscription)
                        then set_status b (mapStripeStatus (ss_status subscription)) e
                        else b) l)
  end end end.

Definition handleSubscriptionDeleted (l : Ledger) (subscription : StripeSubscription)
  : Ledger :=
  map (fun b => if opt_eqb (stripe_subscription_id b) (ss_id subscription)
                then set_status b Expired (sub_current_period_end (row b))
                else b) l.

(** [subscriptionId] is the id that the invoice names, if any. *)
Definition handlePaymentFailed (l : Ledger) (subscriptionId : option string) : Ledger :=
  match Js.or_undefined subscriptionId with
  | None => l
  | Some subId =>
    map (fun b => if opt_eqb (stripe_subscription_id b) subId
                  then set_status b PastDue (sub_current_period_end (row b))
                  else b) l
  end.

(** The metadata of a checkout session and the subscription it names. *)
Record Session := {
  meta_knowledge_base_id : option string;
  meta_subscriber_id : option string;
  session_subscription : option string
}.

(** [upsert({...}, { onConflict: 'knowledge_base_id,subscriber_id' })]:
    the row of that pair is overwritten, or a row with the id [fresh] is
    inserted; [None] when another row holds the Stripe id or the fresh
    id. *)
Definition upsert (fresh : string) (l : Ledger) (kbId subscriber stripeId : string)
    (st : SubStatus) (e : option Z) : option Ledger :=
  let same b := String.eqb (sub_knowledge_base_id (row b)) kbId
                && String.eqb (sub_subscriber_id (row b)) subscriber in
  if existsb (fun b => negb (same b) && opt_eqb (stripe_subscription_id b) stripeId) l
  then None
  else if existsb same l then
    Some (map (fun b => if same b
                        then {| row := {| sub_id := sub_id (row b);
                                          sub_knowledge_base_id := kbId;
                                          sub_subscriber_id := subscriber;
                                          sub_status := st;
                                          sub_current_period_end := e |};
                                stripe_subscription_id := Some stripeId |}
                        else b) l)
  else if existsb (fun b => String.eqb (sub_id (row b)) fresh) l then None
  else Some (l ++ [{| row := {| sub_id := fresh;
                                sub_knowledge_base_id := kbId;
                                sub_subscriber_id := subscriber;
                                sub_status := st;
                                sub_current_period_end := e |};
                      stripe_subscription_id := Some stripeId |}])%list.

(** [retrieved] is what [subscriptions.retrieve] answers for the session's
    subscription, [None] when it throws.  The result is [None] when the
    handler throws: on a failed retrieval, on a date that does not
    convert, or on the error of the upsert. *)
Definition handleCheckoutCompleted (fresh : string) (l : Ledger) (session : Session)
    (retrieved : option StripeSubscription) : option Ledger :=
  match Js.or_undefined (meta_knowledge_base_id session),
        Js.or_undefined (meta_subscriber_id session) with
  | Some knowledgeBaseId, Some subscriberId =>
    match Js.or_undefined (session_subscription session) with
    | None => Some l
    | Some _ =>
      match retrieved with
      | None => None
      | Some subscription =>
        match iso_or_null (ss_period_start subscription) with
        | Worker.Raised => None
        | Worker.Returned _ =>
        match iso_or_null (ss_period_end subscription) with
        | Worker.Raised => None
        | Worker.Returned e =>
          upsert fresh l knowledgeBaseId subscriberId (ss_id subscription)
                 (mapStripeStatus (ss_status subscription)) e
        end end
      end
    end
  | _, _ => Some l
  end.

Inductive Event :=
| CheckoutCompleted (session : Session) (retrieved : option StripeSubscription)
| SubscriptionChanged (subscription : StripeSubscription)   (* created or updated *)
| SubscriptionDeleted (subscription : StripeSubscription)
| PaymentFailed (subscriptionId : option string)
| Unhandled.

(** A delivery: whether the signing secret is configured, the
    [stripe-signature] header, and the event that [constructEvent] gives
    for the body, [None] when it throws. *)
Record Delivery := {
  secret_configured : bool;
  signature : option string;
  constructed : option Event
}.

(** [POST]: the ledger it leaves and the status it answers. *)
Definition POST (fresh : string) (l : Ledger) (d : Delivery) : Ledger * Z :=
  if negb (secret_configured d) then (l, 500)
  else if negb (Js.truthy_opt (signature d)) then (l, 400)
  else
    match constructed d with
    | None => (l, 400)
    | Some event =>
      match event with
      | CheckoutCompleted session retrieved =>
        match handleCheckoutCompleted fresh l session retrieved with
        | Some l' => (l', 200)
        | None => (l, 500)
        end
      | SubscriptionChanged subscription =>
        match handleSubscriptionUpdate l subscription with
        | Some l' => (l', 200)
        | None => (l, 500)
        end
      | SubscriptionDeleted subscription => (handleSubscriptionDeleted l subscription, 200)
      | PaymentFailed subscriptionId => (handlePaymentFailed l subscriptionId, 200)
      | Unhandled => (l, 200)
      end
    end.

(** The event tells that the Stripe subscription [x] no longer pays: a
    failed payment, a deletion, or a change to a status other than
    [active] and [trialing]. *)
Definition cuts (event : Event) (x : string) : Prop :=
  match event with
  | PaymentFailed subscriptionId => subscriptionId = Some x
  | SubscriptionDeleted subscription => ss_id subscription = x
  | SubscriptionChanged subscription =>
    ss_id subscription = x
    /\ ss_status subscription <> "active" /\ ss_status subscription <> "trialing"
  | _ => False
  end.

(** The dates of the event, if it is a change of a subscription, are
    absent or fall in the years 1 to 9999. *)
Definition plain_dates (event : Event) : Prop :=
  match event with
  | SubscriptionChanged subscription =>
    forall p, In (Some p) [ss_period_start subscription; ss_period_end subscription;
                           ss_canceled_at subscription] ->
              plain_year (p * 1000) = true
  | _ => True
  end.

(** One of the dates of a changed subscription is beyond the range of
    [Date]. *)
Definition beyond_dates (event : Event) : Prop :=
  match event with
  | SubscriptionChanged subscription =>
    exists p, In (Some p) [ss_period_start subscription; ss_period_end subscription;
                           ss_canceled_at subscription]
              /\ (MAX_TIME < Z.abs (p * 1000))%Z
  | _ => False
  end.

(** The rows of the pair of a repository and a subscriber. *)
Definition of_pair (kbId subscriber : string) (b : Billed) : bool :=
  String.eqb (sub_knowledge_base_id (row b)) kbId
  && String.eqb (sub_subscriber_id (row b)) subscriber.

End Webhook.

(* ===================================================================== *)
(** * More fixtures                                                       *)
(* ===================================================================== *)

Module Demo.
Import Db OAuth Routes.

(** A second repository with the slug [docs], of another owner. *)
Definition kb_twin : KnowledgeBase :=
  {| kb_id := "44444444-dddd"; kb_user_id := "other"; kb_slug := "docs";
     kb_visibility := Private; kb_pricing_model := Free; kb_mcp_enabled := true |}.

Definition store_twins : Store :=
  {| knowledge_bases := [Sample.kb1; kb_twin]; oauth_clients := [];
     oauth_codes := []; oauth_tokens := []; kb_subscriptions := [];
     mcp_requests := [] |}.



Definition request (slug : string) (auth : option string) : Worker.Request :=
  {| Worker.method := "POST"; Worker.path := "/mcp/" +:+ slug;
     Worker.authorization := auth; Worker.accept := None;
     Worker.body := Traffic.ping |}.


(** A revocation that names the token as a refresh token. *)
Definition revoke_as_refresh (t : string) : Body :=
  {| grant_type := None; code := None; redirect_uri := None; client_id := None;
     code_verifier := None; b_refresh_token := None; token := Some t;
     token_type_hint := Some "refresh_token" |}.

(** The owner registers a client for [docs]. *)
Definition registration (scopes : option (list string)) : Clients.Registration :=
  {| Clients.r_knowledge_base_id := Some "11111111-aaaa";
     Clients.r_name := Some "editor";
     Clients.r_redirect_uris := Some ["https://x.test/cb"; "not a url"];
     Clients.r_scopes := scopes |}.

(** Alice's row for the paid repository, billed as [sub_x]. *)
Definition ledger : Webhook.Ledger :=
  [{| Webhook.row := Sample.sub_alice;
      Webhook.stripe_subscription_id := Some "sub_x" |}].

Definition delivery (event : Webhook.Event) : Webhook.Delivery :=
  {| Webhook.secret_configured := true;
     Webhook.signature := Some "t=1,v1=00";
     Webhook.constructed := Some event |}.

Definition session : Webhook.Session :=
  {| Webhook.meta_knowledge_base_id := Some "22222222-bbbb";
     Webhook.meta_subscriber_id := Some "bob";
     Webhook.session_subscription := Some "sub_y" |}.

Definition stripe_sub : Webhook.StripeSubscription :=
  {| Webhook.ss_id := "sub_y"; Webhook.ss_status := "active";
     Webhook.ss_period_start := Some 6000; Webhook.ss_period_end := Some 9000;
     Webhook.ss_canceled_at := None |}.

(** The token row and the answer of the exchange of [Sample.code1]. *)
Definition token_row1 : OAuthToken :=
  {| tk_id := "token-row-1"; tk_client_id := "mcp_client_1";
     tk_knowledge_base_id := "11111111-aaaa"; tk_user_id := "owner";
     tk_access_token_hash := hashToken Sample.access1;
     tk_refresh_token_hash := Some (hashToken Sample.refresh1);
     tk_scopes := ["search"; "get_info"]; tk_expires_at := 3602000;
     tk_refresh_expires_at := Some 2592002000; tk_last_used_at := None;
     tk_subscription_id := None |}.

(** A request with the bearer token [tok], the method [m], the path [p]
    and the [Accept] header [acc]. *)
Definition request_as (m p : string) (acc : option string) (tok : string)
  : Worker.Request :=
  {| Worker.method := m; Worker.path := p;
     Worker.authorization := Some ("Bearer " +:+ tok);
     Worker.accept := acc; Worker.body := Traffic.ping |}.

(** The report that the Stripe subscription [sub_x] is past due, with the
    period end [periodEnd], in seconds. *)
Definition past_due_report (periodEnd : Z) : Webhook.Event :=
  Webhook.SubscriptionChanged
    {| Webhook.ss_id := "sub_x"; Webhook.ss_status := "past_due";
       Webhook.ss_period_start := Some 6000; Webhook.ss_period_end := Some periodEnd;
       Webhook.ss_canceled_at := None |}.

(** The paid repository of the traffic fixtures behind a counting store
    that cannot be reached. *)
Definition world_offline : Worker.World :=
  {| Worker.db := Traffic.store_alice_paid;
     Worker.kv := {| Worker.entries := ∅; Worker.reachable := false |} |}.

End Demo.

Arguments Sha256.digest : simpl never.
Arguments OAuth.hashToken : simpl never.
Arguments Worker.hashToken : simpl never.

(* ===================================================================== *)
(** * The token codec                                                     *)
(* ===================================================================== *)

Example sha256_abc :
  Encoding.hex (Sha256.digest "abc")
  = "ba7816bf8f01cfea414140de5dae2223b00361a396177a9cb410ff61f20015ad".
Proof. vm_compute. reflexivity. Qed.

Example sha256_empty :
  Encoding.hex (Sha256.digest "")
  = "e3b0c44298fc1c149afbf4c8996fb92427ae41e4649b934ca495991b7852b855".
Proof. vm_compute. reflexivity. Qed.

Example sha256_two_blocks :
  Encoding.hex (Sha256.digest
    "aaaaaaaaaaaaaaaaaaaaaaaaaaaaaaaaaaaaaaaaaaaaaaaaaaaaaaaa")
  = "b35439a4ac6f0948b6d6f9e3c6af0f5f590ce20f1bde7090ef7970686ec6738a".
Proof. vm_compute. reflexivity. Qed.

Example split_spaces : Js.split " " "search  nope " = ["search"; ""; "nope"; ""].
Proof. reflexivity. Qed.
Example split_empty : Js.split " " "" = [""].
Proof. reflexivity. Qed.
Example lower_bearer : Js.toLowerCase "BeArEr" = "bearer".
Proof. reflexivity. Qed.
Example ends_with_ex : Js.endsWith "app.example.com" "example.com" = true.
Proof. reflexivity. Qed.

(** The worked example of RFC 7636, appendix B. *)
Example rfc7636_appendix_b :
  OAuth.generateCodeChallenge "dBjftJeZ4CVP-mB92K27uhbUJU1p1r_wW1gFWFOEjXk" "S256"
  = "E9Melhoa2OwvFrEMTJguCHaoeK1t8URWbuGJSstw-cM".
Proof. vm_compute. reflexivity. Qed.

Example parseScopes_unknown :
  OAuth.parseScopes (Some "admin write") = ["search"; "list_sources"; "get_info"].
Proof. reflexivity. Qed.

Example parseScopes_some :
  OAuth.parseScopes (Some "get_info  admin search") = ["get_info"; "search"].
Proof. reflexivity. Qed.

Example sample_hostname : Sample.hostname "https://x.test/cb" = Some "x.test".
Proof. reflexivity. Qed.

Section CodecFacts.
Import OAuth.

(** C10. PKCE round trip: the challenge that [generateCodeChallenge]
    computes from a verifier under a method validates against that same
    verifier under that method; this holds for ['S256'] and for ['plain']
    (and for any other method string, which both functions treat as
    S256).  Both are functions of their arguments alone, so the challenge
    stored at authorization time validates at exchange time. *)
Theorem pkce_round_trip (codeVerifier method : string) :
  validateCodeChallenge codeVerifier
    (generateCodeChallenge codeVerifier method) method = true.
Proof.
  unfold validateCodeChallenge, generateCodeChallenge.
  destruct (String.eqb method "plain"); apply String.eqb_refl.
Qed.

Lemma wrap32_mod (x : Z) : Sha256.wrap32 x = x mod 2 ^ 32.
Proof.
  unfold Sha256.wrap32. change 4294967295 with (Z.ones 32).
  apply Z.land_ones. lia.
Qed.

Lemma pkce_s256_is_hash (codeVerifier : string) :
  generateCodeChallenge codeVerifier "S256"
  = Encoding.base64url (Sha256.digest codeVerifier).
Proof. reflexivity. Qed.

Lemma pkce_plain_is_verifier (codeVerifier : string) :
  generateCodeChallenge codeVerifier "plain" = codeVerifier.
Proof. reflexivity. Qed.

End CodecFacts.

(* ===================================================================== *)
(** * Scopes at the authorization endpoint                                *)
(* ===================================================================== *)

Section ScopeFacts.
Import Db OAuth Routes Trace.

Lemma includes_str_In (l : list string) (x : string) :
  Js.includes_str l x = true <-> In x l.
Proof.
  unfold Js.includes_str. rewrite existsb_exists. split.
  - intros [y [Hy Heq]]. apply String.eqb_eq in Heq. now subst.
  - intros H. exists x. split; [assumption | apply String.eqb_refl].
Qed.

Lemma no_valid_scope (entries : list string) :
  Forall (fun entry => ~ In entry OAUTH_SCOPES) entries ->
  List.filter (Js.includes_str OAUTH_SCOPES) (List.filter Js.truthy entries) = [].
Proof.
  induction 1 as [| e l He _ IH]; [reflexivity |].
  cbn [List.filter]. destruct (Js.truthy e); [| exact IH].
  cbn [List.filter].
  destruct (Js.includes_str OAUTH_SCOPES e) eqn:E; [| exact IH].
  apply includes_str_In in E. contradiction.
Qed.

Lemma parseScopes_default (scope : option string) :
  scope = None \/ (exists s, scope = Some s /\ unrecognized s) ->
  parseScopes scope = DEFAULT_SCOPES.
Proof.
  intros [-> | [s [-> Hs]]]; [reflexivity |].
  unfold parseScopes. destruct (negb (Js.truthy s)); [reflexivity |].
  now rewrite (no_valid_scope _ Hs).
Qed.

Variable url_hostname : string -> option string.

Lemma authorize_issues_for_defaults
    (env : Env) (s : Store) (q : AuthorizeQuery)
    (clientId redirectUri codeChallenge user : string)
    (client : OAuthClient) (kb : KnowledgeBase) :
  q_scope q = None \/ (exists sc, q_scope q = Some sc /\ unrecognized sc) ->
  nonempty (q_client_id q) = Some clientId ->
  nonempty (q_redirect_uri q) = Some redirectUri ->
  q_response_type q = Some "code" ->
  nonempty (q_code_challenge q) = Some codeChallenge ->
  q_code_challenge_method q = Some "S256" ->
  q_user q = Some user ->
  Js.single
    (List.filter
       (fun c => String.eqb (oc_client_id c) clientId
                 && is_null (oc_revoked_at c)
                 && negb (is_null (kb_by_id s (oc_knowledge_base_id c))))
       (oauth_clients s)) = Some client ->
  kb_by_id s (oc_knowledge_base_id client) = Some kb ->
  kb_user_id kb = user ->
  isValidRedirectUri url_hostname redirectUri (oc_redirect_uris client) = true ->
  List.filter (Js.includes_str (oc_scopes client)) DEFAULT_SCOPES <> [] ->
  (forall r, In r (oauth_codes s) ->
     cd_id r <> uuid env /\
     cd_code_hash r <> hashToken (generateAuthCode (random_a env))) ->
  exists row,
    authorize url_hostname env s q
    = (with_codes (oauth_codes s ++ [row]) s,
       CodeRedirect redirectUri (generateAuthCode (random_a env)) (nonempty (q_state q)))
    /\ cd_code_hash row = hashToken (generateAuthCode (random_a env))
    /\ cd_client_id row = clientId
    /\ cd_used_at row = None
    /\ cd_scopes row = List.filter (Js.includes_str (oc_scopes client)) DEFAULT_SCOPES.
Proof.
  intros Hscope Hc Hr Hrt Hcc Hm Hu Hclient Hkb Hown Huri Hne Hfresh.
  eexists. unfold authorize.
  rewrite Hc, Hr, Hrt, Hcc, Hm, Hu, Hclient, Hkb. cbn [opt_eqb negb].
  rewrite !String.eqb_refl. cbn [negb].
  rewrite Hown, String.eqb_refl, Huri. cbn [negb].
  rewrite (parseScopes_default _ Hscope).
  assert (Hlen : (length (List.filter (Js.includes_str (oc_scopes client))
                                      DEFAULT_SCOPES) =? 0)%nat = false).
  { destruct (List.filter (Js.includes_str (oc_scopes client)) DEFAULT_SCOPES);
      [contradiction | reflexivity]. }
  rewrite Hlen.
  unfold insert_code, code_conflict.
  match goal with
  | |- context [existsb ?f (oauth_codes s)] =>
    assert (Hex : existsb f (oauth_codes s) = false)
  end.
  { apply not_true_is_false. intros Hex. apply existsb_exists in Hex.
    destruct Hex as [r [Hin Hr']]. destruct (Hfresh r Hin) as [H1 H2].
    cbn in Hr'. apply orb_true_iff in Hr'.
    destruct Hr' as [E | E]; apply String.eqb_eq in E; congruence. }
  rewrite Hex.
  assert (Hh : url_hostname redirectUri <> None).
  { unfold isValidRedirectUri in Huri.
    destruct (url_hostname redirectUri); congruence. }
  destruct (url_hostname redirectUri); [| congruence].
  split; [reflexivity | repeat split].
Qed.

Lemma authorize_unrecognized_as_absent (env : Env) (s : Store) (q : AuthorizeQuery)
    (sc : string) :
  q_scope q = Some sc ->
  unrecognized sc ->
  authorize url_hostname env s q = authorize url_hostname env s (with_scope None q).
Proof.
  intros Hq Hs. unfold authorize, with_scope.
  cbn [q_client_id q_redirect_uri q_response_type q_scope q_state q_code_challenge
       q_code_challenge_method q_user].
  rewrite (parseScopes_default (q_scope q))
    by (right; exists sc; split; assumption).
  reflexivity.
Qed.

(** C9. A scope parameter that is absent, or whose space-separated
    entries hold no scope name, parses to the full default set
    [search list_sources get_info]; so an authorization request that
    names only unknown scopes is handled as a request for the defaults:
    with the other checks passed, and the client granted at least one of
    the defaults, the endpoint stores and returns a code scoped to the
    defaults the client was granted, not [invalid_scope]; and in every
    case the endpoint answers it as it answers the same request without a
    scope parameter. *)
Theorem unrecognized_scopes_fall_back_to_defaults :
  (forall scope : option string,
      scope = None \/ (exists s, scope = Some s /\ unrecognized s) ->
      parseScopes scope = ["search"; "list_sources"; "get_info"])
  /\
  (forall (env : Env) (s : Store) (q : AuthorizeQuery) (sc : string),
      q_scope q = Some sc ->
      unrecognized sc ->
      authorize url_hostname env s q = authorize url_hostname env s (with_scope None q))
  /\
  (forall (env : Env) (s : Store) (q : AuthorizeQuery)
          (clientId redirectUri codeChallenge user : string)
          (client : OAuthClient) (kb : KnowledgeBase),
      q_scope q = None \/ (exists sc, q_scope q = Some sc /\ unrecognized sc) ->
      nonempty (q_client_id q) = Some clientId ->
      nonempty (q_redirect_uri q) = Some redirectUri ->
      q_response_type q = Some "code" ->
      nonempty (q_code_challenge q) = Some codeChallenge ->
      q_code_challenge_method q = Some "S256" ->
      q_user q = Some user ->
      Js.single
        (List.filter
           (fun c => String.eqb (oc_client_id c) clientId
                     && is_null (oc_revoked_at c)
                     && negb (is_null (kb_by_id s (oc_knowledge_base_id c))))
           (oauth_clients s)) = Some client ->
      kb_by_id s (oc_knowledge_base_id client) = Some kb ->
      kb_user_id kb = user ->
      isValidRedirectUri url_hostname redirectUri (oc_redirect_uris client) = true ->
      List.filter (Js.includes_str (oc_scopes client)) DEFAULT_SCOPES <> [] ->
      (forall r, In r (oauth_codes s) ->
         cd_id r <> uuid env /\
         cd_code_hash r <> hashToken (generateAuthCode (random_a env))) ->
      exists row,
        authorize url_hostname env s q
        = (with_codes (oauth_codes s ++ [row]) s,
           CodeRedirect redirectUri (generateAuthCode (random_a env))
                        (nonempty (q_state q)))
        /\ cd_code_hash row = hashToken (generateAuthCode (random_a env))
        /\ cd_client_id row = clientId
        /\ cd_used_at row = None
        /\ cd_scopes row
           = List.filter (Js.includes_str (oc_scopes client))
                         ["search"; "list_sources"; "get_info"]).
Proof.
  split; [exact parseScopes_default |].
  split; [exact authorize_unrecognized_as_absent | exact authorize_issues_for_defaults].
Qed.

End ScopeFacts.

Lemma unrecognized_admin_write : Trace.unrecognized "admin write".
Proof.
  unfold Trace.unrecognized. cbn.
  repeat constructor; intros H; cbn in H; intuition discriminate.
Qed.

Lemma unrecognized_scopes_witness :
  OAuth.parseScopes (Some "admin write") = ["search"; "list_sources"; "get_info"]
  /\ Routes.authorize Sample.hostname (Sample.env 1000 [1; 2; 3] [] "code-row-1")
       Sample.store0 (Sample.query (Some "admin write"))
     = Routes.authorize Sample.hostname (Sample.env 1000 [1; 2; 3] [] "code-row-1")
         Sample.store0 (Trace.with_scope None (Sample.query (Some "admin write")))
  /\ exists row,
       Routes.authorize Sample.hostname (Sample.env 1000 [1; 2; 3] [] "code-row-1")
         Sample.store0 (Sample.query (Some "admin write"))
       = (Db.with_codes [row] Sample.store0,
          OAuth.CodeRedirect "https://x.test/cb" Sample.code1 (Some "xyz"))
       /\ Db.cd_scopes row = ["search"; "get_info"].
Proof.
  destruct (unrecognized_scopes_fall_back_to_defaults Sample.hostname) as [P1 [P0 P2]].
  split; [| split].
  - apply P1. right. exists "admin write". split; [reflexivity | exact unrecognized_admin_write].
  - apply (P0 _ _ _ "admin write"); [reflexivity | exact unrecognized_admin_write].
  - destruct (P2 (Sample.env 1000 [1; 2; 3] [] "code-row-1") Sample.store0
                 (Sample.query (Some "admin write"))
                 "mcp_client_1" "https://x.test/cb"
                 (OAuth.generateCodeChallenge Sample.verifier "S256")
                 "owner" Sample.client1 Sample.kb1) as [row [E [_ [_ [_ Hsc]]]]].
    + right. exists "admin write". split; [reflexivity | exact unrecognized_admin_write].
    + vm_compute; reflexivity.
    + reflexivity.
    + reflexivity.
    + vm_compute; reflexivity.
    + reflexivity.
    + reflexivity.
    + reflexivity.
    + reflexivity.
    + reflexivity.
    + reflexivity.
    + vm_compute. discriminate.
    + intros r [].
    + exists row. split; [exact E | exact Hsc].
Defined.

(* ===================================================================== *)
(** * The revocation endpoint                                             *)
(* ===================================================================== *)

Section RevocationFacts.
Import Db OAuth Routes.
Variable url_hostname : string -> option string.

Lemma nonempty_Some (x : string) : x <> "" -> nonempty (Some x) = Some x.
Proof.
  intros H. unfold nonempty, Js.or_undefined, Js.truthy.
  destruct (String.eqb x "") eqn:E; [apply String.eqb_eq in E; contradiction | reflexivity].
Qed.

Lemma nonempty_inv (o : option string) (x : string) :
  nonempty o = Some x -> o = Some x /\ x <> "".
Proof.
  unfold nonempty, Js.or_undefined, Js.truthy. destruct o as [y |]; [| discriminate].
  destruct (String.eqb y "") eqn:E; cbn; [discriminate |].
  intros [= ->]. split; [reflexivity |]. intros ->. discriminate.
Qed.

Lemma revoke_response (s : Store) (req : Post) (body : Body) (tok : string) :
  supported_content_type (content_type req) = true ->
  parsed req = Some body ->
  token body = Some tok ->
  tok <> "" ->
  snd (revoke_POST url_hostname s req) = Empty 200.
Proof.
  intros Hct Hp Ht Hne. unfold revoke_POST.
  rewrite Hct, Hp, Ht, (nonempty_Some _ Hne). cbn [negb].
  destruct (opt_eqb (token_type_hint body) "refresh_token"); [reflexivity |].
  destruct (delete_tokens s _) as [s1 deleted].
  destruct (length deleted =? 0)%nat; reflexivity.
Qed.

(** C7. A revocation request that carries a token in a supported body
    format is answered 200 with an empty body whatever the store holds:
    the response is the same when a row matched and was deleted as when
    nothing matched, and revoking the same token again is answered 200
    too. *)
Theorem revocation_hides_token_validity
    (s1 s2 : Store) (req : Post) (body : Body) (tok : string) :
  supported_content_type (content_type req) = true ->
  parsed req = Some body ->
  token body = Some tok ->
  tok <> "" ->
  status_of (snd (revoke_POST url_hostname s1 req)) = 200
  /\ snd (revoke_POST url_hostname s1 req) = snd (revoke_POST url_hostname s2 req)
  /\ status_of
       (snd (revoke_POST url_hostname (fst (revoke_POST url_hostname s1 req)) req))
     = 200.
Proof.
  intros Hct Hp Ht Hne.
  rewrite !(revoke_response _ req body tok Hct Hp Ht Hne). repeat split.
Qed.

End RevocationFacts.

Lemma revocation_hides_token_validity_witness :
  OAuth.status_of
    (snd (Routes.revoke_POST Sample.hostname Sample.store_with_tokens
            (Sample.json (Sample.revoke_body Sample.access1)))) = 200
  /\ snd (Routes.revoke_POST Sample.hostname Sample.store_with_tokens
            (Sample.json (Sample.revoke_body Sample.access1)))
     = snd (Routes.revoke_POST Sample.hostname Sample.store0
              (Sample.json (Sample.revoke_body Sample.access1)))
  /\ OAuth.status_of
       (snd (Routes.revoke_POST Sample.hostname
               (fst (Routes.revoke_POST Sample.hostname Sample.store_with_tokens
                       (Sample.json (Sample.revoke_body Sample.access1))))
               (Sample.json (Sample.revoke_body Sample.access1)))) = 200.
Proof.
  apply (revocation_hides_token_validity Sample.hostname
           Sample.store_with_tokens Sample.store0
           (Sample.json (Sample.revoke_body Sample.access1))
           (Sample.revoke_body Sample.access1) Sample.access1).
  - reflexivity.
  - reflexivity.
  - reflexivity.
  - vm_compute. discriminate.
Defined.

Example revocation_deletes_the_row :
  length (Db.oauth_tokens Sample.store_with_tokens) = 1%nat
  /\ Db.oauth_tokens
       (fst (Routes.revoke_POST Sample.hostname Sample.store_with_tokens
               (Sample.json (Sample.revoke_body Sample.access1)))) = [].
Proof. vm_compute. split; reflexivity. Qed.

(* ===================================================================== *)
(** * Authorization codes are single-use                                  *)
(* ===================================================================== *)

Section ExchangeFacts.
Import Db OAuth Routes Trace.
Variable url_hostname : string -> option string.

Lemma single_inv {A} (l : list A) (a : A) : Js.single l = Some a -> l = [a].
Proof. destruct l as [| x [| y l]]; cbn; congruence. Qed.

Lemma spent_no_match (h : string) (s : Store) :
  spent h s -> List.filter (unused_with h) (oauth_codes s) = [].
Proof.
  unfold spent. induction (oauth_codes s) as [| r l IH]; intros H; [reflexivity |].
  cbn [List.filter]. destruct (unused_with h r) eqn:E.
  - unfold unused_with in E. apply andb_true_iff in E as [E1 E2].
    apply String.eqb_eq in E1. exfalso. apply (H r (or_introl eq_refl) E1).
    destruct (cd_used_at r); [discriminate | reflexivity].
  - apply IH. intros r' Hin. apply H. now right.
Qed.

Lemma mark_spends (h : string) (s : Store) (a : OAuthCode) (t : Z) :
  Js.single (List.filter (unused_with h) (oauth_codes s)) = Some a ->
  spent h (mark_code_used s (cd_id a) t).
Proof.
  intros Hs r Hin Hh. apply single_inv in Hs.
  unfold mark_code_used in Hin. cbn in Hin. apply in_map_iff in Hin as [r0 [Hr0 Hin0]].
  destruct (String.eqb (cd_id r0) (cd_id a)) eqn:E.
  - subst r. cbn. discriminate.
  - subst r0. destruct (cd_used_at r) eqn:U; [discriminate |].
    exfalso. assert (Hf : In r (List.filter (unused_with h) (oauth_codes s))).
    { apply filter_In. split; [assumption |]. unfold unused_with.
      rewrite Hh, String.eqb_refl, U. reflexivity. }
    rewrite Hs in Hf. destruct Hf as [-> | []].
    rewrite String.eqb_refl in E. discriminate.
Qed.

Lemma mark_keeps_spent (h : string) (s : Store) (id : string) (t : Z) :
  spent h s -> spent h (mark_code_used s id t).
Proof.
  intros H r Hin Hh. unfold mark_code_used in Hin. cbn in Hin.
  apply in_map_iff in Hin as [r0 [Hr0 Hin0]].
  destruct (String.eqb (cd_id r0) id); subst r; cbn in *; [discriminate |].
  now apply H.
Qed.

Lemma spent_same_codes (h : string) (s s' : Store) :
  oauth_codes s' = oauth_codes s -> spent h s -> spent h s'.
Proof. unfold spent. intros ->. auto. Qed.

Lemma insert_token_codes (s s' : Store) (row : OAuthToken) :
  insert_token s row = Some s' -> oauth_codes s' = oauth_codes s.
Proof. unfold insert_token. case_match; [discriminate |]. now intros [= <-]. Qed.

Lemma rotate_token_codes (s s' : Store) id a r e re u :
  rotate_token s id a r e re u = Some s' -> oauth_codes s' = oauth_codes s.
Proof. unfold rotate_token. case_match; [discriminate |]. now intros [= <-]. Qed.

Lemma oauthError_plain (e d : string) :
  oauthError url_hostname e d None None = ErrorJson 400 e d.
Proof. reflexivity. Qed.

(** The state after an exchange, whatever its outcome, is the old one,
    or the old one with the looked-up code marked (and maybe a token
    row more). *)
Lemma exchange_codes (env : Env) (s : Store) (body : Body) :
  oauth_codes (fst (handleAuthorizationCode url_hostname env s body)) = oauth_codes s
  \/ exists id,
       oauth_codes (fst (handleAuthorizationCode url_hostname env s body))
       = oauth_codes (mark_code_used s id (now env)).
Proof.
  unfold handleAuthorizationCode.
  repeat case_match; cbn [fst]; auto; right; eexists;
    try reflexivity.
  erewrite insert_token_codes by eassumption. reflexivity.
Qed.

Lemma exchange_success (env : Env) (s s' : Store) (body : Body) (tb : TokenBody) :
  handleAuthorizationCode url_hostname env s body = (s', TokenJson tb) ->
  exists c a,
    nonempty (code body) = Some c
    /\ Js.single (List.filter (unused_with (hashToken c)) (oauth_codes s)) = Some a
    /\ oauth_codes s' = oauth_codes (mark_code_used s (cd_id a) (now env))
    /\ (now env <= cd_expires_at a)%Z.
Proof.
  unfold handleAuthorizationCode. rewrite !oauthError_plain.
  repeat case_match; intros [= <- <-]; try discriminate.
  eexists _, _. split; [reflexivity |]. split; [eassumption |].
  split; [eapply insert_token_codes; eassumption | lia].
Qed.

Lemma exchange_spent_fails (env : Env) (s : Store) (body : Body) (c : string) :
  code body = Some c ->
  spent (hashToken c) s ->
  (exists d, snd (handleAuthorizationCode url_hostname env s body)
             = ErrorJson 400 INVALID_GRANT d
             /\ nonempty (code body) <> None /\ nonempty (redirect_uri body) <> None
             /\ nonempty (client_id body) <> None
             /\ nonempty (code_verifier body) <> None)
  \/ (exists d, snd (handleAuthorizationCode url_hostname env s body)
                = ErrorJson 400 INVALID_REQUEST d).
Proof.
  intros Hc Hs. unfold handleAuthorizationCode. rewrite !oauthError_plain.
  destruct (nonempty (code body)) as [c' |] eqn:E1; [| right; eexists; reflexivity].
  apply nonempty_inv in E1 as [E1 _]. rewrite Hc in E1. injection E1 as <-.
  destruct (nonempty (redirect_uri body)); [| right; eexists; reflexivity].
  destruct (nonempty (client_id body)); [| right; eexists; reflexivity].
  destruct (nonempty (code_verifier body)); [| right; eexists; reflexivity].
  left. change (fun r => String.eqb (cd_code_hash r) (hashToken c) && is_null (cd_used_at r))
    with (unused_with (hashToken c)).
  rewrite (spent_no_match _ _ Hs). cbn. eexists. repeat split; discriminate.
Qed.

Lemma mark_keeps_known (h : string) (s : Store) (id : string) (t : Z) :
  known h s -> known h (mark_code_used s id t).
Proof.
  intros [r [Hin Hh]]. unfold known, mark_code_used. cbn.
  eexists. split; [apply in_map_iff; eexists; split; [reflexivity | exact Hin] |].
  destruct (String.eqb (cd_id r) id); cbn; assumption.
Qed.

Lemma known_same_codes (h : string) (s s' : Store) :
  oauth_codes s' = oauth_codes s -> known h s -> known h s'.
Proof. unfold known. intros ->. auto. Qed.

Lemma authorize_codes (env : Env) (s : Store) (q : AuthorizeQuery) :
  oauth_codes (fst (authorize url_hostname env s q)) = oauth_codes s
  \/ exists row,
       oauth_codes (fst (authorize url_hostname env s q)) = (oauth_codes s ++ [row])%list
       /\ code_conflict s row = false.
Proof.
  unfold authorize, insert_code.
  repeat case_match; cbn [fst]; auto; simplify_eq; right; eexists;
    (split; [reflexivity | eassumption]).
Qed.

Lemma refresh_codes (env : Env) (s : Store) (body : Body) :
  oauth_codes (fst (handleRefreshToken url_hostname env s body)) = oauth_codes s.
Proof.
  unfold handleRefreshToken.
  repeat case_match; cbn [fst delete_tokens oauth_codes with_tokens]; auto.
  all: eapply rotate_token_codes; eassumption.
Qed.

Lemma revoke_codes (s : Store) (req : Post) :
  oauth_codes (fst (revoke_POST url_hostname s req)) = oauth_codes s.
Proof.
  unfold revoke_POST, delete_tokens. repeat case_match; simplify_eq; cbn; auto.
Qed.

Lemma clients_DELETE_codes (env : Env) (s : Store) user body :
  oauth_codes (fst (clients_DELETE url_hostname env s user body)) = oauth_codes s.
Proof. unfold clients_DELETE. repeat case_match; cbn; auto. Qed.

Lemma createFreeSubscription_codes fresh s k u :
  oauth_codes (fst (Entitlement.createFreeSubscription fresh s k u)) = oauth_codes s.
Proof.
  unfold Entitlement.createFreeSubscription, insert_subscription.
  repeat case_match; simplify_eq; cbn; auto.
Qed.

Lemma install_token_codes (env : Env) (s : Store) (slug user : string) :
  oauth_codes (fst (Entitlement.install_token env s slug user)) = oauth_codes s.
Proof.
  unfold Entitlement.install_token, insert_client, insert_token.
  repeat case_match; simplify_eq; cbn; auto;
    match goal with
    | H : Entitlement.createFreeSubscription ?f ?s ?k ?u = (?s1, _) |- _ =>
      pose proof (createFreeSubscription_codes f s k u) as Hc;
      rewrite H in Hc; exact Hc
    end.
Qed.

(** Once a code is spent it stays spent, whatever requests follow. *)
Lemma step_keeps_spent (h : string) (s : Store) (ec : Env * Call) :
  spent h s -> known h s ->
  spent h (fst (step url_hostname s ec)) /\ known h (fst (step url_hostname s ec)).
Proof.
  intros Hs Hk. destruct ec as [env call]. unfold step. cbn [fst snd].
  destruct call as [q | req | req | user body | slug user].
  - destruct (authorize_codes env s q) as [E | [row [E Hc]]].
    + split; [eapply spent_same_codes | eapply known_same_codes]; eassumption.
    + split.
      * intros r Hin Hh. rewrite E in Hin. apply in_app_iff in Hin as [Hin | [<- | []]].
        -- now apply Hs.
        -- exfalso. destruct Hk as [r0 [Hin0 Hh0]].
           unfold code_conflict in Hc.
           assert (Hex : existsb
                     (fun r' => String.eqb (cd_id r') (cd_id row)
                                || String.eqb (cd_code_hash r') (cd_code_hash row))
                     (oauth_codes s) = true).
           { apply existsb_exists. exists r0. split; [assumption |].
             rewrite Hh0, Hh, String.eqb_refl. apply orb_true_r. }
           congruence.
      * destruct Hk as [r0 [Hin0 Hh0]]. exists r0. split; [| assumption].
        rewrite E. apply in_app_iff. now left.
  - unfold token_POST. repeat case_match; cbn [fst]; try (split; assumption).
    + destruct (exchange_codes env s b) as [E | [id E]].
      * split; [eapply spent_same_codes | eapply known_same_codes]; eassumption.
      * split.
        -- eapply spent_same_codes; [exact E |]. now apply mark_keeps_spent.
        -- eapply known_same_codes; [exact E |]. now apply mark_keeps_known.
    + pose proof (refresh_codes env s b) as E.
      split; [eapply spent_same_codes | eapply known_same_codes]; eassumption.
  - pose proof (revoke_codes s req) as E.
    split; [eapply spent_same_codes | eapply known_same_codes]; eassumption.
  - pose proof (clients_DELETE_codes env s user body) as E.
    split; [eapply spent_same_codes | eapply known_same_codes]; eassumption.
  - pose proof (install_token_codes env s slug user) as E.
    split; [eapply spent_same_codes | eapply known_same_codes]; eassumption.
Qed.

(** A call counted by [exchanged] ran [handleAuthorizationCode]. *)
Lemma exchanged_inv (c : string) (s s1 : Store) (ec : Env * Call) (r : Response) :
  step url_hostname s ec = (s1, r) ->
  exchanged c ec r = true ->
  exists body tb,
    code body = Some c
    /\ r = TokenJson tb
    /\ handleAuthorizationCode url_hostname (fst ec) s body = (s1, TokenJson tb).
Proof.
  destruct ec as [env call]. unfold step, exchanged. cbn [fst snd].
  destruct call as [q | req | req | user body | slug user]; try discriminate.
  destruct r; try discriminate.
  destruct (parsed req) as [b |] eqn:Hp; [| discriminate].
  intros Hstep Hex. apply andb_true_iff in Hex as [Hg Hc].
  unfold token_POST in Hstep. rewrite Hp, Hg in Hstep.
  destruct (negb (supported_content_type (content_type req))); [discriminate |].
  exists b, body. repeat split; [| assumption].
  unfold opt_eqb in Hc. destruct (code b); [| discriminate].
  apply String.eqb_eq in Hc. now subst.
Qed.

Lemma spent_no_success (c : string) (calls : list (Env * Call)) :
  forall s, spent (hashToken c) s -> known (hashToken c) s ->
            successes c calls (snd (run url_hostname s calls)) = 0%nat.
Proof.
  induction calls as [| ec calls IH]; intros s Hs Hk; [reflexivity |].
  cbn [run]. destruct (step url_hostname s ec) as [s1 r] eqn:Hstep.
  destruct (run url_hostname s1 calls) as [s2 rs] eqn:Hrun.
  unfold successes. cbn [snd combine List.filter fst].
  destruct (exchanged c ec r) eqn:Hex.
  - exfalso. destruct (exchanged_inv _ _ _ _ _ Hstep Hex) as [body [tb [Hc [-> Hh]]]].
    destruct (exchange_spent_fails (fst ec) s body c Hc Hs)
      as [[d [E _]] | [d E]]; rewrite Hh in E; discriminate.
  - destruct (step_keeps_spent _ s ec Hs Hk) as [Hs1 Hk1].
    rewrite Hstep in Hs1, Hk1. specialize (IH s1 Hs1 Hk1).
    rewrite Hrun in IH. exact IH.
Qed.

Lemma exchange_consumes (env : Env) (s s' : Store) (body : Body) (tb : TokenBody)
    (c : string) :
  handleAuthorizationCode url_hostname env s body = (s', TokenJson tb) ->
  code body = Some c ->
  spent (hashToken c) s' /\ known (hashToken c) s'.
Proof.
  intros H Hc. destruct (exchange_success _ _ _ _ _ H) as [c' [a [Hn [Hs [E _]]]]].
  apply nonempty_inv in Hn as [Hn _]. rewrite Hc in Hn. injection Hn as <-.
  split.
  - eapply spent_same_codes; [exact E |]. now apply mark_spends.
  - eapply known_same_codes; [exact E |]. apply mark_keeps_known.
    apply single_inv in Hs. exists a.
    assert (Hin : In a (List.filter (unused_with (hashToken c)) (oauth_codes s)))
      by (rewrite Hs; now left).
    apply filter_In in Hin as [Hin Hp]. split; [assumption |].
    unfold unused_with in Hp. apply andb_true_iff in Hp as [Hp _].
    now apply String.eqb_eq in Hp.
Qed.

Lemma at_most_one_exchange (c : string) (calls : list (Env * Call)) :
  forall s, (successes c calls (snd (run url_hostname s calls)) <= 1)%nat.
Proof.
  induction calls as [| ec calls IH]; intros s; [cbn; lia |].
  cbn [run]. destruct (step url_hostname s ec) as [s1 r] eqn:Hstep.
  destruct (run url_hostname s1 calls) as [s2 rs] eqn:Hrun.
  unfold successes. cbn [snd combine List.filter fst].
  destruct (exchanged c ec r) eqn:Hex.
  - destruct (exchanged_inv _ _ _ _ _ Hstep Hex) as [body [tb [Hc [-> Hh]]]].
    destruct (exchange_consumes _ _ _ _ _ _ Hh Hc) as [Hs1 Hk1].
    pose proof (spent_no_success c calls s1 Hs1 Hk1) as H0.
    rewrite Hrun in H0. unfold successes in H0. cbn [snd] in H0.
    cbn [length]. rewrite H0. lia.
  - specialize (IH s1). rewrite Hrun in IH. exact IH.
Qed.

Lemma exchange_replay (env : Env) (s s' : Store) (body : Body) (tb : TokenBody)
    (c : string) :
  handleAuthorizationCode url_hostname env s body = (s', TokenJson tb) ->
  code body = Some c ->
  spent (hashToken c) s'
  /\ forall env2 : Env,
       handleAuthorizationCode url_hostname env2 s' body
       = (s', ErrorJson 400 "invalid_grant" "Invalid or expired authorization code").
Proof.
  intros H Hc. destruct (exchange_consumes _ _ _ _ _ _ H Hc) as [Hs _].
  split; [assumption |]. intros env2.
  destruct (exchange_success _ _ _ _ _ H) as [c' [a [Hn _]]].
  pose proof Hn as Hn'. apply nonempty_inv in Hn' as [Hn' _].
  rewrite Hc in Hn'. injection Hn' as <-.
  revert H. unfold handleAuthorizationCode. rewrite !oauthError_plain, Hn.
  destruct (nonempty (redirect_uri body)); [| discriminate].
  destruct (nonempty (client_id body)); [| discriminate].
  destruct (nonempty (code_verifier body)); [| discriminate].
  intros _.
  change (fun r => String.eqb (cd_code_hash r) (hashToken c) && is_null (cd_used_at r))
    with (unused_with (hashToken c)).
  rewrite (spent_no_match _ _ Hs). reflexivity.
Qed.

Lemma exchange_expired (env : Env) (s : Store) (body : Body)
    (c ru ci cv : string) (a : OAuthCode) :
  nonempty (code body) = Some c ->
  nonempty (redirect_uri body) = Some ru ->
  nonempty (client_id body) = Some ci ->
  nonempty (code_verifier body) = Some cv ->
  Js.single (List.filter (unused_with (hashToken c)) (oauth_codes s)) = Some a ->
  (cd_expires_at a < now env)%Z ->
  snd (handleAuthorizationCode url_hostname env s body)
  = ErrorJson 400 "invalid_grant" "Authorization code has expired"
  /\ spent (hashToken c) (fst (handleAuthorizationCode url_hostname env s body)).
Proof.
  intros H1 H2 H3 H4 Ha Hlt. unfold handleAuthorizationCode.
  rewrite !oauthError_plain, H1, H2, H3, H4.
  change (fun r => String.eqb (cd_code_hash r) (hashToken c) && is_null (cd_used_at r))
    with (unused_with (hashToken c)).
  rewrite Ha. apply Z.ltb_lt in Hlt. rewrite Hlt. cbn [fst snd].
  split; [reflexivity | now apply mark_spends].
Qed.

Lemma authorize_code_row (env : Env) (s s' : Store) (q : AuthorizeQuery)
    (uri issued : string) (st : option string) :
  authorize url_hostname env s q = (s', CodeRedirect uri issued st) ->
  exists row,
    oauth_codes s' = (oauth_codes s ++ [row])%list
    /\ cd_code_hash row = hashToken issued
    /\ cd_used_at row = None
    /\ cd_expires_at row = (now env + 10 * 60 * 1000)%Z.
Proof.
  unfold authorize, insert_code, OAuth.oauthError.
  repeat case_match; intros [= <- <- <- <-]; simplify_eq.
  eexists. cbn. repeat split.
Qed.

(** Requests handled one after the other exchange an authorization code
    at most once.  (1) In any sequence of requests to the routes, each
    handled to its end before the next one starts, at most one
    [authorization_code] exchange of a given code is answered with
    tokens.  (2) When an exchange is answered with tokens, the
    resulting store has every row of that code marked used, and the same
    exchange attempted again, at any time, is answered [invalid_grant]
    and changes nothing.  (3) An exchange that finds the code but finds
    it expired is answered [invalid_grant] and leaves it marked used.
    (4) A code expires ten minutes after it is issued. *)
Theorem authorization_code_single_use :
  (forall (c : string) (calls : list (Env * Call)) (s : Store),
      (successes c calls (snd (run url_hostname s calls)) <= 1)%nat)
  /\
  (forall (env : Env) (s s' : Store) (body : Body) (tb : TokenBody) (c : string),
      handleAuthorizationCode url_hostname env s body = (s', TokenJson tb) ->
      code body = Some c ->
      spent (hashToken c) s'
      /\ forall env2 : Env,
           handleAuthorizationCode url_hostname env2 s' body
           = (s', ErrorJson 400 "invalid_grant" "Invalid or expired authorization code"))
  /\
  (forall (env : Env) (s : Store) (body : Body) (c ru ci cv : string) (a : OAuthCode),
      nonempty (code body) = Some c ->
      nonempty (redirect_uri body) = Some ru ->
      nonempty (client_id body) = Some ci ->
      nonempty (code_verifier body) = Some cv ->
      Js.single (List.filter (unused_with (hashToken c)) (oauth_codes s)) = Some a ->
      (cd_expires_at a < now env)%Z ->
      snd (handleAuthorizationCode url_hostname env s body)
      = ErrorJson 400 "invalid_grant" "Authorization code has expired"
      /\ spent (hashToken c) (fst (handleAuthorizationCode url_hostname env s body)))
  /\
  (forall (env : Env) (s s' : Store) (q : AuthorizeQuery)
          (uri issued : string) (st : option string),
      authorize url_hostname env s q = (s', CodeRedirect uri issued st) ->
      exists row,
        oauth_codes s' = (oauth_codes s ++ [row])%list
        /\ cd_code_hash row = hashToken issued
        /\ cd_used_at row = None
        /\ cd_expires_at row = (now env + 10 * 60 * 1000)%Z).
Proof.
  split; [exact at_most_one_exchange |].
  split; [exact exchange_replay |].
  split; [exact exchange_expired | exact authorize_code_row].
Qed.

End ExchangeFacts.

Lemma authorization_code_single_use_witness :
  (* the code is exchanged, then exchanged again *)
  (Trace.successes Sample.code1
     Scenario.exchange_twice
     (snd (Trace.run Sample.hostname Sample.store_with_code Scenario.exchange_twice)) <= 1)%nat
  /\ (Trace.spent (OAuth.hashToken Sample.code1) Sample.store_with_tokens
      /\ forall env2 : Routes.Env,
           Routes.handleAuthorizationCode Sample.hostname env2 Sample.store_with_tokens
             (Sample.exchange_body Sample.code1)
           = (Sample.store_with_tokens,
              OAuth.ErrorJson 400 "invalid_grant" "Invalid or expired authorization code"))
  /\ (snd (Routes.handleAuthorizationCode Sample.hostname
             (Sample.env 601001 [4; 5; 6] [7; 8; 9] "token-row-1")
             Sample.store_with_code (Sample.exchange_body Sample.code1))
      = OAuth.ErrorJson 400 "invalid_grant" "Authorization code has expired"
      /\ Trace.spent (OAuth.hashToken Sample.code1)
           (fst (Routes.handleAuthorizationCode Sample.hostname
                   (Sample.env 601001 [4; 5; 6] [7; 8; 9] "token-row-1")
                   Sample.store_with_code (Sample.exchange_body Sample.code1))))
  /\ (exists row,
        Db.oauth_codes Sample.store_with_code = (Db.oauth_codes Sample.store0 ++ [row])%list
        /\ Db.cd_code_hash row = OAuth.hashToken Sample.code1
        /\ Db.cd_used_at row = None
        /\ Db.cd_expires_at row = (1000 + 10 * 60 * 1000)%Z).
Proof.
  destruct (authorization_code_single_use Sample.hostname) as [P1 [P2 [P3 P4]]].
  split; [apply P1 |].
  split.
  { apply (P2 (Sample.env 2000 [4; 5; 6] [7; 8; 9] "token-row-1")
              Sample.store_with_code Sample.store_with_tokens
              (Sample.exchange_body Sample.code1) Sample.tokens1 Sample.code1).
    - vm_compute; reflexivity.
    - reflexivity. }
  split.
  { apply (P3 (Sample.env 601001 [4; 5; 6] [7; 8; 9] "token-row-1")
              Sample.store_with_code (Sample.exchange_body Sample.code1)
              Sample.code1 "https://x.test/cb" "mcp_client_1" Sample.verifier
              Sample.code_row1).
    - vm_compute; reflexivity.
    - reflexivity.
    - reflexivity.
    - reflexivity.
    - vm_compute; reflexivity.
    - vm_compute; reflexivity. }
  apply (P4 (Sample.env 1000 [1; 2; 3] [] "code-row-1") Sample.store0
            Sample.store_with_code (Sample.query None)
            "https://x.test/cb" Sample.code1 (Some "xyz")).
  vm_compute; reflexivity.
Defined.

(* ===================================================================== *)
(** * Two exchanges of one code in flight at once                         *)
(* ===================================================================== *)

Section RaceFacts.
Import Db OAuth Routes Trace Race.
Variable url_hostname : string -> option string.

(** The handler is its steps run in a row on one store. *)
Lemma handler_in_steps (env : Env) (s : Store) (body : Body) :
  handleAuthorizationCode url_hostname env s body
  = finish url_hostname env s (select_code url_hostname env s body).
Proof.
  unfold handleAuthorizationCode, select_code, finish, issue, mark, token_row.
  repeat case_match; reflexivity.
Qed.

(** An exchange that is answered with tokens has passed every check on
    the row that it selected, and has inserted its token row. *)
Lemma exchange_selects (env : Env) (s s' : Store) (body : Body) (tb : TokenBody) :
  handleAuthorizationCode url_hostname env s body = (s', TokenJson tb) ->
  exists a,
    select_code url_hostname env s body = Verified a
    /\ insert_token (mark env s a) (token_row env a) = Some s'
    /\ tb = {| access_token :=
                 generateAccessToken (cd_knowledge_base_id a) (random_a env);
               token_type := "Bearer";
               expires_in := ACCESS_TOKEN;
               refresh_token :=
                 generateRefreshToken (cd_knowledge_base_id a) (random_b env);
               scope := Js.join_sp (cd_scopes a) |}.
Proof.
  rewrite handler_in_steps. unfold select_code. rewrite !oauthError_plain.
  repeat case_match; cbn [finish]; rewrite ?oauthError_plain; intros Hf;
    try discriminate Hf.
  unfold issue in Hf. rewrite oauthError_plain in Hf.
  destruct (insert_token _ _) as [st |] eqn:Hi; [| discriminate Hf].
  injection Hf as <- <-. eexists. split; [reflexivity |]. split; [exact Hi | reflexivity].
Qed.

(** Two exchanges of one code, each of which would be answered with
    tokens if it were alone, are both answered with tokens when the
    second SELECT returns before the first UPDATE is applied, provided
    that they draw different row ids and random bytes. *)
Lemma race_both_succeed (env1 env2 : Env) (s s1 s2 : Store) (body1 body2 : Body)
    (tb1 tb2 : TokenBody) :
  handleAuthorizationCode url_hostname env1 s body1 = (s1, TokenJson tb1) ->
  handleAuthorizationCode url_hostname env2 s body2 = (s2, TokenJson tb2) ->
  uuid env2 <> uuid env1 ->
  hashToken (access_token tb2) <> hashToken (access_token tb1) ->
  hashToken (refresh_token tb2) <> hashToken (refresh_token tb1) ->
  exists s' r1 r2,
    race url_hostname env1 env2 s body1 body2 = (s', TokenJson tb1, TokenJson tb2)
    /\ oauth_tokens s' = (oauth_tokens s ++ [r1; r2])%list
    /\ tk_access_token_hash r1 = hashToken (access_token tb1)
    /\ tk_access_token_hash r2 = hashToken (access_token tb2).
Proof.
  intros H1 H2 Hid Ha Hr.
  apply exchange_selects in H1 as [a1 [Hs1 [Hi1 ->]]].
  apply exchange_selects in H2 as [a2 [Hs2 [Hi2 ->]]].
  cbn [access_token refresh_token] in Ha, Hr.
  unfold race. rewrite Hs1, Hs2. cbn [finish]. unfold issue at 1. rewrite Hi1.
  unfold issue. unfold insert_token in Hi1, Hi2 |- *.
  destruct (existsb _ (oauth_tokens (mark env1 s a1))) eqn:E1; [discriminate |].
  destruct (existsb _ (oauth_tokens (mark env2 s a2))) eqn:E2; [discriminate |].
  injection Hi1 as <-. clear Hi2.
  assert (Hmark : forall env st a, oauth_tokens (mark env st a) = oauth_tokens st)
    by reflexivity.
  rewrite Hmark in E2. rewrite !Hmark. cbn [oauth_tokens with_tokens].
  rewrite List.existsb_app, E2.
  cbn [existsb orb token_row tk_id tk_access_token_hash tk_refresh_token_hash
       hash_clash].
  apply String.eqb_neq in Hid, Ha, Hr.
  rewrite String.eqb_sym in Hid. rewrite String.eqb_sym in Ha.
  unfold hash_clash. cbn [token_row tk_access_token_hash tk_refresh_token_hash].
  rewrite Hid, Ha, Hr. cbn [orb].
  eexists _, (token_row env1 a1), (token_row env2 a2).
  split; [reflexivity |]. split; [| split; reflexivity].
  now rewrite <- app_assoc.
Qed.

End RaceFacts.

(** C2, at the failing input.  Two requests exchange the code [code1]
    with the same, valid parameters.  The handler is its database calls
    run in a row: the SELECT of the unused row, the UPDATE that marks it
    as used, the INSERT of the token row.  Handled one after the other,
    the second request is answered [invalid_grant].  In flight at once,
    with the SELECT of the second returning before the UPDATE of the first
    is applied, both are answered with tokens, since the UPDATE carries no
    condition on [used_at] and its result is not read.  The store then
    holds two token rows for the one code, and the gateway accepts both
    access tokens. *)
Theorem code_is_exchanged_twice_at_once :
  (forall (env : Routes.Env) (s : Db.Store) (body : Routes.Body),
      Routes.handleAuthorizationCode Sample.hostname env s body
      = Race.finish Sample.hostname env s (Race.select_code Sample.hostname env s body))
  /\ snd (Routes.handleAuthorizationCode Sample.hostname Scenario.second_exchange
            Sample.store_with_tokens (Sample.exchange_body Sample.code1))
     = OAuth.ErrorJson 400 "invalid_grant" "Invalid or expired authorization code"
  /\ snd (fst Scenario.raced) = OAuth.TokenJson Sample.tokens1
  /\ snd Scenario.raced = OAuth.TokenJson Scenario.tokens_b
  /\ map Db.tk_id (Db.oauth_tokens (fst (fst Scenario.raced)))
     = ["token-row-1"; "token-row-2"]
  /\ map Db.cd_used_at (Db.oauth_codes (fst (fst Scenario.raced))) = [Some 2001]
  /\ Forall (fun access =>
               exists tr,
                 snd (Worker.validateToken 3000 (fst (fst Scenario.raced))
                        (Some ("Bearer " +:+ access)) "docs")
                 = Worker.Returned tr
                 /\ Worker.valid tr = true)
            [Sample.access1; Scenario.access_b].
Proof.
  split; [intros env s body; apply handler_in_steps |].
  split; [vm_compute; reflexivity |].
  split; [vm_compute; reflexivity |].
  split; [vm_compute; reflexivity |].
  split; [vm_compute; reflexivity |].
  split; [vm_compute; reflexivity |].
  repeat constructor; eexists; (split; [vm_compute; reflexivity | reflexivity]).
Qed.

Example second_exchange_counts_once :
  Trace.successes Sample.code1
     Scenario.exchange_twice
     (snd (Trace.run Sample.hostname Sample.store_with_code Scenario.exchange_twice)) = 1%nat.
Proof. vm_compute. reflexivity. Qed.

(* ===================================================================== *)
(** * Refresh tokens are rotated                                          *)
(* ===================================================================== *)

Section RotationFacts.
Import Db OAuth Routes Trace.
Variable url_hostname : string -> option string.



















End RotationFacts.


Example old_refresh_token_replayed_at_once :
  Routes.handleRefreshToken Sample.hostname
    (Sample.env 5001 [41; 42; 43] [44; 45; 46] "unused")
    Sample.store_rotated (Sample.refresh_body Sample.refresh1)
  = (Sample.store_rotated,
     OAuth.ErrorJson 400 "invalid_grant" "Invalid refresh token").
Proof. vm_compute. reflexivity. Qed.

Example new_pair_is_accepted :
  exists tb,
    snd (Trace.run Sample.hostname Sample.store_rotated Scenario.use_new_pair)
    = [OAuth.TokenJson tb].
Proof. eexists. vm_compute. reflexivity. Qed.

(* ===================================================================== *)
(** * Revoked clients                                                     *)
(* ===================================================================== *)

Section RevokedClientFacts.
Import Db OAuth Routes Trace.
Variable url_hostname : string -> option string.

(** The authorization endpoint issues no code for a client all of whose
    rows are revoked. *)
Lemma authorize_rejects_revoked (env : Env) (s : Store) (q : AuthorizeQuery)
    (clientId : string) :
  nonempty (q_client_id q) = Some clientId ->
  (forall c, In c (oauth_clients s) -> oc_client_id c = clientId ->
             oc_revoked_at c <> None) ->
  fst (authorize url_hostname env s q) = s
  /\ forall uri issued st,
       snd (authorize url_hostname env s q) <> CodeRedirect uri issued st.
Proof.
  intros Hc Hrev.
  assert (Hf : List.filter
                 (fun c => String.eqb (oc_client_id c) clientId
                           && is_null (oc_revoked_at c)
                           && negb (is_null (kb_by_id s (oc_knowledge_base_id c))))
                 (oauth_clients s) = []).
  { induction (oauth_clients s) as [| c l IH]; [reflexivity |].
    cbn [List.filter].
    destruct (String.eqb (oc_client_id c) clientId) eqn:E.
    - apply String.eqb_eq in E. pose proof (Hrev c (or_introl eq_refl) E) as Hr.
      destruct (oc_revoked_at c); [| contradiction]. cbn.
      apply IH. intros c' Hin. apply Hrev. now right.
    - cbn. apply IH. intros c' Hin. apply Hrev. now right. }
  unfold authorize, OAuth.oauthError. rewrite Hc, Hf. cbn [Js.single].
  repeat case_match; cbn [fst snd]; split; try reflexivity; intros; discriminate.
Qed.

(** The token endpoint never reads [oauth_clients]: an exchange answers
    the same whatever the client rows say. *)
Lemma exchange_ignores_clients (env : Env) (s : Store) (body : Body)
    (clients : list OAuthClient) :
  snd (handleAuthorizationCode url_hostname env (with_clients clients s) body)
  = snd (handleAuthorizationCode url_hostname env s body).
Proof.
  unfold handleAuthorizationCode, insert_token, mark_code_used.
  cbn [oauth_codes oauth_tokens with_clients with_codes].
  repeat case_match; simplify_eq; reflexivity.
Qed.

Lemma refresh_ignores_clients (env : Env) (s : Store) (body : Body)
    (clients : list OAuthClient) :
  snd (handleRefreshToken url_hostname env (with_clients clients s) body)
  = snd (handleRefreshToken url_hostname env s body).
Proof.
  unfold handleRefreshToken, rotate_token, delete_tokens.
  cbn [oauth_codes oauth_tokens with_clients with_codes].
  repeat case_match; simplify_eq; reflexivity.
Qed.

End RevokedClientFacts.

(** C1, at the failing input.  The owner revokes the client while a code
    issued for it is outstanding.  Afterwards every row of the client has
    [revoked_at] set and the authorization endpoint answers
    [invalid_client]; the token endpoint still exchanges the outstanding
    code for a token pair, and then refreshes that pair. *)
Theorem revoked_client_still_exchanges_code :
  Forall (fun c => Db.oc_revoked_at c = Some 1500) (Db.oauth_clients Sample.store_revoked)
  /\ snd (Routes.authorize Sample.hostname (Sample.env 1600 [11; 12] [] "code-row-2")
            Sample.store_revoked (Sample.query None))
     = OAuth.ErrorRedirect "https://x.test/cb" "invalid_client"
         "Invalid or revoked client" (Some "xyz")
  /\ snd (Routes.token_POST Sample.hostname
            (Sample.env 2000 [4; 5; 6] [7; 8; 9] "token-row-1")
            Sample.store_revoked (Sample.json (Sample.exchange_body Sample.code1)))
     = OAuth.TokenJson Sample.tokens1
  /\ snd (Routes.token_POST Sample.hostname
            (Sample.env 5000 [21; 22; 23] [24; 25; 26] "unused")
            (fst (Routes.token_POST Sample.hostname
                    (Sample.env 2000 [4; 5; 6] [7; 8; 9] "token-row-1")
                    Sample.store_revoked
                    (Sample.json (Sample.exchange_body Sample.code1))))
            (Sample.json (Sample.refresh_body Sample.refresh1)))
     = OAuth.TokenJson Sample.tokens2.
Proof.
  split; [| split; [| split]].
  - vm_compute. repeat constructor.
  - vm_compute. reflexivity.
  - vm_compute. reflexivity.
  - vm_compute. reflexivity.
Qed.

(* ===================================================================== *)
(** * The entitlement resolver                                            *)
(* ===================================================================== *)

Section EntitlementFacts.
Import Db OAuth Routes Entitlement.

Lemma owner_allowed now s knowledgeBaseId userId kb :
  kb_lookup s knowledgeBaseId = Some kb ->
  kb_user_id kb = userId ->
  hasKBAccess now s knowledgeBaseId userId = granted.
Proof.
  unfold kb_lookup, hasKBAccess. intros -> <-. now rewrite String.eqb_refl.
Qed.

Lemma string_neqb (a b : string) : a <> b -> String.eqb a b = false.
Proof. intros H. now apply String.eqb_neq. Qed.

Lemma closed_denied now s knowledgeBaseId userId kb :
  kb_lookup s knowledgeBaseId = Some kb ->
  kb_user_id kb <> userId ->
  kb_visibility kb <> Public \/ kb_mcp_enabled kb = false ->
  hasKBAccess now s knowledgeBaseId userId = denied.
Proof.
  unfold kb_lookup, hasKBAccess. intros -> Hne Hclosed.
  rewrite (string_neqb _ _ Hne).
  destruct Hclosed as [Hv | Hm].
  - destruct (kb_visibility kb); [reflexivity | contradiction].
  - rewrite Hm. cbn. now rewrite orb_true_r.
Qed.

Lemma free_allowed now s knowledgeBaseId userId kb :
  kb_lookup s knowledgeBaseId = Some kb ->
  kb_user_id kb <> userId ->
  kb_visibility kb = Public ->
  kb_mcp_enabled kb = true ->
  kb_pricing_model kb = Free ->
  hasKBAccess now s knowledgeBaseId userId = granted.
Proof.
  unfold kb_lookup, hasKBAccess. intros -> Hne -> -> ->.
  now rewrite (string_neqb _ _ Hne).
Qed.

Lemma paid_allowed_only_if now s knowledgeBaseId userId kb :
  kb_lookup s knowledgeBaseId = Some kb ->
  kb_user_id kb <> userId ->
  kb_visibility kb = Public ->
  kb_mcp_enabled kb = true ->
  kb_pricing_model kb = Paid ->
  hasAccess (hasKBAccess now s knowledgeBaseId userId) = true ->
  exists sub,
    In sub (kb_subscriptions s)
    /\ sub_knowledge_base_id sub = knowledgeBaseId
    /\ sub_subscriber_id sub = userId
    /\ (sub_status sub = Active \/ sub_status sub = Trialing)
    /\ (sub_current_period_end sub = None
        \/ exists e, sub_current_period_end sub = Some e /\ (now <= e)%Z)
    /\ subscription (hasKBAccess now s knowledgeBaseId userId)
       = Some (sub_id sub, sub_status sub).
Proof.
  unfold kb_lookup, hasKBAccess. intros -> Hne -> -> ->.
  rewrite (string_neqb _ _ Hne). cbn [visibility_eqb pricing_eqb negb orb].
  destruct (Js.single (live_subscriptions s knowledgeBaseId userId)) as [sub |] eqn:Hs;
    [| discriminate].
  apply single_inv in Hs.
  assert (Hin : In sub (live_subscriptions s knowledgeBaseId userId))
    by (rewrite Hs; now left).
  apply filter_In in Hin as [Hin Hp].
  apply andb_true_iff in Hp as [Hp Hst]. apply andb_true_iff in Hp as [Hk Hu].
  apply String.eqb_eq in Hk, Hu.
  intros Hacc. exists sub. repeat split; try assumption.
  - destruct (sub_status sub); cbn in Hst; try discriminate; auto.
  - destruct (sub_current_period_end sub) as [e |]; [| now left].
    right. exists e. split; [reflexivity |].
    destruct (e <? now)%Z eqn:E; [discriminate | apply Z.ltb_ge in E; lia].
  - destruct (sub_current_period_end sub) as [e |]; [| reflexivity].
    destruct (e <? now)%Z; [discriminate | reflexivity].
Qed.

Lemma paid_allowed_if now s knowledgeBaseId userId kb sub :
  kb_lookup s knowledgeBaseId = Some kb ->
  kb_user_id kb <> userId ->
  kb_visibility kb = Public ->
  kb_mcp_enabled kb = true ->
  kb_pricing_model kb = Paid ->
  Js.single (live_subscriptions s knowledgeBaseId userId) = Some sub ->
  (sub_current_period_end sub = None
   \/ exists e, sub_current_period_end sub = Some e /\ (now <= e)%Z) ->
  hasKBAccess now s knowledgeBaseId userId
  = {| hasAccess := true; subscription := Some (sub_id sub, sub_status sub) |}.
Proof.
  unfold kb_lookup, hasKBAccess. intros -> Hne -> -> -> -> Hend.
  rewrite (string_neqb _ _ Hne). cbn [visibility_eqb pricing_eqb negb orb].
  destruct Hend as [-> | [e [-> He]]]; [reflexivity |].
  destruct (e <? now)%Z eqn:E; [apply Z.ltb_lt in E; lia | reflexivity].
Qed.

Lemma free_subscription_created fresh s knowledgeBaseId userId :
  subscriptions_of s knowledgeBaseId userId = [] ->
  (forall r, In r (kb_subscriptions s) -> sub_id r <> fresh) ->
  createFreeSubscription fresh s knowledgeBaseId userId
  = (with_subscriptions
       (kb_subscriptions s ++
        [{| sub_id := fresh; sub_knowledge_base_id := knowledgeBaseId;
            sub_subscriber_id := userId; sub_status := Active;
            sub_current_period_end := None |}]) s,
     Some fresh).
Proof.
  intros Hnone Hfresh. unfold createFreeSubscription, insert_subscription.
  match goal with |- context [existsb ?f ?l] =>
    assert (Hex : existsb f l = false) end.
  { apply not_true_is_false. intros Hex. apply existsb_exists in Hex as [r [Hin Hr]].
    cbn in Hr. apply orb_true_iff in Hr as [E | E].
    - apply String.eqb_eq in E. now apply (Hfresh r Hin).
    - assert (Hin' : In r (subscriptions_of s knowledgeBaseId userId))
        by (apply filter_In; split; assumption).
      rewrite Hnone in Hin'. destruct Hin'. }
  now rewrite Hex.
Qed.

Lemma free_subscription_conflict fresh s knowledgeBaseId userId existing :
  subscriptions_of s knowledgeBaseId userId = [existing] ->
  createFreeSubscription fresh s knowledgeBaseId userId = (s, Some (sub_id existing)).
Proof.
  intros Hone. unfold createFreeSubscription, insert_subscription.
  match goal with |- context [existsb ?f ?l] =>
    assert (Hex : existsb f l = true) end.
  { apply existsb_exists. exists existing.
    assert (Hin : In existing (subscriptions_of s knowledgeBaseId userId))
      by (rewrite Hone; now left).
    apply filter_In in Hin as [Hin Hp]. split; [assumption |].
    cbn. rewrite Hp. apply orb_true_r. }
  rewrite Hex. cbn. now rewrite Hone.
Qed.

Lemma install_subscriptions env s slug user :
  kb_subscriptions (fst (install_token env s slug user)) = kb_subscriptions s
  \/ exists kb,
       Js.single
         (List.filter (fun kb => String.eqb (kb_slug kb) slug
                                 && visibility_eqb (kb_visibility kb) Public)
                      (knowledge_bases s)) = Some kb
       /\ kb_subscriptions (fst (install_token env s slug user))
          = kb_subscriptions (fst (createFreeSubscription (uuid env) s (kb_id kb) user)).
Proof.
  unfold install_token, insert_client, insert_token, delete_client.
  repeat case_match; simplify_eq; cbn [fst]; auto; right; eexists;
    (split; [reflexivity |]);
    match goal with
    | H : createFreeSubscription _ _ _ _ = _ |- _ => rewrite H
    end; reflexivity.
Qed.

Lemma install_first_access env s slug user kb :
  Js.single
    (List.filter (fun kb => String.eqb (kb_slug kb) slug
                            && visibility_eqb (kb_visibility kb) Public)
                 (knowledge_bases s)) = Some kb ->
  kb_lookup s (kb_id kb) = Some kb ->
  kb_mcp_enabled kb = true ->
  kb_pricing_model kb = Free ->
  kb_user_id kb <> user ->
  subscriptions_of s (kb_id kb) user = [] ->
  (forall r, In r (kb_subscriptions s) -> sub_id r <> uuid env) ->
  kb_subscriptions (fst (install_token env s slug user))
  = (kb_subscriptions s ++
     [{| sub_id := uuid env; sub_knowledge_base_id := kb_id kb;
         sub_subscriber_id := user; sub_status := Active;
         sub_current_period_end := None |}])%list.
Proof.
  intros Hslug Hid Hm Hp Hne Hnone Hfresh.
  assert (Hv : kb_visibility kb = Public).
  { apply single_inv in Hslug.
    assert (Hin : In kb (List.filter
                           (fun kb => String.eqb (kb_slug kb) slug
                                      && visibility_eqb (kb_visibility kb) Public)
                           (knowledge_bases s))) by (rewrite Hslug; now left).
    apply filter_In in Hin as [_ Hin]. apply andb_true_iff in Hin as [_ Hin].
    destruct (kb_visibility kb); [discriminate | reflexivity]. }
  unfold install_token. rewrite Hslug, Hm.
  rewrite (free_allowed _ _ _ _ _ Hid Hne Hv Hm Hp).
  rewrite Hp, (string_neqb _ _ Hne), (free_subscription_created _ _ _ _ Hnone Hfresh).
  cbn [negb hasAccess granted subscription option_map Js.truthy_opt pricing_eqb andb].
  unfold insert_client, insert_token, delete_client.
  repeat case_match; simplify_eq; reflexivity.
Qed.

Lemma install_later_access env s slug user kb existing :
  Js.single
    (List.filter (fun kb => String.eqb (kb_slug kb) slug
                            && visibility_eqb (kb_visibility kb) Public)
                 (knowledge_bases s)) = Some kb ->
  subscriptions_of s (kb_id kb) user = [existing] ->
  kb_subscriptions (fst (install_token env s slug user)) = kb_subscriptions s.
Proof.
  intros Hslug Hone.
  destruct (install_subscriptions env s slug user) as [E | [kb' [Hk E]]]; [exact E |].
  rewrite Hslug in Hk. injection Hk as <-.
  now rewrite E, (free_subscription_conflict _ _ _ _ _ Hone).
Qed.

(** C6. The resolver decides in this order: (a) the owner of the
    repository is allowed; (b) anyone else is denied when the repository is
    not public or its gateway access is off; (c) otherwise a free
    repository is allowed, the caller then creates an active Subscription
    row on the first access ([install_token]), and an insert that meets
    the unique constraint returns the id of the row that exists, leaving
    the store as it was; (d) otherwise (a paid repository) access is
    allowed only with a Subscription of that principal for that repository
    whose status is active or trialing and whose period end is null or not
    before now, and the result carries that subscription's id. *)
Theorem entitlement_decision_order :
  (forall (now : Z) (s : Store) (knowledgeBaseId userId : string) (kb : KnowledgeBase),
      kb_lookup s knowledgeBaseId = Some kb ->
      kb_user_id kb = userId ->
      hasKBAccess now s knowledgeBaseId userId
      = {| hasAccess := true; subscription := None |})
  /\
  (forall (now : Z) (s : Store) (knowledgeBaseId userId : string) (kb : KnowledgeBase),
      kb_lookup s knowledgeBaseId = Some kb ->
      kb_user_id kb <> userId ->
      kb_visibility kb <> Public \/ kb_mcp_enabled kb = false ->
      hasKBAccess now s knowledgeBaseId userId
      = {| hasAccess := false; subscription := None |})
  /\
  (forall (now : Z) (s : Store) (knowledgeBaseId userId : string) (kb : KnowledgeBase),
      kb_lookup s knowledgeBaseId = Some kb ->
      kb_user_id kb <> userId ->
      kb_visibility kb = Public ->
      kb_mcp_enabled kb = true ->
      kb_pricing_model kb = Free ->
      hasKBAccess now s knowledgeBaseId userId
      = {| hasAccess := true; subscription := None |})
  /\
  (forall (env : Env) (s : Store) (slug user : string) (kb : KnowledgeBase),
      Js.single
        (List.filter (fun kb => String.eqb (kb_slug kb) slug
                                && visibility_eqb (kb_visibility kb) Public)
                     (knowledge_bases s)) = Some kb ->
      kb_lookup s (kb_id kb) = Some kb ->
      kb_mcp_enabled kb = true ->
      kb_pricing_model kb = Free ->
      kb_user_id kb <> user ->
      subscriptions_of s (kb_id kb) user = [] ->
      (forall r, In r (kb_subscriptions s) -> sub_id r <> uuid env) ->
      kb_subscriptions (fst (install_token env s slug user))
      = (kb_subscriptions s ++
         [{| sub_id := uuid env; sub_knowledge_base_id := kb_id kb;
             sub_subscriber_id := user; sub_status := Active;
             sub_current_period_end := None |}])%list)
  /\
  (forall (fresh : string) (s : Store) (knowledgeBaseId userId : string)
          (existing : Subscription),
      subscriptions_of s knowledgeBaseId userId = [existing] ->
      createFreeSubscription fresh s knowledgeBaseId userId
      = (s, Some (sub_id existing)))
  /\
  (forall (now : Z) (s : Store) (knowledgeBaseId userId : string) (kb : KnowledgeBase),
      kb_lookup s knowledgeBaseId = Some kb ->
      kb_user_id kb <> userId ->
      kb_visibility kb = Public ->
      kb_mcp_enabled kb = true ->
      kb_pricing_model kb = Paid ->
      hasAccess (hasKBAccess now s knowledgeBaseId userId) = true ->
      exists sub,
        In sub (kb_subscriptions s)
        /\ sub_knowledge_base_id sub = knowledgeBaseId
        /\ sub_subscriber_id sub = userId
        /\ (sub_status sub = Active \/ sub_status sub = Trialing)
        /\ (sub_current_period_end sub = None
            \/ exists e, sub_current_period_end sub = Some e /\ (now <= e)%Z)
        /\ subscription (hasKBAccess now s knowledgeBaseId userId)
           = Some (sub_id sub, sub_status sub)).
Proof.
  split; [exact owner_allowed |].
  split; [exact closed_denied |].
  split; [exact free_allowed |].
  split; [exact install_first_access |].
  split; [exact free_subscription_conflict | exact paid_allowed_only_if].
Qed.

End EntitlementFacts.

Lemma entitlement_decision_order_witness :
  Entitlement.hasKBAccess 5000 Sample.store0 "11111111-aaaa" "owner"
  = {| Entitlement.hasAccess := true; Entitlement.subscription := None |}
  /\ Entitlement.hasKBAccess 5000 Sample.store0 "33333333-cccc" "alice"
     = {| Entitlement.hasAccess := false; Entitlement.subscription := None |}
  /\ Entitlement.hasKBAccess 5000 Sample.store0 "11111111-aaaa" "alice"
     = {| Entitlement.hasAccess := true; Entitlement.subscription := None |}
  /\ Db.kb_subscriptions
       (fst (Entitlement.install_token Sample.env_alice Sample.store0 "docs" "alice"))
     = (Db.kb_subscriptions Sample.store0 ++
        [{| Db.sub_id := Routes.uuid Sample.env_alice;
            Db.sub_knowledge_base_id := Db.kb_id Sample.kb1;
            Db.sub_subscriber_id := "alice"; Db.sub_status := Db.Active;
            Db.sub_current_period_end := None |}])%list
  /\ Entitlement.createFreeSubscription "sub-row-2" Sample.store_alice_free
       "11111111-aaaa" "alice"
     = (Sample.store_alice_free, Some (Db.sub_id Sample.sub_alice_free))
  /\ exists sub,
       In sub (Db.kb_subscriptions Sample.store_sub)
       /\ Db.sub_knowledge_base_id sub = "22222222-bbbb"
       /\ Db.sub_subscriber_id sub = "alice"
       /\ (Db.sub_status sub = Db.Active \/ Db.sub_status sub = Db.Trialing)
       /\ (Db.sub_current_period_end sub = None
           \/ exists e, Db.sub_current_period_end sub = Some e /\ (5000 <= e)%Z)
       /\ Entitlement.subscription
            (Entitlement.hasKBAccess 5000 Sample.store_sub "22222222-bbbb" "alice")
          = Some (Db.sub_id sub, Db.sub_status sub).
Proof.
  destruct entitlement_decision_order as [A [B [C [D [E F]]]]].
  split; [apply (A 5000 Sample.store0 "11111111-aaaa" "owner" Sample.kb1); reflexivity |].
  split.
  { apply (B 5000 Sample.store0 "33333333-cccc" "alice" Sample.kb_private).
    - reflexivity.
    - discriminate.
    - left. discriminate. }
  split.
  { apply (C 5000 Sample.store0 "11111111-aaaa" "alice" Sample.kb1);
      try reflexivity. discriminate. }
  split.
  { apply (D Sample.env_alice Sample.store0 "docs" "alice" Sample.kb1);
      try reflexivity.
    - discriminate.
    - intros r []. }
  split.
  { apply (E "sub-row-2" Sample.store_alice_free "11111111-aaaa" "alice"
             Sample.sub_alice_free).
    vm_compute. reflexivity. }
  apply (F 5000 Sample.store_sub "22222222-bbbb" "alice" Sample.kb_paid);
    try reflexivity. discriminate.
Defined.

(* ===================================================================== *)
(** * The gateway                                                         *)
(* ===================================================================== *)

Example alice_is_served :
  map Worker.status
    (snd (Traffic.serve (Traffic.world_of Traffic.store_alice_paid)
            [(5000, Traffic.post "pro" (Traffic.token_of 50))])) = [200].
Proof. vm_compute. reflexivity. Qed.

Example alice_past_due_is_refused :
  map Worker.status
    (snd (Traffic.serve (Traffic.world_of Traffic.store_past_due)
            [(5000, Traffic.post "pro" (Traffic.token_of 50))])) = [401].
Proof. vm_compute. reflexivity. Qed.


Section GatewayFacts.
Import Db Worker Traffic.

Lemma validateAccessToken_lapsed now s tokenHash token kb :
  Js.single (List.filter (fun r => String.eqb (tk_access_token_hash r) tokenHash)
                         (oauth_tokens s)) = Some token ->
  kb_by_id s (tk_knowledge_base_id token) = Some kb ->
  kb_pricing_model kb = Paid ->
  tk_user_id token <> kb_user_id kb ->
  lapsed now s (tk_subscription_id token) ->
  exists msg, validateAccessToken now s tokenHash = (s, Returned (invalid msg)).
Proof.
  intros Ht Hkb Hp Hne Hl. unfold validateAccessToken. rewrite Ht.
  destruct (tk_expires_at token <? now)%Z; [eexists; reflexivity |].
  rewrite Hkb, Hp. cbn [pricing_eqb]. rewrite (string_neqb _ _ Hne).
  unfold lapsed in Hl.
  destruct (Js.or_undefined (tk_subscription_id token)) as [id |];
    [| eexists; reflexivity].
  destruct (Js.single (List.filter _ (kb_subscriptions s))) as [sub |];
    [| eexists; reflexivity].
  destruct Hl as [[Ha Htr] | [e [He Hlt]]].
  - destruct (sub_status sub); try contradiction; eexists; reflexivity.
  - destruct (negb (status_eqb (sub_status sub) Active)
              && negb (status_eqb (sub_status sub) Trialing));
      [eexists; reflexivity |].
    rewrite He. apply Z.ltb_lt in Hlt. rewrite Hlt. eexists; reflexivity.
Qed.

Lemma split_two_nonempty (h a b : string) : Js.split " " h = [a; b] -> h <> "".
Proof. intros H ->. discriminate. Qed.

Lemma validateToken_lapsed now s h slug scheme tok token kb :
  Js.split " " h = [scheme; tok] ->
  Js.single (List.filter (fun r => String.eqb (tk_access_token_hash r) (hashToken tok))
                         (oauth_tokens s)) = Some token ->
  kb_by_id s (tk_knowledge_base_id token) = Some kb ->
  kb_pricing_model kb = Paid ->
  tk_user_id token <> kb_user_id kb ->
  lapsed now s (tk_subscription_id token) ->
  exists msg, validateToken now s (Some h) slug = (s, Returned (invalid msg)).
Proof.
  intros Hsplit Ht Hkb Hp Hne Hl. unfold validateToken.
  pose proof (split_two_nonempty _ _ _ Hsplit) as Hh.
  change (Js.or_undefined (Some h)) with (Routes.nonempty (Some h)).
  rewrite (nonempty_Some _ Hh), Hsplit.
  destruct (negb (String.eqb (Js.toLowerCase scheme) "bearer")); [eexists; reflexivity |].
  destruct (negb (Js.startsWith tok "sha_kb_")); [eexists; reflexivity |].
  destruct (getKnowledgeBaseBySlug s slug); [| eexists; reflexivity].
  destruct (validateAccessToken_lapsed now s _ token kb Ht Hkb Hp Hne Hl) as [msg ->].
  eexists. reflexivity.
Qed.

Lemma mcp_slug_not_health (p slug : string) :
  mcp_slug p = Some slug -> String.eqb p "/health" = false.
Proof.
  intros H. destruct (String.eqb p "/health") eqn:E; [| reflexivity].
  apply String.eqb_eq in E. subst p. vm_compute in H. discriminate.
Qed.

(** A request whose token does not validate is answered 401, and leaves
    the world as it was. *)
Lemma fetch_unauthorized now w req slug msg :
  method req = "POST"
  \/ (method req = "GET"
      /\ Js.includes (Js.or_else (accept req) "") "text/event-stream" = true) ->
  mcp_slug (path req) = Some slug ->
  validateToken now (db w) (authorization req) slug = (db w, Returned (invalid msg)) ->
  fetch now w req = (w, respond 401 (Some (Js.or_else (Some msg) "Unauthorized"))).
Proof.
  intros Hm Hslug Hv. destruct w as [s kv0]. cbn [db] in Hv.
  unfold fetch, fetch_at. rewrite Hslug, (mcp_slug_not_health _ _ Hslug).
  destruct Hm as [Hm | [Hm Hacc]]; rewrite Hm; cbn [String.eqb Ascii.eqb Bool.eqb andb negb].
  - unfold handle_post, log_request. cbn [db kv]. rewrite Hv. cbn [valid invalid negb error db kv].
    rewrite Hv. reflexivity.
  - rewrite Hacc. cbn [db kv]. rewrite Hv. reflexivity.
Qed.

Lemma paid_resolver_denies now s knowledgeBaseId userId kb :
  Entitlement.kb_lookup s knowledgeBaseId = Some kb ->
  kb_user_id kb <> userId ->
  kb_pricing_model kb = Paid ->
  (forall sub, In sub (kb_subscriptions s) ->
               sub_knowledge_base_id sub = knowledgeBaseId ->
               sub_subscriber_id sub = userId ->
               (sub_status sub <> Active /\ sub_status sub <> Trialing)
               \/ exists e, sub_current_period_end sub = Some e /\ (e < now)%Z) ->
  Entitlement.hasAccess (Entitlement.hasKBAccess now s knowledgeBaseId userId) = false.
Proof.
  intros Hk Hne Hp Hsubs.
  destruct (kb_visibility kb) eqn:Hv.
  { rewrite (closed_denied now s _ _ kb Hk Hne); [reflexivity |].
    left. congruence. }
  destruct (kb_mcp_enabled kb) eqn:Hm.
  2: { rewrite (closed_denied now s _ _ kb Hk Hne); [reflexivity | now right]. }
  apply not_true_is_false. intros Hacc.
  destruct (paid_allowed_only_if now s _ _ kb Hk Hne Hv Hm Hp Hacc)
    as [sub [Hin [Hkb [Hu [Hst [Hend _]]]]]].
  destruct (Hsubs sub Hin Hkb Hu) as [[Ha Ht] | [e [He Hlt]]].
  - destruct Hst; contradiction.
  - destruct Hend as [Hn | [e' [He' Hle]]]; [congruence |].
    rewrite He in He'. injection He' as <-. lia.
Qed.

(** C4. For a paid repository and a caller who is not its owner, the
    gateway re-checks the subscription that the token row links to on every
    request: when that subscription is missing, or its status is neither
    active nor trialing (past due, say), or its period end is in the past,
    [validateAccessToken] answers invalid and the gateway answers 401 and
    changes nothing, whether or not the access token itself has expired.
    The resolver denies a principal none of whose subscriptions for the
    repository is live in that sense. *)
Theorem lapsed_subscription_is_refused :
  (forall (now : Z) (w : World) (req : Request) (slug h scheme tok : string)
          (token : OAuthToken) (kb : KnowledgeBase),
      method req = "POST"
      \/ (method req = "GET"
          /\ Js.includes (Js.or_else (accept req) "") "text/event-stream" = true) ->
      mcp_slug (path req) = Some slug ->
      authorization req = Some h ->
      Js.split " " h = [scheme; tok] ->
      Js.single
        (List.filter (fun r => String.eqb (tk_access_token_hash r) (hashToken tok))
                     (oauth_tokens (db w))) = Some token ->
      kb_by_id (db w) (tk_knowledge_base_id token) = Some kb ->
      kb_pricing_model kb = Paid ->
      tk_user_id token <> kb_user_id kb ->
      lapsed now (db w) (tk_subscription_id token) ->
      status (snd (fetch now w req)) = 401 /\ fst (fetch now w req) = w)
  /\
  (forall (now : Z) (s : Store) (tokenHash : string)
          (token : OAuthToken) (kb : KnowledgeBase),
      Js.single
        (List.filter (fun r => String.eqb (tk_access_token_hash r) tokenHash)
                     (oauth_tokens s)) = Some token ->
      kb_by_id s (tk_knowledge_base_id token) = Some kb ->
      kb_pricing_model kb = Paid ->
      tk_user_id token <> kb_user_id kb ->
      lapsed now s (tk_subscription_id token) ->
      exists msg, validateAccessToken now s tokenHash = (s, Returned (invalid msg)))
  /\
  (forall (now : Z) (s : Store) (knowledgeBaseId userId : string) (kb : KnowledgeBase),
      Entitlement.kb_lookup s knowledgeBaseId = Some kb ->
      kb_user_id kb <> userId ->
      kb_pricing_model kb = Paid ->
      (forall sub, In sub (kb_subscriptions s) ->
                   sub_knowledge_base_id sub = knowledgeBaseId ->
                   sub_subscriber_id sub = userId ->
                   (sub_status sub <> Active /\ sub_status sub <> Trialing)
                   \/ exists e, sub_current_period_end sub = Some e /\ (e < now)%Z) ->
      Entitlement.hasAccess (Entitlement.hasKBAccess now s knowledgeBaseId userId)
      = false).
Proof.
  split; [| split; [exact validateAccessToken_lapsed | exact paid_resolver_denies]].
  intros now w req slug h scheme tok token kb Hm Hslug Hauth Hsplit Ht Hkb Hp Hne Hl.
  destruct (validateToken_lapsed now (db w) h slug scheme tok token kb
              Hsplit Ht Hkb Hp Hne Hl) as [msg Hv].
  rewrite <- Hauth in Hv.
  rewrite (fetch_unauthorized now w req slug msg Hm Hslug Hv). split; reflexivity.
Qed.

Lemma validateToken_unknown_slug now s auth slug :
  getKnowledgeBaseBySlug s slug = None ->
  exists msg, validateToken now s auth slug = (s, Returned (invalid msg)).
Proof.
  intros Hk. unfold validateToken. rewrite Hk.
  repeat case_match; eexists; reflexivity.
Qed.

Lemma checkRateLimit_limit now kv0 kbId c :
  Js.truthy c = true ->
  limit (snd (checkRateLimit now kv0 kbId (Some c))) = CLIENT_LIMIT.
Proof.
  intros Hc. unfold checkRateLimit. cbn [Js.truthy_opt]. rewrite Hc.
  repeat case_match; reflexivity.
Qed.

Lemma createAuthContext_client r ctx :
  createAuthContext r = Some ctx -> Js.truthy (ctx_clientId ctx) = true.
Proof.
  unfold createAuthContext. repeat case_match; intros [= <-]; cbn.
  match goal with H : Js.or_undefined (clientId r) = Some _ |- _ =>
    unfold Js.or_undefined in H; destruct (clientId r) as [c |]; [| discriminate];
    destruct (Js.truthy c) eqn:E; [now injection H as <- | discriminate] end.
Qed.

(** What [handle_post] can answer. *)
Lemma handle_post_answers now w req slug w1 r m st :
  handle_post now w req slug = (w1, r, m, st) ->
  In (status r) [500; 401; 429; 400; 200]
  /\ forall info, rate_limit r = Some info -> limit info = CLIENT_LIMIT.
Proof.
  unfold handle_post.
  destruct (validateToken now (db w) (authorization req) slug) as [s1 [tr |]].
  2: { intros [= <- <- <- <-]. cbn. split; [auto | discriminate]. }
  destruct (negb (valid tr)).
  { intros [= <- <- <- <-]. cbn. split; [auto | discriminate]. }
  destruct (createAuthContext tr) as [ctx |] eqn:Hctx.
  2: { intros [= <- <- <- <-]. cbn. split; [auto | discriminate]. }
  pose proof (checkRateLimit_limit now (kv {| db := s1; kv := kv w |})
                (kb_id (ctx_kb ctx)) _ (createAuthContext_client _ _ Hctx)) as Hlim.
  destruct (checkRateLimit _ _ _ _) as [kv1 info0]. cbn [snd] in Hlim.
  repeat case_match; intros [= <- <- <- <-]; cbn;
    (split; [auto 10 | intros info [= <-] || discriminate; assumption]).
Qed.

(** The gateway answers 404 exactly when the path is not [/mcp/{slug}]. *)
Lemma fetch_404 now w req :
  method req <> "OPTIONS" ->
  ~ (path req = "/health" /\ method req = "GET") ->
  status (snd (fetch now w req)) = 404 <-> mcp_slug (path req) = None.
Proof.
  intros Hopt Hhealth. unfold fetch, fetch_at.
  rewrite (string_neqb _ _ Hopt).
  assert (Hh : String.eqb (path req) "/health" && String.eqb (method req) "GET" = false).
  { apply not_true_is_false. intros H. apply andb_true_iff in H as [H1 H2].
    apply String.eqb_eq in H1, H2. auto. }
  rewrite Hh.
  destruct (mcp_slug (path req)) as [slug |]; [| cbn; split; reflexivity].
  split; [| discriminate]. intros H. exfalso. revert H.
  destruct (handle_post now w req slug) as [[[w1 r] m] st] eqn:Hp.
  apply handle_post_answers in Hp as [Hin _].
  repeat case_match; cbn; try discriminate.
  intros E. rewrite E in Hin. cbn in Hin. intuition discriminate.
Qed.

Lemma route_unknown_slug tool_throws s slug b :
  McpRoute.getKnowledgeBase s slug = None ->
  McpRoute.POST tool_throws s slug b = 404 /\ McpRoute.GET s slug = 404.
Proof. unfold McpRoute.POST, McpRoute.GET. now intros ->. Qed.

(** The worker gateway answers a request whose slug resolves to no
    gateway-enabled repository with 401, as it answers every failed token
    validation, and leaves the world as it was. *)
Lemma unknown_slug_refused_as_unauthorized
    (now : Z) (w : World) (req : Request) (slug : string) :
  method req = "POST"
  \/ (method req = "GET"
      /\ Js.includes (Js.or_else (accept req) "") "text/event-stream" = true) ->
  mcp_slug (path req) = Some slug ->
  getKnowledgeBaseBySlug (db w) slug = None ->
  status (snd (fetch now w req)) = 401 /\ fst (fetch now w req) = w.
Proof.
  intros Hm Hslug Hk.
  destruct (validateToken_unknown_slug now (db w) (authorization req) slug Hk)
    as [msg Hv].
  rewrite (fetch_unauthorized now w req slug msg Hm Hslug Hv). split; reflexivity.
Qed.

(** X26. Every rate-limit record that the gateway attaches to a response
    carries the per-client ceiling: the per-repository one is never
    consulted. *)
Lemma gateway_counts_per_client now w req info :
  rate_limit (snd (fetch now w req)) = Some info -> limit info = CLIENT_LIMIT.
Proof.
  unfold fetch, fetch_at.
  destruct (mcp_slug (path req)) as [slug |].
  2: { repeat case_match; cbn; discriminate. }
  destruct (handle_post now w req slug) as [[[w1 r] m] st] eqn:Hp.
  apply handle_post_answers in Hp as [_ Hl].
  repeat case_match; cbn; try discriminate. apply Hl.
Qed.

End GatewayFacts.

(* ===================================================================== *)
(** * The rate limiter                                                    *)
(* ===================================================================== *)

Section RateLimitFacts.
Import Db Worker Traffic.

Lemma window_bounds (t W : Z) :
  windowStart t = W -> (W * 1000 <= t < (W + 60) * 1000)%Z.
Proof.
  unfold windowStart, WINDOW_SIZE. intros <-.
  pose proof (Z.div_mod t 1000 ltac:(lia)).
  pose proof (Z.mod_pos_bound t 1000 ltac:(lia)).
  pose proof (Z.div_mod (t / 1000) 60 ltac:(lia)).
  pose proof (Z.mod_pos_bound (t / 1000) 60 ltac:(lia)).
  lia.
Qed.

Lemma key_of_window t1 t2 kbId clientId :
  windowStart t1 = windowStart t2 ->
  getRateLimitKey t1 kbId clientId = getRateLimitKey t2 kbId clientId.
Proof. unfold getRateLimitKey. now intros ->. Qed.

Lemma key_window_inj t1 t2 kbId clientId :
  getRateLimitKey t1 kbId clientId = getRateLimitKey t2 kbId clientId ->
  windowStart t1 = windowStart t2.
Proof.
  unfold getRateLimitKey. destruct (Js.or_undefined clientId); intros H;
    repeat apply (inj (String.append _)) in H; now apply (inj pretty) in H.
Qed.

(** The limiter fails open: with the counting store out of reach every
    call is allowed and nothing is written. *)
Lemma checkRateLimit_fail_open now kv0 kbId clientId :
  reachable kv0 = false ->
  fst (checkRateLimit now kv0 kbId clientId) = kv0
  /\ allowed (snd (checkRateLimit now kv0 kbId clientId)) = true.
Proof.
  intros Hr. unfold checkRateLimit, kv_get. rewrite Hr. split; reflexivity.
Qed.

Lemma ceiling_pos clientId : (0 < ceiling clientId)%Z.
Proof. unfold ceiling. destruct (Js.truthy_opt clientId); reflexivity. Qed.

(** One call inside the window: rejected at the ceiling, and below it
    allowed, with the counter one higher and no other key touched. *)
Lemma checkRateLimit_step (W : Z) (kv0 : Kv) (kbId : string) (clientId : option string)
    (t c : Z) :
  windowStart t = W ->
  counts W kv0 (getRateLimitKey t kbId clientId) c ->
  exists kv1,
    checkRateLimit t kv0 kbId clientId
    = (kv1, {| allowed := (c <? ceiling clientId)%Z;
               remaining := if (c <? ceiling clientId)%Z
                            then (ceiling clientId - c - 1)%Z else 0%Z;
               resetAt := (W + 60)%Z;
               limit := ceiling clientId |})
    /\ counts W kv1 (getRateLimitKey t kbId clientId)
              (if (c <? ceiling clientId)%Z then (c + 1)%Z else c)
    /\ reachable kv1 = true
    /\ forall k, k <> getRateLimitKey t kbId clientId -> entries kv1 !! k = entries kv0 !! k.
Proof.
  intros HW [Hr Hc]. pose proof (window_bounds t W HW) as Hb.
  pose proof (ceiling_pos clientId) as Hpos.
  unfold checkRateLimit, kv_get, kv_put. fold (ceiling clientId).
  rewrite Hr, HW. unfold WINDOW_SIZE.
  destruct Hc as [[Hnone ->] | [expires [Hsome Hexp]]].
  - rewrite Hnone.
    replace (ceiling clientId <=? 0)%Z with false by (symmetry; apply Z.leb_gt; lia).
    replace (0 <? ceiling clientId)%Z with true by (symmetry; apply Z.ltb_lt; lia).
    eexists. split; [reflexivity |]. unfold counts. cbn [Worker.entries Worker.reachable].
    split; [| split; [reflexivity |]].
    + split; [reflexivity |]. right. eexists. rewrite lookup_insert_eq.
      split; [reflexivity | lia].
    + intros k Hk. now rewrite lookup_insert_ne.
  - rewrite Hsome.
    replace (t <? expires)%Z with true by (symmetry; apply Z.ltb_lt; lia).
    destruct (ceiling clientId <=? c)%Z eqn:E.
    + apply Z.leb_le in E.
      replace (c <? ceiling clientId)%Z with false by (symmetry; apply Z.ltb_ge; lia).
      eexists. split; [reflexivity |].
      split; [| split; [assumption | reflexivity]].
      split; [assumption |]. right. exists expires. split; assumption.
    + apply Z.leb_gt in E.
      replace (c <? ceiling clientId)%Z with true by (symmetry; apply Z.ltb_lt; lia).
      eexists. split; [reflexivity |]. unfold counts. cbn [Worker.entries Worker.reachable].
      split; [| split; [reflexivity |]].
      * split; [reflexivity |]. right. eexists. rewrite lookup_insert_eq.
        split; [reflexivity | lia].
      * intros k Hk. now rewrite lookup_insert_ne.
Qed.

Lemma limiter_in_window (W : Z) (kbId : string) (clientId : option string)
    (key : string) (times : list Z) :
  (forall t, In t times ->
             windowStart t = W /\ getRateLimitKey t kbId clientId = key) ->
  forall (kv0 : Kv) (c : Z),
    counts W kv0 key c ->
    snd (limiter kv0 times kbId clientId)
    = map (fun i : nat => (c + Z.of_nat i <? ceiling clientId)%Z) (seq 0 (length times))
    /\ reachable (fst (limiter kv0 times kbId clientId)) = true
    /\ forall k, k <> key ->
                 entries (fst (limiter kv0 times kbId clientId)) !! k = entries kv0 !! k.
Proof.
  induction times as [| t times IH]; intros Hall kv0 c Hc.
  { cbn. split; [reflexivity |]. split; [apply Hc | reflexivity]. }
  destruct (Hall t (or_introl eq_refl)) as [HW Hkey].
  rewrite <- Hkey in Hc.
  destruct (checkRateLimit_step W kv0 kbId clientId t c HW Hc)
    as [kv1 [Hstep [Hc1 [Hr1 Hother]]]].
  rewrite Hkey in Hc1, Hother.
  assert (Hall' : forall t', In t' times ->
            windowStart t' = W /\ getRateLimitKey t' kbId clientId = key)
    by (intros t' Hin; apply Hall; now right).
  destruct (IH Hall' kv1 _ Hc1) as [Hans [Hr2 Hother2]].
  cbn [limiter]. rewrite Hstep.
  destruct (limiter kv1 times kbId clientId) as [kv2 answers].
  cbn [fst snd allowed] in *. split; [| split].
  - cbn [length seq map]. f_equal; [f_equal; lia |].
    rewrite Hans, <- seq_shift, map_map. apply map_ext. intros i.
    destruct (c <? ceiling clientId)%Z eqn:E.
    + f_equal. lia.
    + apply Z.ltb_ge in E.
      transitivity false; [apply Z.ltb_ge | symmetry; apply Z.ltb_ge]; lia.
  - exact Hr2.
  - intros k Hk. rewrite (Hother2 k Hk). now apply Hother.
Qed.

Lemma limiter_app kv0 l1 l2 kbId clientId :
  limiter kv0 (l1 ++ l2) kbId clientId
  = (fst (limiter (fst (limiter kv0 l1 kbId clientId)) l2 kbId clientId),
     (snd (limiter kv0 l1 kbId clientId)
      ++ snd (limiter (fst (limiter kv0 l1 kbId clientId)) l2 kbId clientId))%list).
Proof.
  revert kv0. induction l1 as [| t l1 IH]; intros kv0.
  - cbn. now destruct (limiter kv0 l2 kbId clientId).
  - cbn [limiter app]. destruct (checkRateLimit t kv0 kbId clientId) as [kv1 info].
    rewrite IH. destruct (limiter kv1 l1 kbId clientId) as [kv2 a1]. reflexivity.
Qed.

(** X25. The fixed window of the limiter.  From a store that is reachable and
    holds no counter for the two windows, calls for one repository (and one
    client, or none) at any instants of one window are allowed up to the
    ceiling and rejected from then on, and a call in another window is
    allowed again.  The ceiling is 60 without a client and 30 with one. *)
Theorem fixed_window_ceiling (kv0 : Kv) (kbId : string) (clientId : option string)
    (times : list Z) (t0 later : Z) :
  reachable kv0 = true ->
  entries kv0 !! getRateLimitKey t0 kbId clientId = None ->
  entries kv0 !! getRateLimitKey later kbId clientId = None ->
  (forall t, In t times -> windowStart t = windowStart t0) ->
  windowStart later <> windowStart t0 ->
  snd (limiter kv0 (times ++ [later]) kbId clientId)
  = (map (fun i : nat => (Z.of_nat i <? ceiling clientId)%Z) (seq 0 (length times))
     ++ [true])%list
  /\ ceiling None = 60 /\ forall c, c <> "" -> ceiling (Some c) = 30.
Proof.
  intros Hr H0 Hl Hall Hne.
  assert (Hkeys : forall t, In t times ->
            windowStart t = windowStart t0
            /\ getRateLimitKey t kbId clientId = getRateLimitKey t0 kbId clientId).
  { intros t Hin. split; [now apply Hall | apply key_of_window; now apply Hall]. }
  destruct (limiter_in_window (windowStart t0) kbId clientId _ times Hkeys kv0 0)
    as [Hans [Hr1 Hother]].
  { split; [assumption | now left]. }
  split; [| split].
  - rewrite limiter_app, Hans. cbn [snd]. f_equal.
    assert (Hk : getRateLimitKey later kbId clientId <> getRateLimitKey t0 kbId clientId).
    { intros E. apply key_window_inj in E. contradiction. }
    destruct (checkRateLimit_step (windowStart later)
                (fst (limiter kv0 times kbId clientId)) kbId clientId later 0 eq_refl)
      as [kv1 [Hstep _]].
    { split; [assumption |]. left. split; [| reflexivity]. now rewrite Hother. }
    cbn [limiter]. rewrite Hstep. cbn.
    pose proof (ceiling_pos clientId).
    replace (0 <? ceiling clientId)%Z with true by (symmetry; apply Z.ltb_lt; lia).
    reflexivity.
  - reflexivity.
  - intros c Hc. unfold ceiling. cbn. unfold Js.truthy.
    now rewrite (string_neqb _ _ Hc).
Qed.

End RateLimitFacts.

Example window_of_three_calls :
  snd (Traffic.limiter {| Worker.entries := ∅; Worker.reachable := true |}
         ([120000; 120500; 179999] ++ [180000]) "11111111-aaaa" None)
  = [true; true; true; true]
  /\ Traffic.ceiling None = 60.
Proof.
  destruct (fixed_window_ceiling {| Worker.entries := ∅; Worker.reachable := true |}
              "11111111-aaaa" None [120000; 120500; 179999] 120000 180000)
    as [H [Hc _]].
  - reflexivity.
  - apply lookup_empty.
  - apply lookup_empty.
  - intros t [<- | [<- | [<- | []]]]; reflexivity.
  - discriminate.
  - split; [exact H | exact Hc].
Defined.

Section GatewayLimit.
Import Db Worker Traffic.

(** Once the token has validated, the gateway answers 429 exactly when
    [checkRateLimit], called with the client of the token, rejects. *)
Lemma handle_post_rate_limited now w req slug s1 tr ctx :
  validateToken now (db w) (authorization req) slug = (s1, Returned tr) ->
  valid tr = true ->
  createAuthContext tr = Some ctx ->
  forall w1 r m st,
    handle_post now w req slug = (w1, r, m, st) ->
    kv w1 = fst (checkRateLimit now (kv w) (kb_id (ctx_kb ctx)) (Some (ctx_clientId ctx)))
    /\ (status r = 429
        <-> allowed (snd (checkRateLimit now (kv w) (kb_id (ctx_kb ctx))
                            (Some (ctx_clientId ctx)))) = false).
Proof.
  intros Hv Hvalid Hctx w1 r m st. unfold handle_post.
  rewrite Hv, Hvalid, Hctx. cbn [negb kv].
  destruct (checkRateLimit now (kv w) (kb_id (ctx_kb ctx)) (Some (ctx_clientId ctx)))
    as [kv1 info].
  cbn [fst snd]. destruct (allowed info); cbn [negb].
  - repeat case_match; intros [= <- <- <- <-]; cbn; (split; [reflexivity |]);
      split; discriminate.
  - intros [= <- <- <- <-]. cbn. split; [reflexivity |]. split; reflexivity.
Qed.

End GatewayLimit.

(** C5, at the failing input.  Sixty-one requests reach the same
    repository inside one sixty-second window, from three clients; every
    one of them is answered 200, the sixty-first included.  The gateway
    calls [checkRateLimit] with the client of the token, and so counts per
    client only: the thirty-first request of one client in the window is
    answered 429, and its request one window later is answered 200.  The
    per-repository ceiling of sixty is what [checkRateLimit] applies when
    it is called without a client, which the gateway never does. *)
Theorem sixty_first_request_is_served :
  Forall (fun p => Worker.windowStart (fst p) = 120
                   /\ Worker.path (snd p) = "/mcp/docs") Traffic.sixty_one
  /\ map Worker.status (snd (Traffic.serve Traffic.world_three Traffic.sixty_one))
     = repeat 200 61
  /\ map Worker.status
       (snd (Traffic.serve Traffic.world_three
               (Traffic.burst 31 120000 (Traffic.token_of 50)
                ++ [(180000, Traffic.post "docs" (Traffic.token_of 50))])))
     = (repeat 200 30 ++ [429; 200])%list
  /\ snd (Traffic.limiter (Worker.kv Traffic.world_three)
            (map (fun i : nat => (120000 + Z.of_nat i)%Z) (seq 0 61) ++ [180000])
            "11111111-aaaa" None)
     = (repeat true 60 ++ [false; true])%list.
Proof.
  split; [| split; [| split]].
  - vm_compute. repeat constructor.
  - vm_compute. reflexivity.
  - vm_compute. reflexivity.
  - vm_compute. reflexivity.
Qed.

(** C8, at the failing input.  The slug [nope] resolves to no repository.
    The worker gateway answers a POST that carries a well-formed bearer
    token for it, and a streaming GET, with 401 and the message of the
    failed token validation; it answers the other methods without looking
    the slug up, and 404 only for a path that is not of the form
    [/mcp/{slug}].  The in-app protocol route answers 404 for the same
    slug on the same store. *)
Theorem unknown_slug_is_answered_401 :
  Worker.getKnowledgeBaseBySlug (Worker.db Traffic.world_three) "nope" = None
  /\ McpRoute.getKnowledgeBase (Worker.db Traffic.world_three) "nope" = None
  /\ Worker.fetch 125000 Traffic.world_three (Traffic.post "nope" (Traffic.token_of 50))
     = (Traffic.world_three,
        Worker.respond 401 (Some "Knowledge base not found or MCP not enabled"))
  /\ Worker.status
       (snd (Worker.fetch 125000 Traffic.world_three
               (Demo.request_as "GET" "/mcp/nope" (Some "text/event-stream")
                  (Traffic.token_of 50)))) = 401
  /\ map (fun m => Worker.status
                     (snd (Worker.fetch 125000 Traffic.world_three
                             (Demo.request_as m "/mcp/nope" None (Traffic.token_of 50)))))
         ["GET"; "DELETE"; "PUT"; "OPTIONS"]
     = [200; 204; 405; 200]
  /\ Worker.status
       (snd (Worker.fetch 125000 Traffic.world_three
               (Demo.request_as "POST" "/mcp/Nope" None (Traffic.token_of 50)))) = 404
  /\ McpRoute.POST false (Worker.db Traffic.world_three) "nope" Traffic.ping = 404
  /\ McpRoute.GET (Worker.db Traffic.world_three) "nope" = 404.
Proof.
  repeat split; vm_compute; reflexivity.
Qed.

Lemma lapsed_subscription_is_refused_witness :
  (Worker.status
     (snd (Worker.fetch 5000 (Traffic.world_of Traffic.store_past_due)
             (Traffic.post "pro" (Traffic.token_of 50)))) = 401
   /\ fst (Worker.fetch 5000 (Traffic.world_of Traffic.store_past_due)
             (Traffic.post "pro" (Traffic.token_of 50)))
      = Traffic.world_of Traffic.store_past_due)
  /\ (exists msg,
        Worker.validateAccessToken 5000 Traffic.store_past_due
          (Worker.hashToken (Traffic.token_of 50))
        = (Traffic.store_past_due, Worker.Returned (Worker.invalid msg)))
  /\ Entitlement.hasAccess
       (Entitlement.hasKBAccess 5000 Traffic.store_past_due "22222222-bbbb" "alice")
     = false.
Proof.
  destruct lapsed_subscription_is_refused as [G [V R]].
  assert (L : Traffic.lapsed 5000 Traffic.store_past_due (Some "sub-1")).
  { vm_compute. left. split; discriminate. }
  split; [| split].
  - apply (G 5000 (Traffic.world_of Traffic.store_past_due)
             (Traffic.post "pro" (Traffic.token_of 50)) "pro"
             ("Bearer " +:+ Traffic.token_of 50) "Bearer" (Traffic.token_of 50)
             Traffic.alice_paid_token Sample.kb_paid).
    + left. reflexivity.
    + reflexivity.
    + reflexivity.
    + vm_compute; reflexivity.
    + vm_compute; reflexivity.
    + reflexivity.
    + reflexivity.
    + discriminate.
    + exact L.
  - apply (V 5000 Traffic.store_past_due (Worker.hashToken (Traffic.token_of 50))
             Traffic.alice_paid_token Sample.kb_paid).
    + vm_compute; reflexivity.
    + reflexivity.
    + reflexivity.
    + discriminate.
    + exact L.
  - apply (R 5000 Traffic.store_past_due "22222222-bbbb" "alice" Sample.kb_paid).
    + reflexivity.
    + discriminate.
    + reflexivity.
    + intros sub Hin _ _. vm_compute in Hin. destruct Hin as [<- | []].
      left. split; discriminate.
Defined.

(* ===================================================================== *)
(** * String methods                                                      *)
(* ===================================================================== *)

Section StringFacts.

Lemma append_cons (c : Ascii.ascii) (p r : string) :
  String c p +:+ r = String c (p +:+ r).
Proof. reflexivity. Qed.

Lemma append_nil (r : string) : "" +:+ r = r.
Proof. reflexivity. Qed.

Lemma substring_whole (s : string) : String.substring 0 (String.length s) s = s.
Proof. induction s as [| c s IH]; [reflexivity |]. cbn. now rewrite IH. Qed.

Lemma slice_append (p r : string) : Js.slice (String.length p) (p +:+ r) = r.
Proof.
  unfold Js.slice. induction p as [| c p IH].
  - rewrite append_nil. cbn [String.length]. rewrite Nat.sub_0_r. apply substring_whole.
  - rewrite append_cons. cbn [String.length String.substring Nat.sub]. exact IH.
Qed.

Lemma startsWith_append (s pre : string) :
  Js.startsWith s pre = true <-> exists r, s = pre +:+ r.
Proof.
  unfold Js.startsWith. revert s. induction pre as [| c pre IH]; intros s.
  - split; [intros _; now exists s | intros _; now destruct s].
  - destruct s as [| d s]; cbn [String.prefix].
    + split; [discriminate | intros [r Hr]; discriminate].
    + destruct (Ascii.ascii_dec c d) as [-> | Hne].
      * rewrite IH. split; intros [r Hr]; exists r.
        -- rewrite append_cons. now rewrite Hr.
        -- rewrite append_cons in Hr. now injection Hr.
      * split; [discriminate | intros [r Hr]]. rewrite append_cons in Hr. injection Hr as Hd _. congruence.
Qed.

Lemma length_append (p r : string) :
  String.length (p +:+ r) = (String.length p + String.length r)%nat.
Proof.
  induction p as [| c p IH]; [reflexivity |].
  rewrite append_cons. cbn [String.length Nat.add]. f_equal. exact IH.
Qed.

Lemma substring_append_skip (p r : string) (m : nat) :
  String.substring (String.length p) m (p +:+ r) = String.substring 0 m r.
Proof.
  induction p as [| c p IH]; [reflexivity |].
  rewrite append_cons. cbn [String.length String.substring]. exact IH.
Qed.

Lemma substring_split (s : string) (k : nat) :
  (k <= String.length s)%nat ->
  s = String.substring 0 k s +:+ String.substring k (String.length s - k) s.
Proof.
  revert k. induction s as [| c s IH]; intros k Hk.
  - cbn in Hk. assert (k = 0%nat) as -> by lia. reflexivity.
  - destruct k as [| k].
    + cbn [String.substring String.length Nat.sub]. rewrite append_nil.
      now rewrite substring_whole.
    + cbn [String.substring String.length Nat.sub]. rewrite append_cons.
      f_equal. apply IH. cbn in Hk. lia.
Qed.

Lemma endsWith_append (s suf : string) :
  Js.endsWith s suf = true <-> exists p, s = p +:+ suf.
Proof.
  unfold Js.endsWith. split.
  - destruct (String.length suf <=? String.length s)%nat eqn:E; [| discriminate].
    apply Nat.leb_le in E. intros H. apply String.eqb_eq in H.
    exists (String.substring 0 (String.length s - String.length suf) s).
    pose proof (substring_split s (String.length s - String.length suf) ltac:(lia)) as Hs.
    replace (String.length s - (String.length s - String.length suf))%nat
      with (String.length suf) in Hs by lia.
    rewrite H in Hs. exact Hs.
  - intros [p ->]. rewrite length_append.
    replace (String.length suf <=? String.length p + String.length suf)%nat with true
      by (symmetry; apply Nat.leb_le; lia).
    replace (String.length p + String.length suf - String.length suf)%nat
      with (String.length p) by lia.
    rewrite substring_append_skip, substring_whole. apply String.eqb_refl.
Qed.

Lemma split_nonnil (sep : Ascii.ascii) (s : string) : Js.split sep s <> [].
Proof.
  destruct s as [| c s]; cbn; [discriminate |].
  destruct (Ascii.eqb c sep); [discriminate |].
  destruct (Js.split sep s); discriminate.
Qed.

Lemma split_free (sep : Ascii.ascii) (s : string) :
  Shape.free_of sep s -> Js.split sep s = [s].
Proof.
  unfold Shape.free_of. induction s as [| c s IH]; [reflexivity |].
  cbn. intros H. apply andb_true_iff in H as [Hc Hs].
  apply negb_true_iff in Hc. rewrite Hc, (IH Hs). reflexivity.
Qed.

Lemma split_append (sep : Ascii.ascii) (a r : string) :
  Shape.free_of sep a ->
  Js.split sep (a +:+ String sep r) = a :: Js.split sep r.
Proof.
  unfold Shape.free_of. induction a as [| c a IH].
  - intros _. rewrite append_nil. cbn. now rewrite Ascii.eqb_refl.
  - rewrite append_cons. cbn. intros H. apply andb_true_iff in H as [Hc Hs].
    apply negb_true_iff in Hc. rewrite Hc, (IH Hs). reflexivity.
Qed.

Lemma split_head (sep : Ascii.ascii) (s a : string) (rest : list string) :
  Js.split sep s = a :: rest ->
  Shape.free_of sep a
  /\ ((rest = [] /\ s = a)
      \/ exists r, s = a +:+ String sep r /\ Js.split sep r = rest).
Proof.
  unfold Shape.free_of. revert a rest. induction s as [| c s IH]; intros a rest.
  - cbn. intros [= <- <-]. split; [reflexivity | now left].
  - cbn [Js.split]. destruct (Ascii.eqb c sep) eqn:E.
    + apply Ascii.eqb_eq in E. subst c. intros [= <- <-].
      split; [reflexivity |]. right. exists s. split; reflexivity.
    + destruct (Js.split sep s) as [| h t] eqn:Hs; [now apply split_nonnil in Hs |].
      intros [= <- <-]. destruct (IH h t eq_refl) as [Hfree Hshape].
      split; [cbn; now rewrite E |].
      destruct Hshape as [[-> ->] | [r [-> Hr]]]; [now left |].
      right. exists r. split; [reflexivity | assumption].
Qed.

(** A header splits on its spaces into exactly two pieces when it is a
    piece, one space and a piece. *)
Lemma split_two (h a b : string) :
  Js.split " " h = [a; b]
  <-> h = a +:+ " " +:+ b /\ Shape.free_of " " a /\ Shape.free_of " " b.
Proof.
  split.
  - intros H. apply split_head in H as [Ha [[Hn _] | [r [-> Hr]]]]; [discriminate |].
    apply split_head in Hr as [Hb [[_ ->] | [r' [_ Hr']]]].
    + repeat split; assumption.
    + now apply split_nonnil in Hr'.
  - intros [-> [Ha Hb]]. change (" " +:+ b) with (String " " b).
    rewrite (split_append _ _ _ Ha), (split_free _ _ Hb). reflexivity.
Qed.

Lemma bearer_header_split (auth : option string) (tok : string) :
  Shape.bearer_header auth tok <->
  exists h scheme, auth = Some h /\ Js.split " " h = [scheme; tok]
                   /\ Js.toLowerCase scheme = "bearer"
                   /\ Js.startsWith tok "sha_kb_" = true.
Proof.
  unfold Shape.bearer_header. split.
  - intros [scheme [-> [Ha [Hb [Hl Hp]]]]]. exists (scheme +:+ " " +:+ tok), scheme.
    repeat split; try assumption. now apply split_two.
  - intros [h [scheme [-> [Hs [Hl Hp]]]]]. apply split_two in Hs as [-> [Ha Hb]].
    exists scheme. repeat split; assumption.
Qed.

End StringFacts.

(* ===================================================================== *)
(** * Redirect addresses                                                  *)
(* ===================================================================== *)

Section RedirectFacts.
Import Db OAuth Routes.
Variable url_hostname : string -> option string.

(** X1. [isValidRedirectUri] accepts an address exactly when it parses
    and either its host is [localhost] or [127.0.0.1], or it is literally
    one of the allowed entries, or some allowed entry [*.d] has a [d] that
    the host ends with.  The wildcard is a plain suffix test: the host need
    not be a subdomain of [d]. *)
Theorem redirect_uri_matching (uri : string) (allowedUris : list string) :
  isValidRedirectUri url_hostname uri allowedUris = true
  <-> exists h, url_hostname uri = Some h
      /\ (h = "localhost" \/ h = "127.0.0.1" \/ In uri allowedUris
          \/ exists d p, In ("*." +:+ d) allowedUris /\ h = p +:+ d).
Proof.
  unfold isValidRedirectUri. destruct (url_hostname uri) as [h |].
  2: { split; [discriminate | intros [h [H _]]; discriminate]. }
  split.
  - intros H. exists h. split; [reflexivity |].
    destruct (String.eqb h "localhost") eqn:E1; [apply String.eqb_eq in E1; auto |].
    destruct (String.eqb h "127.0.0.1") eqn:E2; [apply String.eqb_eq in E2; auto |].
    cbn [orb] in H. apply existsb_exists in H as [a [Hin Ha]].
    destruct (String.eqb uri a) eqn:E3.
    { apply String.eqb_eq in E3. subst a. auto. }
    destruct (Js.startsWith a "*.") eqn:E4; [| discriminate].
    apply startsWith_append in E4 as [d ->].
    change 2%nat with (String.length "*.") in Ha. rewrite slice_append in Ha.
    apply endsWith_append in Ha as [p ->].
    right. right. right. exists d, p. split; [assumption | reflexivity].
  - intros [h' [[= <-] Hc]].
    destruct Hc as [-> | [-> | [Hin | [d [p [Hin ->]]]]]]; try reflexivity.
    + destruct (String.eqb h "localhost" || String.eqb h "127.0.0.1"); [reflexivity |].
      apply existsb_exists. exists uri. split; [assumption |].
      now rewrite String.eqb_refl.
    + destruct (String.eqb (p +:+ d) "localhost" || String.eqb (p +:+ d) "127.0.0.1");
        [reflexivity |].
      apply existsb_exists. exists ("*." +:+ d). split; [assumption |].
      destruct (String.eqb uri ("*." +:+ d)); [reflexivity |].
      replace (Js.startsWith ("*." +:+ d) "*.") with true
        by (symmetry; apply startsWith_append; now exists d).
      change 2%nat with (String.length "*."). rewrite slice_append.
      apply endsWith_append. now exists p.
Qed.

End RedirectFacts.

Lemma redirect_uri_matching_witness :
  OAuth.isValidRedirectUri Sample.hostname "https://evil-x.test/cb" ["*.x.test"] = true.
Proof.
  apply (redirect_uri_matching Sample.hostname "https://evil-x.test/cb" ["*.x.test"]).
  exists "evil-x.test". split; [reflexivity |].
  right. right. right. exists "x.test", "evil-". split; [now left | reflexivity].
Defined.

(* ===================================================================== *)
(** * The gateway's reading of a request                                  *)
(* ===================================================================== *)

Section GatewayParsing.
Import Db Worker.

(** X2. The path pattern of the gateway: [mcp_slug] answers a slug exactly
    for the paths [/mcp/] followed by that slug, the slug being non-empty
    and made of lower-case letters, digits and hyphens. *)
Theorem mcp_slug_shape (p slug : string) :
  mcp_slug p = Some slug
  <-> p = "/mcp/" +:+ slug /\ slug <> "" /\ all_chars slug_char slug = true.
Proof.
  unfold mcp_slug. split.
  - destruct (Js.startsWith p "/mcp/") eqn:E; [| discriminate].
    apply startsWith_append in E as [r ->].
    change 5%nat with (String.length "/mcp/"). rewrite slice_append.
    unfold Js.truthy. destruct (String.eqb r "") eqn:Er; [discriminate |].
    destruct (all_chars slug_char r) eqn:Ea; [| discriminate].
    intros [= <-]. apply String.eqb_neq in Er. repeat split; assumption.
  - intros [-> [Hne Ha]].
    replace (Js.startsWith ("/mcp/" +:+ slug) "/mcp/") with true
      by (symmetry; apply startsWith_append; now exists slug).
    change 5%nat with (String.length "/mcp/"). rewrite slice_append.
    unfold Js.truthy. apply String.eqb_neq in Hne. now rewrite Hne, Ha.
Qed.

Lemma or_undefined_Some (h : string) : h <> "" -> Js.or_undefined (Some h) = Some h.
Proof.
  intros H. cbn. unfold Js.truthy. apply String.eqb_neq in H. now rewrite H.
Qed.

(** What [validateToken] does with a header that carries [tok]. *)
Lemma validateToken_bearer now s auth slug tok :
  Shape.bearer_header auth tok ->
  validateToken now s auth slug
  = match getKnowledgeBaseBySlug s slug with
    | None => (s, Returned (invalid "Knowledge base not found or MCP not enabled"))
    | Some kb_ =>
      match validateAccessToken now s (hashToken tok) with
      | (s', Raised) => (s', Raised)
      | (s', Returned tokenResult) =>
        if negb (valid tokenResult) then (s', Returned tokenResult)
        else if negb (match kb tokenResult with
                      | Some k => String.eqb (kb_id k) (kb_id kb_)
                      | None => false
                      end)
        then (s', Returned (invalid "Token not valid for this knowledge base"))
        else (s', Returned {| valid := true; kb := kb tokenResult;
                              userId := userId tokenResult;
                              clientId := clientId tokenResult;
                              scopes := scopes tokenResult;
                              subscriptionId := None;
                              error := None |})
      end
    end.
Proof.
  intros H. apply bearer_header_split in H as [h [scheme [-> [Hs [Hl Hp]]]]].
  unfold validateToken.
  rewrite (or_undefined_Some h) by (intros ->; discriminate).
  rewrite Hs, Hl, Hp. reflexivity.
Qed.

(** X3. A request whose [Authorization] header is absent, empty, or not a
    bearer scheme, one space and a token with the access prefix is refused
    before anything is looked up: the store is not read for the slug or
    the token, nothing is written, and the gateway answers 401. *)
Theorem malformed_header_is_refused (now : Z) (w : World) (req : Request) (slug : string) :
  method req = "POST" ->
  mcp_slug (path req) = Some slug ->
  (forall tok, ~ Shape.bearer_header (authorization req) tok) ->
  (exists msg,
      In msg ["Missing Authorization header"; "Invalid Authorization header format";
              "Invalid token format"]
      /\ forall s, validateToken now s (authorization req) slug
                   = (s, Returned (invalid msg)))
  /\ status (snd (fetch now w req)) = 401
  /\ fst (fetch now w req) = w.
Proof.
  intros Hm Hslug Hbad.
  assert (Hv : exists msg,
      In msg ["Missing Authorization header"; "Invalid Authorization header format";
              "Invalid token format"]
      /\ forall s, validateToken now s (authorization req) slug
                   = (s, Returned (invalid msg))).
  { unfold validateToken.
    destruct (authorization req) as [h |] eqn:Ha;
      [| eexists; split; [| intros; reflexivity]; cbn; auto].
    cbn [Js.or_undefined]. destruct (Js.truthy h) eqn:Ht;
      [| eexists; split; [| intros; reflexivity]; cbn; auto].
    destruct (Js.split " " h) as [| scheme [| tok [| x l]]] eqn:Hs;
      try (eexists; split; [| intros; reflexivity]; cbn; now auto).
    destruct (String.eqb (Js.toLowerCase scheme) "bearer") eqn:Hl;
      [| eexists; split; [| intros; reflexivity]; cbn; auto].
    destruct (Js.startsWith tok "sha_kb_") eqn:Hp;
      [| eexists; split; [| intros; reflexivity]; cbn; auto].
    exfalso. apply (Hbad tok). apply bearer_header_split.
    exists h, scheme. apply String.eqb_eq in Hl. auto. }
  split; [exact Hv |]. destruct Hv as [msg [_ Hv]].
  rewrite (fetch_unauthorized now w req slug msg (or_introl Hm) Hslug (Hv (db w))).
  split; reflexivity.
Qed.

End GatewayParsing.

Lemma mcp_slug_shape_witness :
  Worker.mcp_slug "/mcp/my-docs-2" = Some "my-docs-2".
Proof.
  apply (mcp_slug_shape "/mcp/my-docs-2" "my-docs-2").
  split; [reflexivity | split; [discriminate | reflexivity]].
Defined.

Lemma malformed_header_is_refused_witness :
  (exists msg,
      In msg ["Missing Authorization header"; "Invalid Authorization header format";
              "Invalid token format"]
      /\ forall s, Worker.validateToken 125000 s
                     (Worker.authorization
                        {| Worker.method := "POST"; Worker.path := "/mcp/docs";
                           Worker.authorization := Some "Bearer  sha_kb_x";
                           Worker.accept := None; Worker.body := Traffic.ping |}) "docs"
                   = (s, Worker.Returned (Worker.invalid msg)))
  /\ Worker.status
       (snd (Worker.fetch 125000 Traffic.world_three
               {| Worker.method := "POST"; Worker.path := "/mcp/docs";
                  Worker.authorization := Some "Bearer  sha_kb_x";
                  Worker.accept := None; Worker.body := Traffic.ping |})) = 401
  /\ fst (Worker.fetch 125000 Traffic.world_three
            {| Worker.method := "POST"; Worker.path := "/mcp/docs";
               Worker.authorization := Some "Bearer  sha_kb_x";
               Worker.accept := None; Worker.body := Traffic.ping |})
     = Traffic.world_three.
Proof.
  apply (malformed_header_is_refused 125000 Traffic.world_three
           {| Worker.method := "POST"; Worker.path := "/mcp/docs";
              Worker.authorization := Some "Bearer  sha_kb_x";
              Worker.accept := None; Worker.body := Traffic.ping |} "docs").
  - reflexivity.
  - reflexivity.
  - intros tok H. apply bearer_header_split in H as [h [scheme [[= <-] [Hs _]]]].
    vm_compute in Hs. discriminate.
Defined.

(* ===================================================================== *)
(** * Token validation at the gateway                                     *)
(* ===================================================================== *)

Section ValidationFacts.
Import Db Worker Traffic.

Lemma filter_map_same {A} (p : A -> bool) (f : A -> A) (l : list A) :
  (forall x, p (f x) = p x) ->
  List.filter p (map f l) = map f (List.filter p l).
Proof.
  intros H. induction l as [| x l IH]; [reflexivity |].
  cbn. rewrite H. destruct (p x); cbn; now rewrite IH.
Qed.

Lemma single_map {A B} (f : A -> B) (l : list A) :
  Js.single (map f l) = option_map f (Js.single l).
Proof. destruct l as [| x [| y l]]; reflexivity. Qed.

Lemma single_In {A} (l : list A) (x : A) : Js.single l = Some x -> l = [x].
Proof. destruct l as [| y [| z l]]; cbn; intros [= ->]; reflexivity. Qed.

Lemma single_two {A} (l : list A) (a b : A) :
  In a l -> In b l -> a <> b -> Js.single l = None.
Proof.
  destruct l as [| x [| y l]]; cbn.
  - tauto.
  - intros [-> | []] [-> | []] H. contradiction.
  - reflexivity.
Qed.

Lemma touch_twice (s : Store) (id : string) (t : Z) :
  touch_token (touch_token s id t) id t = touch_token s id t.
Proof.
  unfold touch_token, with_tokens. cbn. f_equal.
  rewrite map_map. apply map_ext. intros r.
  destruct (String.eqb (tk_id r) id) eqn:E; cbn; now rewrite E.
Qed.

(** The conditions under which [validateAccessToken] accepts, and what it
    then answers. *)
Lemma validateAccessToken_valid now s tokenHash token k :
  Js.single (List.filter (fun r => String.eqb (tk_access_token_hash r) tokenHash)
                         (oauth_tokens s)) = Some token ->
  (tk_expires_at token <? now)%Z = false ->
  kb_by_id s (tk_knowledge_base_id token) = Some k ->
  (kb_pricing_model k = Paid -> tk_user_id token <> kb_user_id k ->
   ~ lapsed now s (tk_subscription_id token)) ->
  validateAccessToken now s tokenHash
  = (touch_token s (tk_id token) now,
     Returned {| valid := true; kb := Some k;
                 userId := Some (tk_user_id token);
                 clientId := Some (tk_client_id token);
                 scopes := Some (tk_scopes token);
                 subscriptionId := tk_subscription_id token;
                 error := None |}).
Proof.
  intros Ht He Hk Hl. unfold validateAccessToken. rewrite Ht, He, Hk.
  destruct (kb_pricing_model k) eqn:Hp; cbn [pricing_eqb]; [reflexivity |].
  destruct (String.eqb (tk_user_id token) (kb_user_id k)) eqn:Eo; [reflexivity |].
  apply String.eqb_neq in Eo. specialize (Hl eq_refl Eo). unfold lapsed in Hl.
  destruct (Js.or_undefined (tk_subscription_id token)) as [id |]; [| now destruct Hl].
  destruct (Js.single (List.filter _ (kb_subscriptions s))) as [sub |]; [| now destruct Hl].
  destruct (negb (status_eqb (sub_status sub) Active)
            && negb (status_eqb (sub_status sub) Trialing)) eqn:Es.
  { exfalso. apply Hl. left. apply andb_true_iff in Es as [E1 E2].
    destruct (sub_status sub); try discriminate; split; discriminate. }
  destruct (sub_current_period_end sub) as [e |] eqn:Ee; [| reflexivity].
  destruct (e <? now)%Z eqn:El; [| reflexivity].
  exfalso. apply Hl. right. exists e. split; [reflexivity | now apply Z.ltb_lt].
Qed.

(** Every answer of [validateAccessToken] is a refusal that leaves the
    store alone, or a throw, or the acceptance above. *)
Lemma validateAccessToken_cases now s tokenHash :
  (exists msg, validateAccessToken now s tokenHash = (s, Returned (invalid msg)))
  \/ validateAccessToken now s tokenHash = (s, Raised)
  \/ exists token k,
       Js.single (List.filter (fun r => String.eqb (tk_access_token_hash r) tokenHash)
                              (oauth_tokens s)) = Some token
       /\ (tk_expires_at token <? now)%Z = false
       /\ kb_by_id s (tk_knowledge_base_id token) = Some k
       /\ (kb_pricing_model k = Paid -> tk_user_id token <> kb_user_id k ->
           ~ lapsed now s (tk_subscription_id token)).
Proof.
  unfold validateAccessToken.
  destruct (Js.single (List.filter _ (oauth_tokens s))) as [token |] eqn:Ht;
    [| left; eexists; reflexivity].
  destruct (tk_expires_at token <? now)%Z eqn:He; [left; eexists; reflexivity |].
  destruct (kb_by_id s (tk_knowledge_base_id token)) as [k |] eqn:Hk;
    [| right; left; reflexivity].
  destruct (kb_pricing_model k) eqn:Hp; cbn [pricing_eqb].
  { right. right. exists token, k. repeat split; try assumption. congruence. }
  destruct (String.eqb (tk_user_id token) (kb_user_id k)) eqn:Eo.
  { right. right. exists token, k. repeat split; try assumption.
    apply String.eqb_eq in Eo. intros _ Hne. contradiction. }
  destruct (Js.or_undefined (tk_subscription_id token)) as [id |] eqn:Eid;
    [| left; eexists; reflexivity].
  destruct (Js.single (List.filter _ (kb_subscriptions s))) as [sub |] eqn:Esub;
    [| left; eexists; reflexivity].
  destruct (negb (status_eqb (sub_status sub) Active)
            && negb (status_eqb (sub_status sub) Trialing)) eqn:Es;
    [left; eexists; reflexivity |].
  destruct (sub_current_period_end sub) as [e |] eqn:Ee.
  - destruct (e <? now)%Z eqn:El; [left; eexists; reflexivity |].
    right. right. exists token, k. repeat split; try assumption.
    intros _ _. unfold lapsed. rewrite Eid, Esub.
    intros [[Ha Htr] | [e' [He' Hlt]]].
    + destruct (sub_status sub); try contradiction; discriminate.
    + rewrite Ee in He'. injection He' as <-. apply Z.ltb_ge in El. lia.
  - right. right. exists token, k. repeat split; try assumption.
    intros _ _. unfold lapsed. rewrite Eid, Esub.
    intros [[Ha Htr] | [e' [He' _]]]; [| congruence].
    destruct (sub_status sub); try contradiction; discriminate.
Qed.

(** Validating again at the same instant answers the same and writes
    nothing more. *)
Lemma validateAccessToken_again now s tokenHash s1 out :
  validateAccessToken now s tokenHash = (s1, out) ->
  validateAccessToken now s1 tokenHash = (s1, out)
  /\ knowledge_bases s1 = knowledge_bases s
  /\ mcp_requests s1 = mcp_requests s.
Proof.
  intros H.
  destruct (validateAccessToken_cases now s tokenHash)
    as [[msg Hc] | [Hc | [token [k [Ht [He [Hk Hl]]]]]]].
  - rewrite Hc in H. injection H as <- <-. now rewrite Hc.
  - rewrite Hc in H. injection H as <- <-. now rewrite Hc.
  - rewrite (validateAccessToken_valid now s tokenHash token k Ht He Hk Hl) in H.
    injection H as <- <-. split; [| split; reflexivity].
    set (f := fun r : OAuthToken =>
                if String.eqb (tk_id r) (tk_id token) then
                  {| tk_id := tk_id r; tk_client_id := tk_client_id r;
                     tk_knowledge_base_id := tk_knowledge_base_id r;
                     tk_user_id := tk_user_id r;
                     tk_access_token_hash := tk_access_token_hash r;
                     tk_refresh_token_hash := tk_refresh_token_hash r;
                     tk_scopes := tk_scopes r;
                     tk_expires_at := tk_expires_at r;
                     tk_refresh_expires_at := tk_refresh_expires_at r;
                     tk_last_used_at := Some now;
                     tk_subscription_id := tk_subscription_id r |}
                else r).
    assert (Hf : Js.single
                   (List.filter (fun r => String.eqb (tk_access_token_hash r) tokenHash)
                      (oauth_tokens (touch_token s (tk_id token) now)))
                 = Some (f token)).
    { unfold touch_token. cbn [oauth_tokens with_tokens]. fold f.
      rewrite filter_map_same, single_map, Ht; [reflexivity |].
      intros x. unfold f. now destruct (String.eqb (tk_id x) (tk_id token)). }
    assert (Hft : f token
                  = {| tk_id := tk_id token; tk_client_id := tk_client_id token;
                       tk_knowledge_base_id := tk_knowledge_base_id token;
                       tk_user_id := tk_user_id token;
                       tk_access_token_hash := tk_access_token_hash token;
                       tk_refresh_token_hash := tk_refresh_token_hash token;
                       tk_scopes := tk_scopes token;
                       tk_expires_at := tk_expires_at token;
                       tk_refresh_expires_at := tk_refresh_expires_at token;
                       tk_last_used_at := Some now;
                       tk_subscription_id := tk_subscription_id token |}).
    { unfold f. now rewrite String.eqb_refl. }
    rewrite (validateAccessToken_valid now _ tokenHash (f token) k Hf);
      rewrite Hft; cbn [tk_id tk_expires_at tk_knowledge_base_id tk_user_id
                        tk_client_id tk_scopes tk_subscription_id];
      try assumption.
    now rewrite touch_twice.
Qed.

Lemma validateToken_again now s auth slug s1 out :
  validateToken now s auth slug = (s1, out) ->
  validateToken now s1 auth slug = (s1, out)
  /\ mcp_requests s1 = mcp_requests s.
Proof.
  unfold validateToken.
  destruct (Js.or_undefined auth) as [h |]; [| intros [= <- <-]; now split].
  destruct (Js.split " " h) as [| scheme [| tok [| x l]]];
    try (intros [= <- <-]; now split).
  destruct (negb (String.eqb (Js.toLowerCase scheme) "bearer"));
    [intros [= <- <-]; now split |].
  destruct (negb (Js.startsWith tok "sha_kb_")); [intros [= <- <-]; now split |].
  destruct (getKnowledgeBaseBySlug s slug) as [kb_ |] eqn:Hk.
  2: { intros [= <- <-]. now rewrite Hk. }
  destruct (validateAccessToken now s (hashToken tok)) as [s' o] eqn:Hv.
  destruct (validateAccessToken_again _ _ _ _ _ Hv) as [Hv' [Hkbs Hlog]].
  assert (Hk' : getKnowledgeBaseBySlug s' slug = Some kb_).
  { unfold getKnowledgeBaseBySlug in *. now rewrite Hkbs. }
  destruct o as [tr |]; [| intros [= <- <-]; now rewrite Hk', Hv'].
  destruct (negb (valid tr)) eqn:Evalid.
  { intros [= <- <-]. now rewrite Hk', Hv', Evalid. }
  destruct (negb _) eqn:Ekb in |- *.
  - intros [= <- <-]. now rewrite Hk', Hv', Evalid, Ekb.
  - intros [= <- <-]. now rewrite Hk', Hv', Evalid, Ekb.
Qed.

(** A valid answer of [validateToken] names the repository of the slug. *)
Lemma validateToken_valid_kb now s auth slug s1 tr :
  validateToken now s auth slug = (s1, Returned tr) ->
  valid tr = true ->
  exists k kb_, kb tr = Some k /\ getKnowledgeBaseBySlug s slug = Some kb_
                /\ kb_id k = kb_id kb_.
Proof.
  unfold validateToken. intros H Hvalid. revert H.
  destruct (Js.or_undefined auth) as [h |]; [| intros [= _ <-]; discriminate].
  destruct (Js.split " " h) as [| scheme [| tok [| x l]]];
    try (intros [= _ <-]; discriminate).
  destruct (negb (String.eqb (Js.toLowerCase scheme) "bearer"));
    [intros [= _ <-]; discriminate |].
  destruct (negb (Js.startsWith tok "sha_kb_")); [intros [= _ <-]; discriminate |].
  destruct (getKnowledgeBaseBySlug s slug) as [kb_ |]; [| intros [= _ <-]; discriminate].
  destruct (validateAccessToken now s (hashToken tok)) as [s' [tr0 |]]; [| discriminate].
  destruct (negb (valid tr0)) eqn:Ev.
  { intros [= _ <-]. apply negb_true_iff in Ev. congruence. }
  destruct (kb tr0) as [k |] eqn:Ek; cbn [negb]; [| intros [= _ <-]; discriminate].
  destruct (String.eqb (kb_id k) (kb_id kb_)) eqn:E; cbn [negb];
    [| intros [= _ <-]; discriminate].
  intros [= _ <-]. cbn [kb]. exists k, kb_. apply String.eqb_eq in E. auto.
Qed.

(** A subscription that has lapsed stays lapsed. *)
Lemma lapsed_later now later s id :
  (now <= later)%Z -> lapsed now s id -> lapsed later s id.
Proof.
  intros Hle. unfold lapsed. destruct (Js.or_undefined id) as [i |]; [| auto].
  destruct (Js.single _) as [sub |]; [| auto].
  intros [H | [e [He Hlt]]]; [now left |].
  right. exists e. split; [assumption | lia].
Qed.

(** What [validateAccessToken] refuses, it refuses at every later
    instant; and refusing writes nothing. *)
Lemma validateAccessToken_later_refused now later s tokenHash s1 out :
  (now <= later)%Z ->
  validateAccessToken now s tokenHash = (s1, out) ->
  (forall tr, out = Returned tr -> valid tr = false) ->
  s1 = s
  /\ exists out2, validateAccessToken later s tokenHash = (s, out2)
                  /\ forall tr, out2 = Returned tr -> valid tr = false.
Proof.
  intros Hle H Hinv.
  assert (Hs : s1 = s).
  { destruct (validateAccessToken_cases now s tokenHash)
      as [[msg Hc] | [Hc | [token [k [Ht [He [Hk Hl]]]]]]].
    - rewrite Hc in H. now injection H as <- _.
    - rewrite Hc in H. now injection H as <- _.
    - rewrite (validateAccessToken_valid now s tokenHash token k Ht He Hk Hl) in H.
      injection H as _ <-. specialize (Hinv _ eq_refl). discriminate. }
  split; [exact Hs |].
  destruct (validateAccessToken_cases later s tokenHash)
    as [[msg Hc] | [Hc | [token [k [Ht [He [Hk Hl]]]]]]].
  - eexists. split; [exact Hc |]. intros tr [= <-]. reflexivity.
  - eexists. split; [exact Hc |]. discriminate.
  - exfalso.
    assert (He' : (tk_expires_at token <? now)%Z = false).
    { apply Z.ltb_ge. apply Z.ltb_ge in He. lia. }
    assert (Hl' : kb_pricing_model k = Paid -> tk_user_id token <> kb_user_id k ->
                  ~ lapsed now s (tk_subscription_id token)).
    { intros Hp Hne Hlap. apply (Hl Hp Hne). now apply (lapsed_later now later). }
    rewrite (validateAccessToken_valid now s tokenHash token k Ht He' Hk Hl') in H.
    injection H as _ <-. specialize (Hinv _ eq_refl). discriminate.
Qed.

(** [validateToken] leaves the request log alone. *)
Lemma validateToken_requests now s auth slug s1 out :
  validateToken now s auth slug = (s1, out) -> mcp_requests s1 = mcp_requests s.
Proof. intros H. now destruct (validateToken_again _ _ _ _ _ _ H). Qed.

(** A request that [validateToken] refuses is refused again by a later
    validation on the store that the first one left. *)
Lemma validateToken_later_refused now later s auth slug s1 out s2 out2 :
  (now <= later)%Z ->
  validateToken now s auth slug = (s1, out) ->
  (forall tr, out = Returned tr -> valid tr = false) ->
  validateToken later s1 auth slug = (s2, out2) ->
  forall tr, out2 = Returned tr -> valid tr = false.
Proof.
  intros Hle H Hinv H2. unfold validateToken in H, H2.
  destruct (Js.or_undefined auth) as [h |].
  2: { injection H2 as _ <-. intros tr [= <-]. reflexivity. }
  destruct (Js.split " " h) as [| scheme [| tok [| x l]]];
    try (injection H2 as _ <-; intros tr [= <-]; reflexivity).
  destruct (negb (String.eqb (Js.toLowerCase scheme) "bearer")).
  { injection H2 as _ <-. intros tr [= <-]. reflexivity. }
  destruct (negb (Js.startsWith tok "sha_kb_")).
  { injection H2 as _ <-. intros tr [= <-]. reflexivity. }
  destruct (getKnowledgeBaseBySlug s slug) as [kb_ |] eqn:Hk.
  2: { injection H as <- _. rewrite Hk in H2. injection H2 as _ <-.
       intros tr [= <-]. reflexivity. }
  destruct (validateAccessToken now s (hashToken tok)) as [s' o] eqn:Hv.
  assert (Hrefused : forall o2,
             validateAccessToken later s1 (hashToken tok) = (s1, o2) ->
             (forall tr, o2 = Returned tr -> valid tr = false) ->
             forall tr, out2 = Returned tr -> valid tr = false).
  { intros o2 Hv2 Ho2. destruct (getKnowledgeBaseBySlug s1 slug) as [kb2 |].
    2: { injection H2 as _ <-. intros tr [= <-]. reflexivity. }
    rewrite Hv2 in H2. destruct o2 as [tr2 |].
    - rewrite (Ho2 tr2 eq_refl) in H2. cbn [negb] in H2.
      injection H2 as _ <-. intros tr [= <-]. now apply Ho2.
    - injection H2 as _ <-. discriminate. }
  assert (Hplain : (forall tr, o = Returned tr -> valid tr = false) ->
                   s1 = s' ->
                   forall tr, out2 = Returned tr -> valid tr = false).
  { intros Ho Hs1.
    destruct (validateAccessToken_later_refused now later s _ s' o Hle Hv Ho)
      as [Hs [o2 [Hv2 Ho2]]].
    subst s' s1. now apply (Hrefused o2). }
  destruct o as [tr0 |].
  2: { injection H as <- _. apply Hplain; [discriminate | reflexivity]. }
  destruct (valid tr0) eqn:Hvalid0; cbn [negb] in H.
  2: { injection H as <- _. apply Hplain; [| reflexivity].
       intros tr [= <-]. exact Hvalid0. }
  destruct (validateAccessToken_cases now s (hashToken tok))
    as [[msg Hc] | [Hc | [token [k [Ht [He [Hkb Hl]]]]]]].
  { rewrite Hc in Hv. injection Hv as _ <-. discriminate. }
  { rewrite Hc in Hv. discriminate. }
  rewrite (validateAccessToken_valid now s _ token k Ht He Hkb Hl) in Hv.
  injection Hv as <- <-. cbn [kb] in H.
  destruct (String.eqb (kb_id k) (kb_id kb_)) eqn:Ekb; cbn [negb] in H.
  { injection H as _ <-. specialize (Hinv _ eq_refl). discriminate. }
  injection H as <- _.
  assert (Hk' : getKnowledgeBaseBySlug (touch_token s (tk_id token) now) slug = Some kb_)
    by exact Hk.
  rewrite Hk' in H2.
  destruct (validateAccessToken_cases later (touch_token s (tk_id token) now)
              (hashToken tok))
    as [[msg Hc] | [Hc | [token' [k' [Ht' [He' [Hkb' Hl']]]]]]].
  { rewrite Hc in H2. cbn [valid invalid negb] in H2. injection H2 as _ <-.
    intros tr [= <-]. reflexivity. }
  { rewrite Hc in H2. injection H2 as _ <-. discriminate. }
  rewrite (validateAccessToken_valid later _ _ token' k' Ht' He' Hkb' Hl') in H2.
  cbn [valid kb negb] in H2.
  assert (Hsame : k' = k).
  { unfold touch_token in Ht'. cbn [oauth_tokens with_tokens] in Ht'.
    rewrite filter_map_same, single_map, Ht in Ht'.
    2: { intros x. now destruct (String.eqb (tk_id x) (tk_id token)). }
    cbn [option_map] in Ht'. injection Ht' as <-.
    rewrite String.eqb_refl in Hkb'. cbn [tk_knowledge_base_id] in Hkb'.
    change (kb_by_id s (tk_knowledge_base_id token) = Some k') in Hkb'.
    congruence. }
  subst k'. rewrite Ekb in H2. cbn [negb] in H2. injection H2 as _ <-.
  intros tr [= <-]. reflexivity.
Qed.

End ValidationFacts.

Section GatewayRequests.
Import Db Worker Traffic.




(** What the [try] block hands to the [finally] block. *)
Lemma handle_post_log now w req slug w1 r m st :
  handle_post now w req slug = (w1, r, m, st) ->
  st = status r
  /\ db w1 = fst (validateToken now (db w) (authorization req) slug)
  /\ (status r = 200 ->
      exists rq, parseMCPRequest (body req) = Some rq /\ rpc_method rq = Some m)
  /\ (status r <> 200 -> m = "unknown").
Proof.
  assert (Hrefuse : forall (w0 : World) (c : Z) (msg : option string)
                           (rl : option RateLimitInfo),
            c <> 200 ->
            db w0 = fst (validateToken now (db w) (authorization req) slug) ->
            (w0, {| status := c; message := msg; rate_limit := rl |}, "unknown", c)
            = (w1, r, m, st) ->
            st = status r
            /\ db w1 = fst (validateToken now (db w) (authorization req) slug)
            /\ (status r = 200 ->
                exists rq, parseMCPRequest (body req) = Some rq
                           /\ rpc_method rq = Some m)
            /\ (status r <> 200 -> m = "unknown")).
  { intros w0 c msg rl Hc Hdb [= <- <- <- <-]. cbn [status].
    split; [reflexivity | split; [exact Hdb | split]].
    - intros E. contradiction.
    - reflexivity. }
  unfold handle_post.
  destruct (validateToken now (db w) (authorization req) slug) as [s1 [tr |]].
  2: { apply Hrefuse; [discriminate | reflexivity]. }
  destruct (negb (valid tr)); [apply Hrefuse; [discriminate | reflexivity] |].
  destruct (createAuthContext tr) as [ctx |];
    [| apply Hrefuse; [discriminate | reflexivity]].
  destruct (checkRateLimit _ _ _ _) as [kv1 info].
  destruct (negb (allowed info)); [apply Hrefuse; [discriminate | reflexivity] |].
  destruct (body req) as [| | | rq] eqn:Hb;
    try (apply Hrefuse; [discriminate | reflexivity]).
  destruct (parseMCPRequest (JsonObject rq)) as [rq' |] eqn:Hp;
    [| apply Hrefuse; [discriminate | reflexivity]].
  assert (Hx : exists x, rpc_method rq' = Some x).
  { unfold parseMCPRequest in Hp.
    destruct (negb (opt_eqb (jsonrpc rq) "2.0")); [discriminate |].
    destruct (rpc_method rq) as [x |] eqn:E; [| discriminate].
    injection Hp as <-. now exists x. }
  destruct Hx as [x Hx]. rewrite Hx. cbn [default].
  intros [= <- <- <- <-]. cbn [status db fst].
  split; [reflexivity | split; [reflexivity | split]].
  - intros _. exists rq'. split; [reflexivity | exact Hx].
  - intros E. contradiction.
Qed.

(** X6. The request log of the gateway.  After it has answered a POST to
    [/mcp/{slug}], the gateway validates the token once more and appends a
    row exactly when this second validation accepts: one row, which names
    the repository, the client of the token, the status that was answered
    and the method, the JSON-RPC method as it was sent (empty or not) when
    the status is 200 and [unknown] otherwise.  A request that was refused
    for its token is not accepted by the second validation either, so it
    is never logged; a request that was served is not logged when its
    token is refused the second time, as when it expires in between. *)
Theorem request_log_of_a_post (now later : Z) (w : World) (req : Request)
    (slug : string) (s1 s2 : Store) (out out2 : Outcome TokenValidationResult) :
  method req = "POST" ->
  mcp_slug (path req) = Some slug ->
  validateToken now (db w) (authorization req) slug = (s1, out) ->
  validateToken later s1 (authorization req) slug = (s2, out2) ->
  match out2 with
  | Returned tr2 =>
    if valid tr2 then
      exists k m,
        kb tr2 = Some k
        /\ db (fst (fetch_at now later w req))
           = with_requests
               (mcp_requests (db w) ++
                [{| lg_knowledge_base_id := kb_id k;
                    lg_client_id := Js.or_undefined (clientId tr2);
                    lg_method := m;
                    lg_status_code := status (snd (fetch_at now later w req)) |}]) s2
        /\ (status (snd (fetch_at now later w req)) = 200 ->
            exists rq, parseMCPRequest (body req) = Some rq
                       /\ rpc_method rq = Some m)
        /\ (status (snd (fetch_at now later w req)) <> 200 -> m = "unknown")
        /\ ((now <= later)%Z -> exists tr, out = Returned tr /\ valid tr = true)
    else db (fst (fetch_at now later w req)) = s2
         /\ mcp_requests s2 = mcp_requests (db w)
  | Raised => db (fst (fetch_at now later w req)) = s2
              /\ mcp_requests s2 = mcp_requests (db w)
  end.
Proof.
  intros Hm Hslug Hv Hv2.
  pose proof (validateToken_requests _ _ _ _ _ _ Hv) as Hlog1.
  pose proof (validateToken_requests _ _ _ _ _ _ Hv2) as Hlog2.
  unfold fetch_at. rewrite Hslug, (mcp_slug_not_health _ _ Hslug), Hm.
  cbn [String.eqb Ascii.eqb Bool.eqb andb negb].
  destruct (handle_post now w req slug) as [[[w1 r] m] st] eqn:Hp.
  destruct (handle_post_log _ _ _ _ _ _ _ _ Hp) as [-> [Hdb [H200 Hother]]].
  rewrite Hv in Hdb. cbn [fst] in Hdb.
  unfold log_request. rewrite Hdb, Hv2. cbn [fst snd].
  destruct out2 as [tr2 |]; [| split; [reflexivity | congruence]].
  destruct (valid tr2) eqn:Hvalid; [| split; [reflexivity | congruence]].
  destruct (validateToken_valid_kb _ _ _ _ _ _ Hv2 Hvalid) as [k [kb_ [Hk _]]].
  rewrite Hk. exists k, m. cbn [db]. rewrite Hlog2, Hlog1.
  split; [reflexivity |]. split; [reflexivity |]. split; [exact H200 |].
  split; [exact Hother |].
  intros Hle. destruct out as [tr |].
  - exists tr. split; [reflexivity |]. destruct (valid tr) eqn:E; [reflexivity |].
    assert (Hno : forall tr', Returned tr = Returned tr' -> valid tr' = false)
      by (intros tr' [= <-]; exact E).
    pose proof (validateToken_later_refused _ _ _ _ _ _ _ _ _ Hle Hv Hno Hv2 tr2 eq_refl).
    congruence.
  - assert (Hno : forall tr', @Raised TokenValidationResult = Returned tr' ->
                              valid tr' = false) by discriminate.
    pose proof (validateToken_later_refused _ _ _ _ _ _ _ _ _ Hle Hv Hno Hv2 tr2 eq_refl).
    congruence.
Qed.

(** X7. Slugs are unique per owner only.  When two gateway-enabled
    repositories carry the same slug, the lookup by slug finds no single
    row and every request to that slug is refused with 401, whatever token
    it carries. *)
Theorem ambiguous_slug_is_refused (now : Z) (w : World) (req : Request)
    (slug : string) (k1 k2 : KnowledgeBase) :
  method req = "POST"
  \/ (method req = "GET"
      /\ Js.includes (Js.or_else (accept req) "") "text/event-stream" = true) ->
  mcp_slug (path req) = Some slug ->
  In k1 (knowledge_bases (db w)) -> In k2 (knowledge_bases (db w)) -> k1 <> k2 ->
  kb_slug k1 = slug -> kb_mcp_enabled k1 = true ->
  kb_slug k2 = slug -> kb_mcp_enabled k2 = true ->
  getKnowledgeBaseBySlug (db w) slug = None
  /\ status (snd (fetch now w req)) = 401
  /\ fst (fetch now w req) = w.
Proof.
  intros Hm Hslug H1 H2 Hne Hs1 He1 Hs2 He2.
  assert (Hk : getKnowledgeBaseBySlug (db w) slug = None).
  { unfold getKnowledgeBaseBySlug. apply (single_two _ k1 k2); [| | assumption];
      apply filter_In; (split; [assumption |]).
    - now rewrite Hs1, String.eqb_refl, He1.
    - now rewrite Hs2, String.eqb_refl, He2. }
  split; [exact Hk |].
  destruct (validateToken_unknown_slug now (db w) (authorization req) slug Hk)
    as [msg Hv].
  rewrite (fetch_unauthorized now w req slug msg Hm Hslug Hv). split; reflexivity.
Qed.

(** X8. The gateway fails open.  While the counting store cannot be
    reached, no request is answered 429 and nothing is counted; every
    record of the limiter that a response carries allows the request and
    shows the whole per-client ceiling as remaining.  In particular a POST
    whose token validates and whose body is a JSON-RPC request goes
    through the limiter and is answered 200 with that record. *)
Theorem gateway_fails_open (now : Z) (w : World) (req : Request) :
  reachable (kv w) = false ->
  status (snd (fetch now w req)) <> 429
  /\ kv (fst (fetch now w req)) = kv w
  /\ (forall info, rate_limit (snd (fetch now w req)) = Some info ->
                   allowed info = true
                   /\ remaining info = CLIENT_LIMIT /\ limit info = CLIENT_LIMIT)
  /\ (forall slug s1 tr ctx rq,
        method req = "POST" ->
        mcp_slug (path req) = Some slug ->
        validateToken now (db w) (authorization req) slug = (s1, Returned tr) ->
        valid tr = true ->
        createAuthContext tr = Some ctx ->
        parseMCPRequest (body req) = Some rq ->
        snd (fetch now w req)
        = {| status := 200; message := None;
             rate_limit := Some {| allowed := true; remaining := CLIENT_LIMIT;
                                   resetAt := (windowStart now + WINDOW_SIZE)%Z;
                                   limit := CLIENT_LIMIT |} |}).
Proof.
  intros Hr.
  assert (Hopen : forall kbId c, c <> "" ->
             checkRateLimit now (kv w) kbId (Some c)
             = (kv w, {| allowed := true; remaining := CLIENT_LIMIT;
                         resetAt := (windowStart now + WINDOW_SIZE)%Z;
                         limit := CLIENT_LIMIT |})).
  { intros kbId c Hc. unfold checkRateLimit, kv_get. rewrite Hr.
    cbn [Js.truthy_opt]. unfold Js.truthy. now rewrite (string_neqb _ _ Hc). }
  assert (Hctx : forall tr ctx, createAuthContext tr = Some ctx -> ctx_clientId ctx <> "").
  { intros tr ctx. unfold createAuthContext.
    destruct (negb (valid tr)); [discriminate |].
    destruct (kb tr); [| discriminate].
    destruct (Js.or_undefined (userId tr)); [| discriminate].
    destruct (Js.or_undefined (clientId tr)) as [c |] eqn:Ec; [| discriminate].
    destruct (scopes tr); [| discriminate]. intros [= <-]. cbn [ctx_clientId].
    intros ->. destruct (clientId tr) as [c0 |]; [| discriminate].
    cbn in Ec. destruct (Js.truthy c0) eqn:Et; [| discriminate].
    injection Ec as ->. discriminate. }
  assert (Hlog : forall slug w1 m st, kv (log_request now w1 req slug m st) = kv w1).
  { intros slug w1 m st. unfold log_request.
    destruct (validateToken now (db w1) (authorization req) slug) as [s1 [tr |]];
      [| reflexivity].
    destruct (valid tr), (kb tr); reflexivity. }
  assert (Hpost : forall slug,
             let '(w1, r, m, st) := handle_post now w req slug in
             status r <> 429 /\ kv w1 = kv w
             /\ (forall info, rate_limit r = Some info ->
                              allowed info = true
                              /\ remaining info = CLIENT_LIMIT
                              /\ limit info = CLIENT_LIMIT)
             /\ (forall s1 tr ctx rq,
                   validateToken now (db w) (authorization req) slug
                   = (s1, Returned tr) ->
                   valid tr = true ->
                   createAuthContext tr = Some ctx ->
                   parseMCPRequest (body req) = Some rq ->
                   r = {| status := 200; message := None;
                          rate_limit :=
                            Some {| allowed := true; remaining := CLIENT_LIMIT;
                                    resetAt := (windowStart now + WINDOW_SIZE)%Z;
                                    limit := CLIENT_LIMIT |} |})).
  { intros slug. unfold handle_post.
    destruct (validateToken now (db w) (authorization req) slug) as [s1 [tr |]].
    2: { cbn. repeat split; discriminate. }
    destruct (valid tr) eqn:Hvalid; cbn [negb].
    2: { cbn. repeat split; try discriminate. intros ? ? ? ? [= <- <-]. congruence. }
    destruct (createAuthContext tr) as [ctx |] eqn:Hc.
    2: { cbn. repeat split; try discriminate. intros ? ? ? ? [= <- <-]. congruence. }
    cbn [kv]. rewrite (Hopen _ _ (Hctx tr ctx Hc)). cbn [allowed negb].
    destruct (body req) as [| | | rq0] eqn:Hb; cbn [parseMCPRequest].
    1-3: cbn; repeat split; discriminate.
    destruct (negb (opt_eqb (jsonrpc rq0) "2.0")).
    { cbn. repeat split; discriminate. }
    destruct (rpc_method rq0).
    2: { cbn. repeat split; discriminate. }
    cbn [status rate_limit kv]. split; [discriminate |]. split; [reflexivity |].
    split; [| reflexivity].
    intros info [= <-]. cbn. auto. }
  unfold fetch, fetch_at.
  destruct (String.eqb (method req) "OPTIONS") eqn:Eo.
  { cbn. repeat split; try discriminate. intros ? ? ? ? ? Hm. rewrite Hm in Eo.
    discriminate. }
  destruct (String.eqb (path req) "/health" && String.eqb (method req) "GET") eqn:Eh.
  { cbn. repeat split; try discriminate. intros ? ? ? ? ? Hm. rewrite Hm in Eh.
    rewrite andb_false_r in Eh. discriminate. }
  destruct (mcp_slug (path req)) as [slug |].
  2: { cbn. repeat split; discriminate. }
  destruct (String.eqb (method req) "GET") eqn:Eg.
  { assert (Hnp : forall (P : Prop), method req = "POST" -> P).
    { intros P Hm. rewrite Hm in Eg. discriminate. }
    destruct (Js.includes _ _).
    2: { cbn. repeat split; try discriminate. intros ? ? ? ? ? Hm. now apply Hnp. }
    destruct (validateToken now (db w) (authorization req) slug) as [s1 [tr |]];
      [destruct (negb (valid tr)) |]; cbn; repeat split; try discriminate;
      intros ? ? ? ? ? Hm; now apply Hnp. }
  destruct (String.eqb (method req) "DELETE") eqn:Ed.
  { cbn. repeat split; try discriminate. intros ? ? ? ? ? Hm. rewrite Hm in Ed.
    discriminate. }
  destruct (negb (String.eqb (method req) "POST")) eqn:Ep.
  { cbn. repeat split; try discriminate. intros ? ? ? ? ? Hm. rewrite Hm in Ep.
    discriminate. }
  specialize (Hpost slug).
  destruct (handle_post now w req slug) as [[[w1 r] m] st].
  destruct Hpost as [H1 [H2 [H3 H4]]]. cbn [fst snd]. rewrite Hlog.
  split; [exact H1 |]. split; [exact H2 |]. split; [exact H3 |].
  intros slug' s1 tr ctx rq _ [= <-]. apply H4.
Qed.

End GatewayRequests.

(* ===================================================================== *)
(** * The authorization endpoint                                          *)
(* ===================================================================== *)

Section AuthorizeFacts.
Import Db OAuth Routes Trace.
Variable url_hostname : string -> option string.

Lemma or_undefined_idem (o : option string) :
  Js.or_undefined (Js.or_undefined o) = Js.or_undefined o.
Proof.
  destruct o as [x |]; [| reflexivity]. cbn.
  destruct (Js.truthy x) eqn:E; [| reflexivity]. cbn. now rewrite E.
Qed.


Lemma opt_eqb_false (o : option string) (v : string) :
  o <> Some v -> opt_eqb o v = false.
Proof.
  destruct o as [x |]; [| reflexivity]. intros H. cbn.
  apply String.eqb_neq. congruence.
Qed.

Lemma opt_eqb_true (o : option string) (v : string) :
  opt_eqb o v = true -> o = Some v.
Proof.
  destruct o as [x |]; [| discriminate]. cbn. intros H.
  apply String.eqb_eq in H. now subst.
Qed.


Lemma parseScopes_known (scope : option string) (x : string) :
  In x (parseScopes scope) -> In x OAUTH_SCOPES.
Proof.
  unfold parseScopes. destruct scope as [sc |]; [| auto].
  destruct (negb (Js.truthy sc)); [auto |].
  destruct (0 <? length _)%nat; [| auto].
  intros H. apply filter_In in H as [_ H]. now apply includes_str_In in H.
Qed.

(** What a code redirect of [authorize] implies. *)
Lemma authorize_issued
    (env : Env) (s s' : Store) (q : AuthorizeQuery)
    (uri issued : string) (st : option string) :
  authorize url_hostname env s q = (s', CodeRedirect uri issued st) ->
  exists user client kb row,
    q_user q = Some user
    /\ In client (oauth_clients s)
    /\ nonempty (q_client_id q) = Some (oc_client_id client)
    /\ oc_revoked_at client = None
    /\ kb_by_id s (oc_knowledge_base_id client) = Some kb
    /\ kb_user_id kb = user
    /\ nonempty (q_redirect_uri q) = Some uri
    /\ isValidRedirectUri url_hostname uri (oc_redirect_uris client) = true
    /\ q_code_challenge_method q = Some "S256"
    /\ issued = generateAuthCode (random_a env)
    /\ s' = with_codes (oauth_codes s ++ [row]) s
    /\ cd_client_id row = oc_client_id client
    /\ cd_user_id row = user
    /\ cd_knowledge_base_id row = oc_knowledge_base_id client
    /\ cd_redirect_uri row = uri
    /\ cd_code_challenge row = nonempty (q_code_challenge q)
    /\ cd_scopes row <> []
    /\ forall x, In x (cd_scopes row) -> In x (oc_scopes client) /\ In x OAUTH_SCOPES.
Proof.
  unfold authorize.
  destruct (nonempty (q_client_id q)) as [clientId |] eqn:Hc; [| discriminate].
  destruct (nonempty (q_redirect_uri q)) as [redirectUri |] eqn:Hr; [| discriminate].
  assert (Herr : forall e d o1 o2 x,
             (x, oauthError url_hostname e d o1 o2) <> (s', CodeRedirect uri issued st)).
  { intros e d o1 o2 x. unfold oauthError. repeat case_match; discriminate. }
  destruct (negb (opt_eqb (q_response_type q) "code")); [intros H; now apply Herr in H |].
  destruct (nonempty (q_code_challenge q)) as [ch |] eqn:Hch;
    [| intros H; now apply Herr in H].
  destruct (negb (opt_eqb (q_code_challenge_method q) "S256")) eqn:Hm;
    [intros H; now apply Herr in H |].
  apply negb_false_iff, opt_eqb_true in Hm.
  destruct (q_user q) as [user |]; [| discriminate].
  destruct (Js.single (List.filter _ (oauth_clients s))) as [client |] eqn:Hcl;
    [| intros H; now apply Herr in H].
  apply single_In in Hcl.
  assert (Hin : In client (List.filter
                  (fun c => String.eqb (oc_client_id c) clientId
                            && is_null (oc_revoked_at c)
                            && negb (is_null (kb_by_id s (oc_knowledge_base_id c))))
                  (oauth_clients s))) by (rewrite Hcl; now left).
  apply filter_In in Hin as [Hin Hp].
  apply andb_true_iff in Hp as [Hp _]. apply andb_true_iff in Hp as [Hid Hrev].
  apply String.eqb_eq in Hid. subst clientId.
  destruct (kb_by_id s (oc_knowledge_base_id client)) as [kb |] eqn:Hkb;
    [| intros H; now apply Herr in H].
  destruct (negb (String.eqb (kb_user_id kb) user)) eqn:Ho;
    [intros H; now apply Herr in H |].
  apply negb_false_iff, String.eqb_eq in Ho.
  destruct (negb (isValidRedirectUri url_hostname redirectUri (oc_redirect_uris client)))
    eqn:Hv; [intros H; now apply Herr in H |].
  apply negb_false_iff in Hv.
  destruct (length _ =? 0)%nat eqn:Hlen; [intros H; now apply Herr in H |].
  unfold insert_code. destruct (code_conflict s _); [intros H; now apply Herr in H |].
  destruct (url_hostname redirectUri); [| discriminate].
  intros [= <- <- <- <-].
  exists user, client, kb. eexists. repeat (split; [first [reflexivity | eassumption] |]).
  split; [now destruct (oc_revoked_at client) |].
  repeat (split; [first [reflexivity | eassumption] |]).
  cbn [cd_scopes]. split.
  - intros E. rewrite E in Hlen. discriminate.
  - intros x Hx. apply filter_In in Hx as [Hx1 Hx2].
    apply includes_str_In in Hx2. split; [assumption |].
    now apply parseScopes_known in Hx1.
Qed.

(** X10. A code is issued only to the owner of the client's repository,
    for a client row that is not revoked, to a redirect address that the
    client's allow-list accepts, with the [S256] method; the row written
    binds the code to that client, user, repository and address, and its
    scopes are a non-empty selection of scope names that the client is
    registered for.  Nothing else is written. *)
Theorem code_is_issued_to_the_owner
    (env : Env) (s s' : Store) (q : AuthorizeQuery)
    (uri issued : string) (st : option string) :
  authorize url_hostname env s q = (s', CodeRedirect uri issued st) ->
  exists user client kb row,
    q_user q = Some user
    /\ In client (oauth_clients s)
    /\ nonempty (q_client_id q) = Some (oc_client_id client)
    /\ oc_revoked_at client = None
    /\ kb_by_id s (oc_knowledge_base_id client) = Some kb
    /\ kb_user_id kb = user
    /\ nonempty (q_redirect_uri q) = Some uri
    /\ isValidRedirectUri url_hostname uri (oc_redirect_uris client) = true
    /\ q_code_challenge_method q = Some "S256"
    /\ issued = generateAuthCode (random_a env)
    /\ s' = with_codes (oauth_codes s ++ [row]) s
    /\ cd_client_id row = oc_client_id client
    /\ cd_user_id row = user
    /\ cd_knowledge_base_id row = oc_knowledge_base_id client
    /\ cd_redirect_uri row = uri
    /\ cd_code_challenge row = nonempty (q_code_challenge q)
    /\ cd_scopes row <> []
    /\ forall x, In x (cd_scopes row) -> In x (oc_scopes client) /\ In x OAUTH_SCOPES.
Proof. exact (authorize_issued env s s' q uri issued st). Qed.

(** What a token answer of the exchange implies. *)
Lemma exchange_issued
    (env : Env) (s s' : Store) (body : Body) (tb : TokenBody) :
  handleAuthorizationCode url_hostname env s body = (s', TokenJson tb) ->
  exists c a row,
    nonempty (code body) = Some c
    /\ Js.single (List.filter (unused_with (hashToken c)) (oauth_codes s)) = Some a
    /\ nonempty (client_id body) = Some (cd_client_id a)
    /\ nonempty (redirect_uri body) = Some (cd_redirect_uri a)
    /\ (exists v, nonempty (code_verifier body) = Some v
                  /\ validateCodeChallenge v (Js.or_else (cd_code_challenge a) "")
                       (Js.or_else (cd_code_challenge_method a) "S256") = true)
    /\ s' = with_tokens (oauth_tokens s ++ [row])
                        (mark_code_used s (cd_id a) (now env))
    /\ tk_client_id row = cd_client_id a
    /\ tk_knowledge_base_id row = cd_knowledge_base_id a
    /\ tk_user_id row = cd_user_id a
    /\ tk_scopes row = cd_scopes a
    /\ tk_access_token_hash row = hashToken (access_token tb)
    /\ tk_refresh_token_hash row = Some (hashToken (refresh_token tb))
    /\ tk_expires_at row = (now env + 3600 * 1000)%Z
    /\ tk_refresh_expires_at row = Some (now env + 2592000 * 1000)%Z
    /\ tk_subscription_id row = None
    /\ scope tb = Js.join_sp (cd_scopes a)
    /\ expires_in tb = 3600
    /\ access_token tb = generateAccessToken (cd_knowledge_base_id a) (random_a env)
    /\ (forall r, In r (oauth_tokens s) ->
                  tk_access_token_hash r <> hashToken (access_token tb)).
Proof.
  unfold handleAuthorizationCode. rewrite !oauthError_plain.
  destruct (nonempty (code body)) as [c |] eqn:Hc; [| discriminate].
  destruct (nonempty (redirect_uri body)) as [ru |] eqn:Hru; [| discriminate].
  destruct (nonempty (client_id body)) as [ci |] eqn:Hci; [| discriminate].
  destruct (nonempty (code_verifier body)) as [cv |] eqn:Hcv; [| discriminate].
  change (fun r => String.eqb (cd_code_hash r) (hashToken c) && is_null (cd_used_at r))
    with (unused_with (hashToken c)).
  destruct (Js.single (List.filter _ (oauth_codes s))) as [a |] eqn:Ha; [| discriminate].
  destruct (cd_expires_at a <? now env)%Z; [discriminate |].
  destruct (negb (String.eqb (cd_client_id a) ci)) eqn:E1; [discriminate |].
  destruct (negb (String.eqb (cd_redirect_uri a) ru)) eqn:E2; [discriminate |].
  destruct (negb (validateCodeChallenge cv _ _)) eqn:E3; [discriminate |].
  apply negb_false_iff in E1, E2, E3. apply String.eqb_eq in E1, E2. subst ci ru.
  unfold insert_token. cbn [tk_id tk_access_token_hash tk_refresh_token_hash].
  destruct (existsb _ _) eqn:Hex; [discriminate |].
  intros [= <- <-]. exists c, a. eexists.
  split; [reflexivity |]. split; [exact Ha |]. split; [reflexivity |].
  split; [reflexivity |]. split; [exists cv; split; [reflexivity | exact E3] |].
  split; [reflexivity |]. cbn [tk_client_id tk_knowledge_base_id tk_user_id tk_scopes
                               tk_access_token_hash tk_refresh_token_hash tk_expires_at
                               tk_refresh_expires_at tk_subscription_id
                               scope expires_in access_token refresh_token].
  repeat (split; [reflexivity |]).
  intros r Hin E.
  cbn [oauth_tokens mark_code_used with_codes] in Hex.
  assert (Ht : existsb
                 (fun r => String.eqb (tk_id r) (uuid env)
                           || hash_clash r
                                (hashToken (generateAccessToken (cd_knowledge_base_id a)
                                              (random_a env)))
                                (Some (hashToken (generateRefreshToken
                                                    (cd_knowledge_base_id a)
                                                    (random_b env)))))
                 (oauth_tokens s) = true).
  { apply existsb_exists. exists r. split; [assumption |].
    unfold hash_clash. rewrite E, String.eqb_refl. cbn. apply orb_true_r. }
  congruence.
Qed.


(** X11. The exchange of a code for tokens succeeds only for the request
    that names the client and the redirect address the code was issued
    with and whose verifier answers the stored challenge; the token row it
    writes carries the client, repository, user and scopes of the code,
    expires in an hour (the refresh token in thirty days) and links no
    subscription.
    No earlier row carries the hash of the new access token. *)
Theorem exchange_checks_the_binding
    (env : Env) (s s' : Store) (body : Body) (tb : TokenBody) :
  handleAuthorizationCode url_hostname env s body = (s', TokenJson tb) ->
  exists c a row,
    nonempty (code body) = Some c
    /\ Js.single (List.filter (unused_with (hashToken c)) (oauth_codes s)) = Some a
    /\ nonempty (client_id body) = Some (cd_client_id a)
    /\ nonempty (redirect_uri body) = Some (cd_redirect_uri a)
    /\ (exists v, nonempty (code_verifier body) = Some v
                  /\ validateCodeChallenge v (Js.or_else (cd_code_challenge a) "")
                       (Js.or_else (cd_code_challenge_method a) "S256") = true)
    /\ s' = with_tokens (oauth_tokens s ++ [row])
                        (mark_code_used s (cd_id a) (now env))
    /\ tk_client_id row = cd_client_id a
    /\ tk_knowledge_base_id row = cd_knowledge_base_id a
    /\ tk_user_id row = cd_user_id a
    /\ tk_scopes row = cd_scopes a
    /\ tk_access_token_hash row = hashToken (access_token tb)
    /\ tk_refresh_token_hash row = Some (hashToken (refresh_token tb))
    /\ tk_expires_at row = (now env + 3600 * 1000)%Z
    /\ tk_refresh_expires_at row = Some (now env + 2592000 * 1000)%Z
    /\ tk_subscription_id row = None
    /\ scope tb = Js.join_sp (cd_scopes a)
    /\ expires_in tb = 3600
    /\ access_token tb = generateAccessToken (cd_knowledge_base_id a) (random_a env)
    /\ (forall r, In r (oauth_tokens s) ->
                  tk_access_token_hash r <> hashToken (access_token tb)).
Proof. exact (exchange_issued env s s' body tb). Qed.

End AuthorizeFacts.

(* ===================================================================== *)
(** * The token, revocation and client endpoints                          *)
(* ===================================================================== *)

Section TokenFacts.
Import Db OAuth Routes Trace.
Variable url_hostname : string -> option string.

(** X12. A refresh token past its expiry is refused with [invalid_grant]
    and its row is deleted, so the access token of the row goes with it
    and the refresh token matches nothing afterwards.  A refresh token
    presented with the [client_id] of another client is refused too, and
    then nothing is written. *)
Theorem stale_refresh_token_is_purged
    (env : Env) (s : Store) (body : Body) (old : string) (existing : OAuthToken) :
  nonempty (b_refresh_token body) = Some old ->
  Js.single (List.filter (refresh_with (hashToken old)) (oauth_tokens s)) = Some existing ->
  ((exists e, tk_refresh_expires_at existing = Some e /\ (e < now env)%Z) ->
   snd (handleRefreshToken url_hostname env s body)
   = ErrorJson 400 "invalid_grant" "Refresh token has expired"
   /\ oauth_tokens (fst (handleRefreshToken url_hostname env s body))
      = List.filter (fun r => negb (String.eqb (tk_id r) (tk_id existing))) (oauth_tokens s)
   /\ retired (hashToken old) (fst (handleRefreshToken url_hostname env s body)))
  /\
  ((forall e, tk_refresh_expires_at existing = Some e -> (now env <= e)%Z) ->
   (exists ci, nonempty (client_id body) = Some ci /\ ci <> tk_client_id existing) ->
   handleRefreshToken url_hostname env s body
   = (s, ErrorJson 400 "invalid_grant" "Client ID mismatch")).
Proof.
  intros Hn Hs. unfold handleRefreshToken. rewrite !oauthError_plain, Hn.
  change (fun r => opt_eqb (tk_refresh_token_hash r) (hashToken old))
    with (refresh_with (hashToken old)).
  rewrite Hs. split.
  - intros [e [He Hlt]]. rewrite He. apply Z.ltb_lt in Hlt. rewrite Hlt.
    cbn [fst snd delete_tokens oauth_tokens with_tokens].
    split; [reflexivity |]. split; [reflexivity |].
    intros r Hin Hr. apply filter_In in Hin as [Hin Hid].
    assert (Hm : In r (List.filter (refresh_with (hashToken old)) (oauth_tokens s))).
    { apply filter_In. split; [assumption |]. unfold refresh_with. rewrite Hr.
      cbn. apply String.eqb_refl. }
    rewrite (single_In _ _ Hs) in Hm. destruct Hm as [<- | []].
    rewrite String.eqb_refl in Hid. discriminate.
  - intros Hfresh [ci [Hci Hne]].
    replace (match tk_refresh_expires_at existing with
             | Some e => (e <? now env)%Z | None => false end) with false.
    2: { destruct (tk_refresh_expires_at existing) as [e |]; [| reflexivity].
         symmetry. apply Z.ltb_ge. now apply Hfresh. }
    rewrite Hci. apply not_eq_sym, String.eqb_neq in Hne. now rewrite Hne.
Qed.

(** X13. The token endpoint neither reads nor writes the client table:
    with any other client rows in the store it answers the same and leaves
    the same codes and tokens, and the client rows as they were. *)
Theorem token_endpoint_ignores_clients
    (env : Env) (s : Store) (req : Post) (clients : list OAuthClient) :
  token_POST url_hostname env (with_clients clients s) req
  = (with_clients clients (fst (token_POST url_hostname env s req)),
     snd (token_POST url_hostname env s req)).
Proof.
  unfold token_POST, handleAuthorizationCode, handleRefreshToken,
    insert_token, rotate_token, delete_tokens, mark_code_used.
  cbn [oauth_codes oauth_tokens with_clients with_codes with_tokens].
  repeat case_match; simplify_eq; reflexivity.
Qed.

(** Rows that a deletion leaves. *)
Lemma delete_tokens_In (s : Store) (p : OAuthToken -> bool) (r : OAuthToken) :
  In r (oauth_tokens (fst (delete_tokens s p))) <-> In r (oauth_tokens s) /\ p r = false.
Proof.
  unfold delete_tokens. cbn. rewrite filter_In, negb_true_iff. reflexivity.
Qed.

Lemma revoke_tokens (s : Store) (req : Post) (body : Body) (tok : string) :
  supported_content_type (content_type req) = true ->
  parsed req = Some body ->
  token body = Some tok ->
  tok <> "" ->
  fst (revoke_POST url_hostname s req)
  = if opt_eqb (token_type_hint body) "refresh_token" then
      fst (delete_tokens s (fun r => opt_eqb (tk_refresh_token_hash r) (hashToken tok)))
    else if (length (List.filter
                       (fun r => String.eqb (tk_access_token_hash r) (hashToken tok))
                       (oauth_tokens s)) =? 0)%nat
    then fst (delete_tokens
                (fst (delete_tokens s
                        (fun r => String.eqb (tk_access_token_hash r) (hashToken tok))))
                (fun r => opt_eqb (tk_refresh_token_hash r) (hashToken tok)))
    else fst (delete_tokens s
                (fun r => String.eqb (tk_access_token_hash r) (hashToken tok))).
Proof.
  intros Hct Hp Ht Hne. unfold revoke_POST.
  rewrite Hct, Hp, Ht, (nonempty_Some _ Hne). cbn [negb].
  destruct (opt_eqb (token_type_hint body) "refresh_token"); [reflexivity |].
  cbn [delete_tokens].
  destruct (length _ =? 0)%nat; reflexivity.
Qed.

(** X14. After the revocation of an access token (sent without the
    [refresh_token] hint) no row carries its hash: the gateway's
    validation answers [Invalid access token], and every request that
    presents the token is answered 401 and changes nothing. *)
Theorem revoked_access_token_is_refused
    (s : Store) (req : Post) (body : Body) (tok : string) :
  supported_content_type (content_type req) = true ->
  parsed req = Some body ->
  token body = Some tok ->
  tok <> "" ->
  token_type_hint body <> Some "refresh_token" ->
  (forall r, In r (oauth_tokens (fst (revoke_POST url_hostname s req))) ->
             tk_access_token_hash r <> hashToken tok)
  /\ (forall now,
        Worker.validateAccessToken now (fst (revoke_POST url_hostname s req))
          (Worker.hashToken tok)
        = (fst (revoke_POST url_hostname s req),
           Worker.Returned (Worker.invalid "Invalid access token")))
  /\ (forall now kv0 greq slug,
        Worker.method greq = "POST" ->
        Worker.mcp_slug (Worker.path greq) = Some slug ->
        Shape.bearer_header (Worker.authorization greq) tok ->
        Worker.status
          (snd (Worker.fetch now
                  {| Worker.db := fst (revoke_POST url_hostname s req);
                     Worker.kv := kv0 |} greq)) = 401
        /\ fst (Worker.fetch now
                  {| Worker.db := fst (revoke_POST url_hostname s req);
                     Worker.kv := kv0 |} greq)
           = {| Worker.db := fst (revoke_POST url_hostname s req); Worker.kv := kv0 |}).
Proof.
  intros Hct Hp Ht Hne Hhint.
  assert (Hgone : forall r, In r (oauth_tokens (fst (revoke_POST url_hostname s req))) ->
                            tk_access_token_hash r <> hashToken tok).
  { intros r. rewrite (revoke_tokens s req body tok Hct Hp Ht Hne).
    rewrite (opt_eqb_false _ _ Hhint).
    destruct (length _ =? 0)%nat.
    - rewrite !delete_tokens_In. intros [[_ H] _]. now apply String.eqb_neq.
    - rewrite delete_tokens_In. intros [_ H]. now apply String.eqb_neq. }
  assert (Hval : forall now,
            Worker.validateAccessToken now (fst (revoke_POST url_hostname s req))
              (Worker.hashToken tok)
            = (fst (revoke_POST url_hostname s req),
               Worker.Returned (Worker.invalid "Invalid access token"))).
  { intros now. unfold Worker.validateAccessToken.
    replace (List.filter _ (oauth_tokens (fst (revoke_POST url_hostname s req))))
      with (@nil OAuthToken); [reflexivity |].
    symmetry. induction (oauth_tokens (fst (revoke_POST url_hostname s req)))
      as [| r l IH]; [reflexivity |].
    cbn [List.filter].
    destruct (String.eqb (tk_access_token_hash r) (Worker.hashToken tok)) eqn:E.
    - apply String.eqb_eq in E. exfalso. apply (Hgone r); [now left | exact E].
    - apply IH. intros r' Hin. apply Hgone. now right. }
  split; [exact Hgone |]. split; [exact Hval |].
  intros now kv0 greq slug Hm Hslug Hb.
  set (s' := fst (revoke_POST url_hostname s req)) in *.
  assert (Hv : exists msg,
            Worker.validateToken now s' (Worker.authorization greq) slug
            = (s', Worker.Returned (Worker.invalid msg))).
  { rewrite (validateToken_bearer _ _ _ _ _ Hb).
    destruct (Worker.getKnowledgeBaseBySlug s' slug); [| eexists; reflexivity].
    rewrite Hval. eexists. reflexivity. }
  destruct Hv as [msg Hv].
  rewrite (fetch_unauthorized now {| Worker.db := s'; Worker.kv := kv0 |} greq slug msg
             (or_introl Hm) Hslug Hv).
  split; reflexivity.
Qed.

(** X15. The [refresh_token] hint is followed to the letter: with it only
    rows whose refresh hash matches are deleted, so an access token that is
    sent with that hint stays in the store, and the answer is 200 all the
    same. *)
Theorem refresh_hint_spares_access_tokens
    (s : Store) (req : Post) (body : Body) (tok : string) :
  supported_content_type (content_type req) = true ->
  parsed req = Some body ->
  token body = Some tok ->
  tok <> "" ->
  token_type_hint body = Some "refresh_token" ->
  snd (revoke_POST url_hostname s req) = Empty 200
  /\ forall r, In r (oauth_tokens (fst (revoke_POST url_hostname s req)))
               <-> In r (oauth_tokens s)
                   /\ tk_refresh_token_hash r <> Some (hashToken tok).
Proof.
  intros Hct Hp Ht Hne Hhint.
  split; [exact (revoke_response url_hostname s req body tok Hct Hp Ht Hne) |].
  intros r. rewrite (revoke_tokens s req body tok Hct Hp Ht Hne), Hhint.
  cbn [opt_eqb]. rewrite String.eqb_refl, delete_tokens_In.
  split; intros [Hin H]; (split; [assumption |]).
  - intros E. rewrite E in H. cbn in H. now rewrite String.eqb_refl in H.
  - destruct (tk_refresh_token_hash r) as [x |]; [| reflexivity]. cbn.
    apply String.eqb_neq. congruence.
Qed.

(** X16. The soft deletion of a client.  Whoever the signed-in user is,
    every token row of that [client_id] is deleted and the other token
    rows stay; the client rows of that id are marked revoked where the user
    owns them and left as they were where the user does not.  When the
    user owns every row of that id, the authorization endpoint issues no
    code for the client afterwards. *)
Theorem client_deletion_effect
    (env : Env) (s : Store) (user : string) (body : Body) (clientId : string) :
  nonempty (client_id body) = Some clientId ->
  snd (clients_DELETE url_hostname env s (Some user) (Some body)) = Empty 204
  /\ (forall r, In r (oauth_tokens
                       (fst (clients_DELETE url_hostname env s (Some user) (Some body))))
                <-> In r (oauth_tokens s) /\ tk_client_id r <> clientId)
  /\ (forall c, In c (oauth_clients s) ->
                 oc_client_id c <> clientId \/ oc_user_id c <> user ->
                 In c (oauth_clients
                         (fst (clients_DELETE url_hostname env s (Some user) (Some body)))))
  /\ (forall c, In c (oauth_clients
                        (fst (clients_DELETE url_hostname env s (Some user) (Some body)))) ->
                 oc_client_id c = clientId -> oc_user_id c = user ->
                 oc_revoked_at c = Some (now env))
  /\ ((forall c, In c (oauth_clients s) -> oc_client_id c = clientId ->
                 oc_user_id c = user) ->
      forall env2 q,
        nonempty (q_client_id q) = Some clientId ->
        forall uri issued st,
          snd (authorize url_hostname env2
                 (fst (clients_DELETE url_hostname env s (Some user) (Some body))) q)
          <> CodeRedirect uri issued st).
Proof.
  intros Hc. unfold clients_DELETE. rewrite Hc. cbn [fst snd].
  split; [reflexivity |]. split; [| split; [| split]].
  - intros r. rewrite delete_tokens_In. cbn [oauth_tokens revoke_client with_clients].
    split; intros [Hin H]; (split; [assumption |]).
    + intros E. rewrite E, String.eqb_refl in H. discriminate.
    + now apply String.eqb_neq.
  - intros c Hin Hother.
    cbn [delete_tokens fst oauth_clients with_tokens revoke_client with_clients].
    apply in_map_iff. exists c. split; [| exact Hin].
    replace (String.eqb (oc_client_id c) clientId && String.eqb (oc_user_id c) user)
      with false; [reflexivity |].
    symmetry. apply andb_false_iff.
    destruct Hother as [H | H]; [left | right]; now apply String.eqb_neq.
  - intros c Hin Hid Hu.
    cbn [delete_tokens fst oauth_clients with_tokens revoke_client with_clients] in Hin.
    apply in_map_iff in Hin as [c0 [Hc0 Hin0]].
    destruct (String.eqb (oc_client_id c0) clientId && String.eqb (oc_user_id c0) user)
      eqn:E.
    + subst c. reflexivity.
    + subst c. exfalso. apply andb_false_iff in E as [E | E];
        apply String.eqb_neq in E; contradiction.
  - intros Hown env2 q Hq.
    apply (authorize_rejects_revoked url_hostname env2 _ q clientId Hq).
    intros c Hin Hid. cbn [delete_tokens fst oauth_clients with_tokens revoke_client
                           with_clients] in Hin.
    apply in_map_iff in Hin as [c0 [Hc0 Hin0]].
    destruct (String.eqb (oc_client_id c0) clientId && String.eqb (oc_user_id c0) user)
      eqn:E.
    + subst c. discriminate.
    + subst c. exfalso. apply andb_false_iff in E as [E | E];
        apply String.eqb_neq in E; [contradiction |].
      apply E. now apply Hown.
Qed.

End TokenFacts.

(* ===================================================================== *)
(** * Client registration                                                 *)
(* ===================================================================== *)

Section RegistrationFacts.
Import Db OAuth Routes Clients.
Variable url_hostname : string -> option string.

(** What a 201 answer of the registration implies. *)
Lemma registration_created
    (env : Env) (s s' : Store) (user : option string) (body : option Registration)
    (cid secret : string) (uris scopes : list string) (slug : string) :
  POST url_hostname env s user body = (s', Created cid secret uris scopes slug) ->
  exists u b kb row,
    user = Some u /\ body = Some b
    /\ In kb (knowledge_bases s)
    /\ nonempty (r_knowledge_base_id b) = Some (kb_id kb)
    /\ kb_user_id kb = u
    /\ kb_slug kb = slug
    /\ cid = generateClientId (random_a env)
    /\ secret = generateClientSecret (random_b env)
    /\ (forall c, In c (oauth_clients s) -> oc_client_id c <> cid)
    /\ s' = with_clients (oauth_clients s ++ [row]) s
    /\ row = {| oc_client_id := cid;
                oc_client_secret_hash := hashToken secret;
                oc_knowledge_base_id := kb_id kb;
                oc_user_id := u;
                oc_redirect_uris := uris;
                oc_scopes := scopes;
                oc_revoked_at := None |}
    /\ scopes = match r_scopes b with
                | Some l => List.filter (Js.includes_str DEFAULT_SCOPES) l
                | None => DEFAULT_SCOPES
                end
    /\ uris = match r_redirect_uris b with
              | Some l => List.filter (fun uri => negb (is_null (url_hostname uri))) l
              | None => []
              end.
Proof.
  unfold POST. destruct user as [u |]; [| discriminate].
  destruct body as [b |]; [| discriminate].
  rewrite !oauthError_plain.
  destruct (nonempty (r_knowledge_base_id b)) as [kbid |] eqn:Hk; [| discriminate].
  destruct (nonempty (r_name b)) as [name |]; [| discriminate].
  destruct (Js.single (List.filter _ (knowledge_bases s))) as [kb |] eqn:Hkb;
    [| discriminate].
  apply single_In in Hkb.
  assert (Hin : In kb (List.filter
                         (fun kb => String.eqb (kb_id kb) kbid
                                    && String.eqb (kb_user_id kb) u)
                         (knowledge_bases s))) by (rewrite Hkb; now left).
  apply filter_In in Hin as [Hin Hp]. apply andb_true_iff in Hp as [Hid Hown].
  apply String.eqb_eq in Hid, Hown. subst kbid.
  unfold insert_client. cbn [oc_client_id].
  destruct (existsb _ (oauth_clients s)) eqn:Hex; [discriminate |].
  intros [= <- <- <- <- <- <-].
  exists u, b, kb. eexists.
  repeat (split; [first [reflexivity | assumption] |]).
  split.
  - intros c Hc E.
    assert (Ht : existsb (fun c => String.eqb (oc_client_id c)
                                     (generateClientId (random_a env)))
                         (oauth_clients s) = true).
    { apply existsb_exists. exists c. split; [assumption |]. now apply String.eqb_eq. }
    congruence.
  - repeat split.
Qed.

(** X17. A client is registered only for a repository that the signed-in
    user owns.  The row written carries a fresh, unused [client_id], the
    hash of the secret and not the secret, no revocation time, the
    redirect addresses of the request that parse as URLs, and the scopes of
    the request that are scope names (all three when the request names no
    scopes). *)
Theorem registered_client_is_vetted
    (env : Env) (s s' : Store) (user : option string) (body : option Registration)
    (cid secret : string) (uris scopes : list string) (slug : string) :
  POST url_hostname env s user body = (s', Created cid secret uris scopes slug) ->
  exists u b kb row,
    user = Some u /\ body = Some b
    /\ In kb (knowledge_bases s)
    /\ nonempty (r_knowledge_base_id b) = Some (kb_id kb)
    /\ kb_user_id kb = u
    /\ (forall c, In c (oauth_clients s) -> oc_client_id c <> cid)
    /\ s' = with_clients (oauth_clients s ++ [row]) s
    /\ oc_client_id row = cid
    /\ oc_client_secret_hash row = hashToken secret
    /\ oc_knowledge_base_id row = kb_id kb
    /\ oc_user_id row = u
    /\ oc_revoked_at row = None
    /\ oc_redirect_uris row = uris
    /\ oc_scopes row = scopes
    /\ (forall x, In x scopes -> In x DEFAULT_SCOPES)
    /\ (forall x, In x uris -> url_hostname x <> None).
Proof.
  intros H.
  destruct (registration_created _ _ _ _ _ _ _ _ _ _ H)
    as [u [b [kb [row [-> [-> [Hin [Hk [Hown [_ [_ [_ [Hfresh [-> [-> [Hsc Huris]]]]]]]]]]]]]]]].
  exists u, b, kb. eexists.
  repeat (split; [first [reflexivity | assumption] |]).
  split.
  - intros x Hx. rewrite Hsc in Hx. destruct (r_scopes b) as [l |]; [| assumption].
    apply filter_In in Hx as [_ Hx]. now apply includes_str_In in Hx.
  - intros x Hx. rewrite Huris in Hx. destruct (r_redirect_uris b) as [l |]; [| destruct Hx].
    apply filter_In in Hx as [_ Hx]. now destruct (url_hostname x).
Qed.

(** X18. A registration whose [scopes] array holds no scope name (an
    empty array, say) is accepted and gives the client no scopes at all;
    the default scopes are used only when the field is absent.  The
    authorization endpoint then issues no code for that client, whatever
    the request. *)
Theorem scopeless_client_cannot_authorize
    (env : Env) (s s' : Store) (user : option string) (body : Registration)
    (cid secret : string) (uris scopes l : list string) (slug : string) :
  POST url_hostname env s user (Some body) = (s', Created cid secret uris scopes slug) ->
  r_scopes body = Some l ->
  (forall x, In x l -> ~ In x DEFAULT_SCOPES) ->
  scopes = []
  /\ forall env2 q uri issued st,
       nonempty (q_client_id q) = Some cid ->
       snd (authorize url_hostname env2 s' q) <> CodeRedirect uri issued st.
Proof.
  intros H Hl Hnone.
  destruct (registration_created _ _ _ _ _ _ _ _ _ _ H)
    as [u [b [kb [row [_ [[= <-] [_ [_ [_ [_ [_ [_ [Hfresh [Hs' [Hrow [Hsc _]]]]]]]]]]]]]]]].
  rewrite Hl in Hsc.
  assert (Hempty : scopes = []).
  { rewrite Hsc. clear - Hnone. induction l as [| x l IH]; [reflexivity |].
    cbn [List.filter].
    destruct (Js.includes_str DEFAULT_SCOPES x) eqn:E.
    - apply includes_str_In in E. exfalso. apply (Hnone x); [now left | exact E].
    - apply IH. intros y Hy. apply Hnone. now right. }
  split; [exact Hempty |].
  intros env2 q uri issued st Hq Hcode.
  destruct (authorize url_hostname env2 s' q) as [s2 r] eqn:Ha. cbn [snd] in Hcode.
  subst r.
  destruct (authorize_issued _ _ _ _ _ _ _ _ Ha)
    as [user' [client [kb' [row' [_ [Hin [Hid [_ [_ [_ [_ [_ [_ [_ [_ [_ [_ [_ [_ [_
         [Hne Hsub]]]]]]]]]]]]]]]]]]]]].
  rewrite Hq in Hid. injection Hid as Hid.
  rewrite Hs' in Hin. cbn [oauth_clients with_clients] in Hin.
  apply in_app_iff in Hin as [Hin | [<- | []]].
  - now apply (Hfresh client Hin).
  - destruct (cd_scopes row') as [| x rest]; [now apply Hne |].
    destruct (Hsub x (or_introl eq_refl)) as [Hx _].
    rewrite Hrow in Hx. cbn [oc_scopes] in Hx. rewrite Hempty in Hx. destruct Hx.
Qed.

End RegistrationFacts.

(* ===================================================================== *)
(** * Subscription status and access                                      *)
(* ===================================================================== *)

Section StatusFacts.
Import Db Entitlement Subscriptions.

Lemma live_in_subscriptions s knowledgeBaseId userId sub :
  In sub (live_subscriptions s knowledgeBaseId userId) ->
  In sub (subscriptions_of s knowledgeBaseId userId)
  /\ (status_eqb (sub_status sub) Active || status_eqb (sub_status sub) Trialing) = true.
Proof.
  unfold live_subscriptions, subscriptions_of. rewrite !filter_In.
  intros [Hin Hp]. apply andb_true_iff in Hp as [Hp Hl]. auto.
Qed.

(** X19. [getSubscriptionStatus] and [hasKBAccess] answer the same
    question with different tests.  Whoever [hasKBAccess] lets in is
    reported as subscribed (the pair of repository and subscriber having
    at most one row, as the table's UNIQUE constraint ensures).  The
    converse fails: the status ignores the period end, the visibility and
    the gateway switch, so a subscriber whose period has ended, and anyone
    looking at a free repository that is private, is reported as
    subscribed and yet denied. *)
Theorem status_and_access_differ :
  (forall (now : Z) (s : Store) (knowledgeBaseId userId : string),
      hasAccess (hasKBAccess now s knowledgeBaseId userId) = true ->
      (length (subscriptions_of s knowledgeBaseId userId) <= 1)%nat ->
      isSubscribed (getSubscriptionStatus s knowledgeBaseId userId) = true)
  /\
  (forall (now : Z) (s : Store) (knowledgeBaseId userId : string)
          (kb : KnowledgeBase) (sub : Subscription) (e : Z),
      kb_lookup s knowledgeBaseId = Some kb ->
      kb_user_id kb <> userId ->
      kb_pricing_model kb = Paid ->
      subscriptions_of s knowledgeBaseId userId = [sub] ->
      sub_status sub = Active \/ sub_status sub = Trialing ->
      sub_current_period_end sub = Some e ->
      (e < now)%Z ->
      isSubscribed (getSubscriptionStatus s knowledgeBaseId userId) = true
      /\ hasAccess (hasKBAccess now s knowledgeBaseId userId) = false)
  /\
  (forall (now : Z) (s : Store) (knowledgeBaseId userId : string) (kb : KnowledgeBase),
      kb_lookup s knowledgeBaseId = Some kb ->
      kb_user_id kb <> userId ->
      kb_pricing_model kb = Free ->
      kb_visibility kb = Private \/ kb_mcp_enabled kb = false ->
      isSubscribed (getSubscriptionStatus s knowledgeBaseId userId) = true
      /\ hasAccess (hasKBAccess now s knowledgeBaseId userId) = false).
Proof.
  split; [| split].
  - intros now s kbid user. unfold hasKBAccess, getSubscriptionStatus.
    destruct (Js.single (List.filter _ (knowledge_bases s))) as [kb |]; [| discriminate].
    destruct (String.eqb (kb_user_id kb) user); [reflexivity |].
    destruct (negb (visibility_eqb (kb_visibility kb) Public) || negb (kb_mcp_enabled kb));
      [discriminate |].
    destruct (pricing_eqb (kb_pricing_model kb) Free); [reflexivity |].
    cbn [orb].
    destruct (Js.single (live_subscriptions s kbid user)) as [sub |] eqn:Hl;
      [| discriminate].
    intros _ Hlen. apply single_In in Hl.
    assert (Hin : In sub (live_subscriptions s kbid user)) by (rewrite Hl; now left).
    apply live_in_subscriptions in Hin as [Hin Hlive].
    destruct (subscriptions_of s kbid user) as [| x [| y rest]]; cbn in Hlen;
      [destruct Hin | | lia].
    destruct Hin as [-> | []]. cbn. exact Hlive.
  - intros now s kbid user kb sub e Hk Hne Hp Hof Hst He Hlt. split.
    + unfold getSubscriptionStatus. unfold kb_lookup in Hk. rewrite Hk.
      rewrite (string_neqb _ _ Hne), Hp, Hof. cbn.
      destruct Hst as [-> | ->]; reflexivity.
    + apply (paid_resolver_denies now s kbid user kb Hk Hne Hp).
      intros sub' Hin Hkb Hu. right.
      assert (Hin' : In sub' (subscriptions_of s kbid user)).
      { apply filter_In. split; [assumption |].
        now rewrite Hkb, Hu, !String.eqb_refl. }
      rewrite Hof in Hin'. destruct Hin' as [<- | []]. exists e. auto.
  - intros now s kbid user kb Hk Hne Hp Hclosed. split.
    + unfold getSubscriptionStatus. unfold kb_lookup in Hk. rewrite Hk.
      rewrite (string_neqb _ _ Hne), Hp. reflexivity.
    + rewrite (closed_denied now s kbid user kb Hk Hne); [reflexivity |].
      destruct Hclosed as [H | H]; [left; congruence | now right].
Qed.

End StatusFacts.

(* ===================================================================== *)
(** * The billing webhook                                                 *)
(* ===================================================================== *)

Section WebhookFacts.
Import Db Entitlement Webhook.

Lemma mapStripeStatus_live (st : string) :
  mapStripeStatus st = Active \/ mapStripeStatus st = Trialing
  <-> st = "active" \/ st = "trialing".
Proof.
  unfold mapStripeStatus.
  destruct (String.eqb st "active") eqn:E1.
  { apply String.eqb_eq in E1. tauto. }
  destruct (String.eqb st "trialing") eqn:E2.
  { apply String.eqb_eq in E2. tauto. }
  apply String.eqb_neq in E1, E2.
  destruct (String.eqb st "past_due");
    [| destruct (String.eqb st "canceled" || String.eqb st "unpaid")];
    (split; [intros [H | H]; discriminate | tauto]).
Qed.

(** A date of the years 1 to 9999 converts. *)
Lemma iso_or_null_plain (o : option Z) :
  (forall p, o = Some p -> plain_year (p * 1000) = true) ->
  iso_or_null o = Worker.Returned (period_end o).
Proof.
  intros H. unfold period_end, iso_or_null. destruct o as [p |]; [| reflexivity].
  destruct (p =? 0)%Z; [reflexivity |].
  specialize (H p eq_refl). unfold plain_year in H.
  apply andb_true_iff in H as [H1 H2]. apply Z.leb_le in H1, H2.
  replace (Z.abs (p * 1000) <=? MAX_TIME)%Z with true; [reflexivity |].
  symmetry. apply Z.leb_le. unfold MAX_TIME. lia.
Qed.

(** A date beyond the range of [Date] does not. *)
Lemma iso_or_null_beyond (p : Z) :
  (MAX_TIME < Z.abs (p * 1000))%Z -> iso_or_null (Some p) = Worker.Raised.
Proof.
  intros H. unfold iso_or_null.
  destruct (p =? 0)%Z eqn:E.
  { apply Z.eqb_eq in E. subst p. unfold MAX_TIME in H. cbn in H. lia. }
  replace (Z.abs (p * 1000) <=? MAX_TIME)%Z with false; [reflexivity |].
  symmetry. apply Z.leb_gt. exact H.
Qed.

(** What an event that cuts [x] does to the ledger. *)
Lemma cut_ledger (fresh : string) (l : Ledger) (d : Delivery) (event : Event) (x : string) :
  secret_configured d = true ->
  Js.truthy_opt (signature d) = true ->
  constructed d = Some event ->
  x <> "" ->
  cuts event x ->
  plain_dates event ->
  exists g : Billed -> Billed,
    POST fresh l d = (map g l, 200)
    /\ (forall b, sub_id (row (g b)) = sub_id (row b)
                  /\ sub_knowledge_base_id (row (g b)) = sub_knowledge_base_id (row b)
                  /\ sub_subscriber_id (row (g b)) = sub_subscriber_id (row b)
                  /\ stripe_subscription_id (g b) = stripe_subscription_id b)
    /\ (forall b, stripe_subscription_id b = Some x ->
                  sub_status (row (g b)) <> Active /\ sub_status (row (g b)) <> Trialing)
    /\ (forall b, stripe_subscription_id b <> Some x -> g b = b).
Proof.
  intros Hs Hsig Hev Hx Hcut Hplain. unfold POST. rewrite Hs, Hsig, Hev. cbn [negb].
  assert (Hyes : forall b, stripe_subscription_id b = Some x ->
                           opt_eqb (stripe_subscription_id b) x = true).
  { intros b ->. cbn. apply String.eqb_refl. }
  assert (Hno : forall b, stripe_subscription_id b <> Some x ->
                          opt_eqb (stripe_subscription_id b) x = false).
  { intros b H. now apply opt_eqb_false. }
  assert (Hsame : forall (b : Billed) st e (c : bool),
             let gb := if c then set_status b st e else b in
             sub_id (row gb) = sub_id (row b)
             /\ sub_knowledge_base_id (row gb) = sub_knowledge_base_id (row b)
             /\ sub_subscriber_id (row gb) = sub_subscriber_id (row b)
             /\ stripe_subscription_id gb = stripe_subscription_id b).
  { intros b st e []; cbn; auto. }
  destruct event as [session retrieved | sub | sub | o |]; cbn in Hcut;
    try contradiction.
  - destruct Hcut as [<- [Ha Ht]]. cbn [plain_dates] in Hplain.
    unfold handleSubscriptionUpdate.
    rewrite (iso_or_null_plain (ss_period_start sub)),
            (iso_or_null_plain (ss_period_end sub)),
            (iso_or_null_plain (ss_canceled_at sub)).
    2-4: intros p Hp; apply Hplain; rewrite <- Hp; cbn; auto.
    eexists. split; [reflexivity |]. split; [intros b; apply Hsame |]. split.
    + intros b Hb. rewrite (Hyes b Hb). cbn.
      pose proof (mapStripeStatus_live (ss_status sub)) as Hl. tauto.
    + intros b Hb. now rewrite (Hno b Hb).
  - subst x. eexists. split; [reflexivity |]. split; [intros b; apply Hsame |]. split.
    + intros b Hb. rewrite (Hyes b Hb). cbn. split; discriminate.
    + intros b Hb. now rewrite (Hno b Hb).
  - subst o. unfold handlePaymentFailed. rewrite (or_undefined_Some x Hx).
    eexists. split; [reflexivity |]. split; [intros b; apply Hsame |]. split.
    + intros b Hb. rewrite (Hyes b Hb). cbn. split; discriminate.
    + intros b Hb. now rewrite (Hno b Hb).
Qed.

(** X20. When the billing processor reports that a subscription no longer
    pays (a failed payment, a deletion, or a status other than active and
    trialing) and the dates of the report, if any, fall in the years 1 to
    9999, the answer is 200 and every row linked to that Stripe
    subscription stops being live, the other rows staying as they were.
    From then on the gateway refuses, on a paid repository, every token of
    a non-owner that is linked to such a row, and the resolver denies the
    subscriber all of whose rows for the repository are linked to it.
    When a date of the report is beyond the range of [Date], the
    conversion throws: the answer is 500 and no row is changed, so a row
    that was live stays live. *)
Theorem billing_event_cuts_access
    (fresh : string) (l : Ledger) (d : Delivery) (event : Event) (x : string)
    (now : Z) (s : Store) :
  secret_configured d = true ->
  Js.truthy_opt (signature d) = true ->
  constructed d = Some event ->
  x <> "" ->
  cuts event x ->
  (plain_dates event ->
   snd (POST fresh l d) = 200
   /\ (forall b, In b l -> stripe_subscription_id b <> Some x ->
                 In b (fst (POST fresh l d)))
   /\ (forall b, In b l -> stripe_subscription_id b = Some x ->
                 Traffic.lapsed now (store_of (fst (POST fresh l d)) s)
                                (Some (sub_id (row b))))
   /\ (forall b tokenHash token kb,
         In b l -> stripe_subscription_id b = Some x ->
         Js.single (List.filter (fun r => String.eqb (tk_access_token_hash r) tokenHash)
                                (oauth_tokens s)) = Some token ->
         kb_by_id s (tk_knowledge_base_id token) = Some kb ->
         kb_pricing_model kb = Paid ->
         tk_user_id token <> kb_user_id kb ->
         tk_subscription_id token = Some (sub_id (row b)) ->
         exists msg,
           Worker.validateAccessToken now (store_of (fst (POST fresh l d)) s) tokenHash
           = (store_of (fst (POST fresh l d)) s, Worker.Returned (Worker.invalid msg)))
   /\ (forall knowledgeBaseId userId kb,
         kb_lookup s knowledgeBaseId = Some kb ->
         kb_user_id kb <> userId ->
         kb_pricing_model kb = Paid ->
         (forall b, In b l -> of_pair knowledgeBaseId userId b = true ->
                    stripe_subscription_id b = Some x) ->
         hasAccess (hasKBAccess now (store_of (fst (POST fresh l d)) s)
                                knowledgeBaseId userId) = false))
  /\ (beyond_dates event -> POST fresh l d = (l, 500)).
Proof.
  intros Hs Hsig Hev Hx Hcut. split.
  2: { intros Hb. unfold POST. rewrite Hs, Hsig, Hev. cbn [negb].
       destruct event as [session retrieved | sub | sub | o |]; cbn in Hb;
         try contradiction.
       destruct Hb as [p [Hin Hp]]. apply iso_or_null_beyond in Hp.
       unfold handleSubscriptionUpdate.
       destruct Hin as [E | [E | [E | []]]]; rewrite E.
       - now rewrite Hp.
       - rewrite Hp. now destruct (iso_or_null (ss_period_start sub)).
       - rewrite Hp. destruct (iso_or_null (ss_period_start sub));
           [destruct (iso_or_null (ss_period_end sub)) |]; reflexivity. }
  intros Hplain.
  destruct (cut_ledger fresh l d event x Hs Hsig Hev Hx Hcut Hplain)
    as [g [-> [Hsame [Hdead Hother]]]].
  cbn [fst snd].
  assert (Hlapsed : forall b, In b l -> stripe_subscription_id b = Some x ->
                      Traffic.lapsed now (store_of (map g l) s) (Some (sub_id (row b)))).
  { intros b Hin Hb. unfold Traffic.lapsed.
    destruct (Js.or_undefined (Some (sub_id (row b)))) as [id |] eqn:Hid; [| exact I].
    assert (id = sub_id (row b)) as ->.
    { cbn in Hid. destruct (Js.truthy (sub_id (row b))); congruence. }
    destruct (Js.single _) as [sub |] eqn:Hsub; [| exact I].
    apply single_In in Hsub.
    assert (Hmem : In (row (g b))
                      (List.filter (fun r => String.eqb (sub_id r) (sub_id (row b)))
                                   (kb_subscriptions (store_of (map g l) s)))).
    { apply filter_In. split.
      - cbn. apply in_map, in_map. exact Hin.
      - destruct (Hsame b) as [-> _]. apply String.eqb_refl. }
    rewrite Hsub in Hmem. destruct Hmem as [-> | []].
    left. now apply Hdead. }
  split; [reflexivity |]. split; [| split; [exact Hlapsed | split]].
  - intros b Hin Hb. apply in_map_iff. exists b. split; [now apply Hother | exact Hin].
  - intros b tokenHash token kb Hin Hb Ht Hkb Hp Hne Hlink.
    apply (validateAccessToken_lapsed now (store_of (map g l) s) tokenHash token kb);
      try assumption.
    rewrite Hlink. now apply Hlapsed.
  - intros kbid user kb Hk Hne Hp Hall.
    apply (paid_resolver_denies now (store_of (map g l) s) kbid user kb Hk Hne Hp).
    intros sub Hin Hkb Hu. left.
    cbn in Hin. apply in_map_iff in Hin as [gb [<- Hin]].
    apply in_map_iff in Hin as [b [<- Hin]].
    destruct (Hsame b) as [_ [Hk' [Hu' _]]]. apply Hdead, Hall; [exact Hin |].
    unfold of_pair. rewrite <- Hk', <- Hu', Hkb, Hu, !String.eqb_refl. reflexivity.
Qed.

Lemma filter_map_none {A B} (p : B -> bool) (f : A -> B) (l : list A) :
  (forall a, In a l -> p (f a) = false) -> List.filter p (map f l) = [].
Proof.
  induction l as [| a l IH]; [reflexivity |]. intros H. cbn.
  rewrite (H a (or_introl eq_refl)). apply IH. intros b Hb. apply H. now right.
Qed.

Lemma existsb_false_filter {A} (p : A -> bool) (l : list A) :
  existsb p l = false -> List.filter p l = [].
Proof.
  induction l as [| a l IH]; [reflexivity |]. cbn.
  destruct (p a); [discriminate |]. exact IH.
Qed.

(** X21. A completed checkout whose subscription is active or trialing and
    whose period has not ended gives the subscriber access to the paid
    repository: the row of the pair is created, or overwritten if there is
    one, and the resolver then grants access with that row's id. *)
Theorem checkout_grants_access
    (fresh : string) (l l' : Ledger) (session : Session)
    (subscription : StripeSubscription) (knowledgeBaseId userId : string)
    (now : Z) (s : Store) (kb : KnowledgeBase) :
  handleCheckoutCompleted fresh l session (Some subscription) = Some l' ->
  Js.or_undefined (meta_knowledge_base_id session) = Some knowledgeBaseId ->
  Js.or_undefined (meta_subscriber_id session) = Some userId ->
  Js.truthy_opt (session_subscription session) = true ->
  ss_status subscription = "active" \/ ss_status subscription = "trialing" ->
  (forall e, period_end (ss_period_end subscription) = Some e -> (now <= e)%Z) ->
  (length (List.filter (of_pair knowledgeBaseId userId) l) <= 1)%nat ->
  kb_lookup s knowledgeBaseId = Some kb ->
  kb_user_id kb <> userId ->
  kb_visibility kb = Public ->
  kb_mcp_enabled kb = true ->
  kb_pricing_model kb = Paid ->
  exists id,
    hasKBAccess now (store_of l' s) knowledgeBaseId userId
    = {| hasAccess := true;
         subscription := Some (id, mapStripeStatus (ss_status subscription)) |}
    /\ (id = fresh \/ exists b, In b l /\ of_pair knowledgeBaseId userId b = true
                                /\ sub_id (row b) = id).
Proof.
  intros H Hk Hu Hsub Hst Hend Hlen Hkb Hne Hv Hm Hp.
  unfold handleCheckoutCompleted in H. rewrite Hk, Hu in H.
  destruct (Js.or_undefined (session_subscription session)) as [x |] eqn:Hx.
  2: { destruct (session_subscription session) as [y |]; [| discriminate].
       cbn in Hsub, Hx. rewrite Hsub in Hx. discriminate. }
  destruct (iso_or_null (ss_period_start subscription)); [| discriminate].
  destruct (iso_or_null (ss_period_end subscription)) as [e0 |] eqn:Eiso;
    [| discriminate].
  assert (He0 : period_end (ss_period_end subscription) = e0)
    by (unfold period_end; now rewrite Eiso).
  rewrite <- He0 in H. clear Eiso He0 e0.
  unfold upsert in H. cbv beta zeta in H.
  destruct (existsb _ l) eqn:Hclash in H; [discriminate |].
  change (existsb (fun b => String.eqb (sub_knowledge_base_id (row b)) knowledgeBaseId
                            && String.eqb (sub_subscriber_id (row b)) userId) l)
    with (existsb (of_pair knowledgeBaseId userId) l) in H.
  set (st := mapStripeStatus (ss_status subscription)) in *.
  set (e := period_end (ss_period_end subscription)) in *.
  assert (Hlive : (status_eqb st Active || status_eqb st Trialing) = true).
  { destruct (proj2 (mapStripeStatus_live (ss_status subscription)) Hst) as [E | E];
      fold st in E; rewrite E; reflexivity. }
  assert (Hgrant : forall sub,
             Js.single (live_subscriptions (store_of l' s) knowledgeBaseId userId)
             = Some sub ->
             sub_status sub = st -> sub_current_period_end sub = e ->
             hasKBAccess now (store_of l' s) knowledgeBaseId userId
             = {| hasAccess := true; subscription := Some (sub_id sub, st) |}).
  { intros sub Hs1 Hs2 Hs3.
    rewrite (paid_allowed_if now (store_of l' s) knowledgeBaseId userId kb sub
               Hkb Hne Hv Hm Hp Hs1); [now rewrite Hs2 |].
    rewrite Hs3. destruct e as [e0 |]; [right; exists e0; auto | now left]. }
  destruct (existsb (of_pair knowledgeBaseId userId) l) eqn:Hex.
  - injection H as <-.
    set (upd := fun b : Billed =>
                  if String.eqb (sub_knowledge_base_id (row b)) knowledgeBaseId
                     && String.eqb (sub_subscriber_id (row b)) userId
                  then {| row := {| sub_id := sub_id (row b);
                                    sub_knowledge_base_id := knowledgeBaseId;
                                    sub_subscriber_id := userId;
                                    sub_status := st;
                                    sub_current_period_end := e |};
                          stripe_subscription_id := Some (ss_id subscription) |}
                  else b) in *.
    assert (Hupd : forall b, of_pair knowledgeBaseId userId b = true ->
               upd b = {| row := {| sub_id := sub_id (row b);
                                    sub_knowledge_base_id := knowledgeBaseId;
                                    sub_subscriber_id := userId;
                                    sub_status := st;
                                    sub_current_period_end := e |};
                          stripe_subscription_id := Some (ss_id subscription) |}).
    { intros b Hb. unfold upd. unfold of_pair in Hb. now rewrite Hb. }
    assert (Hfilter : forall l0 : Ledger,
               live_subscriptions (store_of (map upd l0) s) knowledgeBaseId userId
               = map (fun b => row (upd b))
                     (List.filter (of_pair knowledgeBaseId userId) l0)).
    { intros l0. unfold live_subscriptions, store_of.
      cbn [kb_subscriptions with_subscriptions].
      induction l0 as [| b l0 IH]; [reflexivity |].
      cbn [map List.filter]. rewrite IH.
      destruct (of_pair knowledgeBaseId userId b) eqn:Eb.
      - cbn [map]. rewrite (Hupd b Eb).
        cbn [row sub_knowledge_base_id sub_subscriber_id sub_status].
        rewrite !String.eqb_refl, Hlive. reflexivity.
      - assert (Eu : upd b = b) by (unfold upd; unfold of_pair in Eb; now rewrite Eb).
        rewrite Eu. unfold of_pair in Eb. now rewrite Eb. }
    apply existsb_exists in Hex as [b0 [Hin0 Hb0]].
    assert (Hone : List.filter (of_pair knowledgeBaseId userId) l = [b0]).
    { assert (Hmem : In b0 (List.filter (of_pair knowledgeBaseId userId) l))
        by (apply filter_In; auto).
      destruct (List.filter (of_pair knowledgeBaseId userId) l) as [| y [| z r]];
        cbn in Hlen; [destruct Hmem | | lia].
      destruct Hmem as [-> | []]. reflexivity. }
    exists (sub_id (row b0)). split.
    + rewrite (Hgrant (row (upd b0))).
      * rewrite (Hupd b0 Hb0). reflexivity.
      * rewrite Hfilter, Hone. reflexivity.
      * now rewrite (Hupd b0 Hb0).
      * now rewrite (Hupd b0 Hb0).
    + right. exists b0. auto.
  - destruct (existsb (fun b => String.eqb (sub_id (row b)) fresh) l); [discriminate |].
    injection H as <-. exists fresh. split; [| now left].
    apply (Hgrant {| sub_id := fresh; sub_knowledge_base_id := knowledgeBaseId;
                     sub_subscriber_id := userId; sub_status := st;
                     sub_current_period_end := e |}); [| reflexivity | reflexivity].
    unfold live_subscriptions, store_of. cbn [kb_subscriptions with_subscriptions].
    rewrite List.map_app, List.filter_app. cbn [map List.filter row sub_knowledge_base_id
                                      sub_subscriber_id sub_status].
    rewrite !String.eqb_refl, Hlive. cbn [andb].
    rewrite filter_map_none; [reflexivity |].
    intros b Hb. apply existsb_false_filter in Hex.
    destruct (String.eqb (sub_knowledge_base_id (row b)) knowledgeBaseId
              && String.eqb (sub_subscriber_id (row b)) userId) eqn:E; [| reflexivity].
    exfalso. assert (Hmem : In b (List.filter (of_pair knowledgeBaseId userId) l))
      by (apply filter_In; auto).
    rewrite Hex in Hmem. destruct Hmem.
Qed.

End WebhookFacts.

(* ===================================================================== *)
(** * From the issue of a token to its use                                *)
(* ===================================================================== *)

Section TokenShape.
Import Db OAuth Worker.

Lemma all_chars_append (p : Ascii.ascii -> bool) (a b : string) :
  all_chars p (a +:+ b) = all_chars p a && all_chars p b.
Proof.
  induction a as [| c a IH]; [reflexivity |].
  rewrite append_cons. cbn [all_chars]. rewrite IH. now rewrite andb_assoc.
Qed.

Lemma get_all_chars (p : Ascii.ascii -> bool) (s : string) (n : nat) (c : Ascii.ascii) :
  all_chars p s = true -> String.get n s = Some c -> p c = true.
Proof.
  revert n. induction s as [| d s IH]; intros n Hs; [destruct n; discriminate |].
  cbn in Hs. apply andb_true_iff in Hs as [Hd Hs].
  destruct n as [| n]; cbn; [intros [= <-]; exact Hd | now apply IH].
Qed.

Lemma char_at_chars (p : Ascii.ascii -> bool) (alphabet : string) (i : Z) :
  all_chars p alphabet = true -> all_chars p (Encoding.char_at alphabet i) = true.
Proof.
  intros H. unfold Encoding.char_at.
  destruct (String.get (Z.to_nat i) alphabet) as [c |] eqn:E; [| reflexivity].
  cbn. now rewrite (get_all_chars p alphabet _ c H E).
Qed.

(** Whatever the bytes, [base64url] writes characters of its alphabet
    only. *)
Lemma base64url_chars (p : Ascii.ascii -> bool) (bs : list Z) :
  all_chars p Encoding.b64url_alphabet = true ->
  all_chars p (Encoding.base64url bs) = true.
Proof.
  intros Hp.
  assert (H : forall n (l : list Z), (length l <= n)%nat ->
                                     all_chars p (Encoding.base64url l) = true).
  { induction n as [| n IH]; intros l Hl.
    - destruct l; [reflexivity | cbn in Hl; lia].
    - destruct l as [| a [| b [| c r]]]; [reflexivity | | |].
      + cbn [Encoding.base64url]. rewrite !all_chars_append, !char_at_chars by assumption.
        reflexivity.
      + cbn [Encoding.base64url]. rewrite !all_chars_append, !char_at_chars by assumption.
        reflexivity.
      + cbn [Encoding.base64url]. rewrite !all_chars_append, !char_at_chars by assumption.
        cbn [andb]. apply IH. cbn in Hl. lia. }
  apply (H (length bs)). lia.
Qed.

Lemma append_assoc (a b c : string) : (a +:+ b) +:+ c = a +:+ (b +:+ c).
Proof.
  induction a as [| x a IH]; [reflexivity |]. rewrite !append_cons. now rewrite IH.
Qed.

Lemma free_of_append (c : Ascii.ascii) (a b : string) :
  Shape.free_of c (a +:+ b) <-> Shape.free_of c a /\ Shape.free_of c b.
Proof. unfold Shape.free_of. rewrite all_chars_append. apply andb_true_iff. Qed.

Lemma shortKbId_free (c : Ascii.ascii) (kbId : string) :
  Shape.free_of c kbId -> Shape.free_of c (shortKbId kbId).
Proof.
  intros H. unfold shortKbId.
  destruct (Js.split "-" kbId) as [| h t] eqn:E; [reflexivity |].
  apply split_head in E as [_ [[_ ->] | [r [-> _]]]]; [assumption |].
  now apply free_of_append in H as [H _].
Qed.

Lemma generateToken_bearer (prefix : string) (random : list Z) :
  Shape.free_of " " prefix ->
  Js.startsWith prefix "sha_kb_" = true ->
  Shape.bearer_header (Some ("Bearer " +:+ generateToken prefix random))
                      (generateToken prefix random).
Proof.
  intros Hfree Hpre. exists "Bearer". split; [reflexivity |]. split; [reflexivity |].
  unfold generateToken. split; [| split; [reflexivity |]].
  - apply free_of_append. split; [assumption |].
    unfold Shape.free_of. apply base64url_chars. reflexivity.
  - apply startsWith_append in Hpre as [r ->]. apply startsWith_append.
    exists (r +:+ Encoding.base64url random). apply append_assoc.
Qed.

Lemma issued_tokens_format_lemma :
  (forall (kbId : string) (random : list Z),
      Shape.free_of " " kbId ->
      Shape.bearer_header (Some ("Bearer " +:+ generateAccessToken kbId random))
                          (generateAccessToken kbId random))
  /\ (forall random : list Z,
        Shape.bearer_header (Some ("Bearer " +:+ generateToken PREFIX_ACCESS random))
                            (generateToken PREFIX_ACCESS random)).
Proof.
  split.
  - intros kbId random Hfree. apply generateToken_bearer.
    + apply free_of_append. split; [reflexivity |].
      apply free_of_append. split; [now apply shortKbId_free | reflexivity].
    + apply startsWith_append. eexists. reflexivity.
  - intros random. apply generateToken_bearer; reflexivity.
Qed.

(** X22. Every access token that the app hands out passes the format check
    of the gateway: written after [Bearer] and one space it is a header
    of the accepted shape, whatever the random bytes (the tokens of the
    token endpoint need the repository id to contain no space), and its
    random part consists of letters, digits, [-] and [_]. *)
Theorem issued_tokens_pass_the_format_check :
  (forall (kbId : string) (random : list Z),
      Shape.free_of " " kbId ->
      Shape.bearer_header (Some ("Bearer " +:+ generateAccessToken kbId random))
                          (generateAccessToken kbId random))
  /\ (forall random : list Z,
        Shape.bearer_header (Some ("Bearer " +:+ generateToken PREFIX_ACCESS random))
                            (generateToken PREFIX_ACCESS random))
  /\ (forall random : list Z,
        all_chars Shape.url_safe_char (Encoding.base64url random) = true).
Proof.
  split; [exact (proj1 issued_tokens_format_lemma) |].
  split; [exact (proj2 issued_tokens_format_lemma) |].
  intros random. apply base64url_chars. reflexivity.
Qed.

End TokenShape.

Section InstallThenUse.
Import Db OAuth Routes Entitlement Worker.

Lemma createFreeSubscription_frame fresh s k u :
  knowledge_bases (fst (createFreeSubscription fresh s k u)) = knowledge_bases s
  /\ oauth_tokens (fst (createFreeSubscription fresh s k u)) = oauth_tokens s.
Proof.
  unfold createFreeSubscription, insert_subscription.
  repeat case_match; simplify_eq; cbn; auto.
Qed.

Lemma find_of_single (s : Store) (id : string) (k : KnowledgeBase) :
  kb_lookup s id = Some k -> kb_by_id s id = Some k.
Proof.
  unfold kb_lookup, kb_by_id. intros H. apply single_In in H.
  induction (knowledge_bases s) as [| x l IH]; [discriminate |].
  cbn in *. destruct (String.eqb (kb_id x) id).
  - now injection H as ->.
  - now apply IH.
Qed.

(** What a 200 answer of the install route implies. *)
Lemma install_token_issued (env : Env) (s s' : Store) (slug user tok : string) (exp : Z) :
  install_token env s slug user = (s', InstallJson tok exp) ->
  exists kb subId,
    Js.single (List.filter (fun kb => String.eqb (kb_slug kb) slug
                                      && visibility_eqb (kb_visibility kb) Public)
                           (knowledge_bases s)) = Some kb
    /\ kb_mcp_enabled kb = true
    /\ hasAccess (hasKBAccess (now env) s (kb_id kb) user) = true
    /\ tok = generateToken PREFIX_ACCESS (random_c env)
    /\ exp = (now env + 30 * 24 * 60 * 60 * 1000)%Z
    /\ knowledge_bases s' = knowledge_bases s
    /\ (forall r, In r (oauth_tokens s) -> tk_access_token_hash r <> OAuth.hashToken tok)
    /\ oauth_tokens s'
       = (oauth_tokens s ++
          [{| tk_id := uuid_b env;
              tk_client_id := generateToken PREFIX_CLIENT_ID (random_a env);
              tk_knowledge_base_id := kb_id kb;
              tk_user_id := user;
              tk_access_token_hash := OAuth.hashToken tok;
              tk_refresh_token_hash := None;
              tk_scopes := ["search"; "list_sources"; "get_info"];
              tk_expires_at := exp;
              tk_refresh_expires_at := None;
              tk_last_used_at := None;
              tk_subscription_id := subId |}])%list
    /\ (kb_pricing_model kb = Paid ->
        kb_subscriptions s' = kb_subscriptions s
        /\ subId = Js.or_undefined
                     (option_map fst (subscription (hasKBAccess (now env) s (kb_id kb) user)))).
Proof.
  unfold install_token.
  destruct (Js.single (List.filter _ (knowledge_bases s))) as [kb |] eqn:Hkb;
    [| discriminate].
  destruct (negb (kb_mcp_enabled kb)) eqn:Hm; [discriminate |].
  apply negb_false_iff in Hm.
  destruct (negb (hasAccess (hasKBAccess (now env) s (kb_id kb) user))) eqn:Ha;
    [discriminate |].
  apply negb_false_iff in Ha.
  set (cond := pricing_eqb (kb_pricing_model kb) Free
               && negb (Js.truthy_opt (option_map fst
                          (subscription (hasKBAccess (now env) s (kb_id kb) user))))
               && negb (String.eqb (kb_user_id kb) user)).
  assert (Hs1 : exists s1 subId,
             (if cond
              then let '(s1, sub) := createFreeSubscription (uuid env) s (kb_id kb) user in
                   (s1, Js.or_undefined sub)
              else (s, Js.or_undefined
                         (option_map fst
                            (subscription (hasKBAccess (now env) s (kb_id kb) user)))))
             = (s1, subId)
             /\ knowledge_bases s1 = knowledge_bases s
             /\ oauth_tokens s1 = oauth_tokens s
             /\ (kb_pricing_model kb = Paid ->
                 kb_subscriptions s1 = kb_subscriptions s
                 /\ subId = Js.or_undefined
                              (option_map fst
                                 (subscription (hasKBAccess (now env) s (kb_id kb) user))))).
  { destruct cond eqn:Hc.
    - destruct (createFreeSubscription_frame (uuid env) s (kb_id kb) user) as [F1 F2].
      destruct (createFreeSubscription (uuid env) s (kb_id kb) user) as [s1 sub].
      cbn [fst] in F1, F2. exists s1, (Js.or_undefined sub).
      split; [reflexivity |]. split; [exact F1 |]. split; [exact F2 |].
      intros Hp. unfold cond in Hc. rewrite Hp in Hc. discriminate.
    - eexists _, _. split; [reflexivity |]. split; [reflexivity |].
      split; [reflexivity |]. intros _. split; reflexivity. }
  destruct Hs1 as [s1 [subId [-> [Hk1 [Ht1 Hpaid]]]]].
  unfold insert_client.
  destruct (existsb _ (oauth_clients s1)); [discriminate |].
  unfold insert_token. cbn [oauth_tokens with_clients tk_id tk_access_token_hash
                            tk_refresh_token_hash].
  destruct (existsb _ (oauth_tokens s1)) eqn:Hex; [discriminate |].
  intros [= <- <- <-]. exists kb, subId.
  cbn [knowledge_bases oauth_tokens kb_subscriptions with_tokens with_clients].
  rewrite Hk1, Ht1.
  repeat (split; [first [reflexivity | assumption] |]).
  split; [| split; [reflexivity | exact Hpaid]].
  intros r Hin E. rewrite <- Ht1 in Hin.
  assert (Ht : existsb
                 (fun r => String.eqb (tk_id r) (uuid_b env)
                           || hash_clash r
                                (OAuth.hashToken (generateToken PREFIX_ACCESS (random_c env)))
                                None)
                 (oauth_tokens s1) = true).
  { apply existsb_exists. exists r. split; [assumption |].
    unfold hash_clash. rewrite E, String.eqb_refl. cbn. apply orb_true_r. }
  congruence.
Qed.

(** A POST whose token validates is served or rate-limited. *)
Lemma fetch_accepts now w req slug s1 tr k u c sc :
  method req = "POST" ->
  mcp_slug (path req) = Some slug ->
  validateToken now (db w) (authorization req) slug = (s1, Returned tr) ->
  valid tr = true ->
  Worker.kb tr = Some k ->
  userId tr = Some u -> u <> "" ->
  clientId tr = Some c -> c <> "" ->
  scopes tr = Some sc ->
  In (status (snd (fetch now w req))) [200; 400; 429].
Proof.
  intros Hm Hpath Hv Hvalid Hk Hu Hune Hc Hcne Hsc.
  unfold fetch, fetch_at. rewrite Hpath, (mcp_slug_not_health _ _ Hpath), Hm.
  cbn [String.eqb Ascii.eqb Bool.eqb andb negb].
  unfold handle_post. rewrite Hv, Hvalid. cbn [negb].
  unfold createAuthContext. rewrite Hvalid, Hk, Hu, Hc, Hsc. cbn [negb].
  rewrite (or_undefined_Some u Hune), (or_undefined_Some c Hcne).
  destruct (checkRateLimit _ _ _ _) as [kv1 info].
  assert (Hin : forall x : Z, x = 200 \/ x = 400 \/ x = 429 -> In x [200; 400; 429])
    by (intros x [-> | [-> | ->]]; cbn; auto).
  destruct (negb (allowed info)); [apply Hin; cbn; auto |].
  destruct (body req) as [| | | rq]; [apply Hin; cbn; auto ..|].
  cbn [parseMCPRequest].
  destruct (negb (opt_eqb (jsonrpc rq) "2.0")); [apply Hin; cbn; auto |].
  destruct (rpc_method rq); apply Hin; cbn; auto.
Qed.

(** X23. A token handed out by the install route is accepted by the
    gateway at the slug of its repository until it expires, thirty days
    later: the validation answers the installing user, and a request that
    carries the token is served or rate-limited, never refused.  For a
    paid repository this holds for as long as the subscription that the
    resolver found has not lapsed. *)
Theorem installed_token_is_accepted
    (env : Env) (s s' : Store) (slug user tok : string) (exp : Z)
    (k : KnowledgeBase) (now' : Z) (w : World) (req : Request) :
  install_token env s slug user = (s', InstallJson tok exp) ->
  getKnowledgeBaseBySlug s slug = Some k ->
  (now' <= exp)%Z ->
  (kb_pricing_model k = Paid -> kb_user_id k <> user ->
   ~ Traffic.lapsed now' s
       (option_map fst (subscription (hasKBAccess (now env) s (kb_id k) user)))) ->
  user <> "" ->
  db w = s' ->
  method req = "POST" ->
  mcp_slug (path req) = Some slug ->
  authorization req = Some ("Bearer " +:+ tok) ->
  exp = (now env + 2592000000)%Z
  /\ (exists tr,
        validateToken now' s' (authorization req) slug
        = (touch_token s' (uuid_b env) now', Returned tr)
        /\ valid tr = true /\ kb tr = Some k /\ userId tr = Some user)
  /\ In (status (snd (fetch now' w req))) [200; 400; 429].
Proof.
  intros Hi Hslug Hexp Hlive Huser Hdb Hm Hpath Hauth.
  destruct (install_token_issued env s s' slug user tok exp Hi)
    as [kb0 [subId [Hkb0 [Hen [Hacc [Htok [Hexp' [Hkbs [Hfresh [Htokens Hpaid]]]]]]]]]].
  (* the repository of the install is the one the gateway finds *)
  assert (kb0 = k) as ->.
  { apply single_In in Hkb0. unfold getKnowledgeBaseBySlug in Hslug.
    apply single_In in Hslug.
    assert (H0 : In kb0 (List.filter
                           (fun x => String.eqb (kb_slug x) slug
                                     && visibility_eqb (kb_visibility x) Public)
                           (knowledge_bases s))) by (rewrite Hkb0; now left).
    apply filter_In in H0 as [Hin Hp]. apply andb_true_iff in Hp as [Hsl _].
    assert (H1 : In kb0 (List.filter
                           (fun x => String.eqb (kb_slug x) slug && kb_mcp_enabled x)
                           (knowledge_bases s)))
      by (apply filter_In; split; [assumption | now rewrite Hsl, Hen]).
    rewrite Hslug in H1. now destruct H1 as [-> | []]. }
  assert (Hlookup : kb_by_id s' (kb_id k) = Some k).
  { assert (Hk : kb_lookup s (kb_id k) = Some k).
    { unfold hasKBAccess in Hacc. unfold kb_lookup.
      destruct (Js.single (List.filter _ (knowledge_bases s))) as [k1 |] eqn:E;
        [| discriminate].
      apply single_In in E. apply single_In in Hkb0.
      assert (H0 : In k (List.filter
                           (fun x => String.eqb (kb_slug x) slug
                                     && visibility_eqb (kb_visibility x) Public)
                           (knowledge_bases s))) by (rewrite Hkb0; now left).
      apply filter_In in H0 as [Hin _].
      assert (H1 : In k (List.filter (fun x => String.eqb (kb_id x) (kb_id k))
                                     (knowledge_bases s)))
        by (apply filter_In; split; [assumption | apply String.eqb_refl]).
      rewrite E in H1. now destruct H1 as [-> | []]. }
    apply find_of_single in Hk. unfold kb_by_id in *. now rewrite Hkbs. }
  set (row := {| tk_id := uuid_b env;
                 tk_client_id := generateToken PREFIX_CLIENT_ID (random_a env);
                 tk_knowledge_base_id := kb_id k;
                 tk_user_id := user;
                 tk_access_token_hash := OAuth.hashToken tok;
                 tk_refresh_token_hash := None;
                 tk_scopes := ["search"; "list_sources"; "get_info"];
                 tk_expires_at := exp;
                 tk_refresh_expires_at := None;
                 tk_last_used_at := None;
                 tk_subscription_id := subId |}) in *.
  assert (Hsingle : Js.single
                      (List.filter (fun r => String.eqb (tk_access_token_hash r)
                                               (hashToken tok))
                                   (oauth_tokens s')) = Some row).
  { change (hashToken tok) with (OAuth.hashToken tok).
    rewrite Htokens, List.filter_app.
    replace (List.filter _ (oauth_tokens s)) with (@nil OAuthToken).
    - cbn [List.filter app]. unfold row at 1. cbn [tk_access_token_hash].
      now rewrite String.eqb_refl.
    - symmetry. clear - Hfresh. induction (oauth_tokens s) as [| r l IH]; [reflexivity |].
      cbn [List.filter].
      destruct (String.eqb (tk_access_token_hash r) (OAuth.hashToken tok)) eqn:E.
      + apply String.eqb_eq in E. exfalso. apply (Hfresh r); [now left | exact E].
      + apply IH. intros r' Hin. apply Hfresh. now right. }
  assert (Hval : validateAccessToken now' s' (hashToken tok)
                 = (touch_token s' (uuid_b env) now',
                    Returned {| valid := true; kb := Some k;
                                userId := Some user;
                                clientId := Some (generateToken PREFIX_CLIENT_ID
                                                    (random_a env));
                                scopes := Some ["search"; "list_sources"; "get_info"];
                                subscriptionId := subId;
                                error := None |})).
  { apply (validateAccessToken_valid now' s' (hashToken tok) row k Hsingle).
    - apply Z.ltb_ge. exact Hexp.
    - exact Hlookup.
    - cbn [row tk_user_id tk_subscription_id]. intros Hp Hne Hl.
      destruct (Hpaid Hp) as [Hsubs ->].
      apply (Hlive Hp (not_eq_sym Hne)). unfold Traffic.lapsed in *.
      rewrite or_undefined_idem, Hsubs in Hl. exact Hl. }
  assert (Hb : Shape.bearer_header (authorization req) tok).
  { rewrite Hauth, Htok. apply generateToken_bearer; reflexivity. }
  assert (Hslug' : getKnowledgeBaseBySlug s' slug = Some k).
  { unfold getKnowledgeBaseBySlug in *. now rewrite Hkbs. }
  assert (Hv : validateToken now' s' (authorization req) slug
               = (touch_token s' (uuid_b env) now',
                  Returned {| valid := true; kb := Some k;
                              userId := Some user;
                              clientId := Some (generateToken PREFIX_CLIENT_ID
                                                  (random_a env));
                              scopes := Some ["search"; "list_sources"; "get_info"];
                              subscriptionId := None;
                              error := None |})).
  { rewrite (validateToken_bearer _ _ _ _ _ Hb), Hslug', Hval.
    cbn [valid Worker.kb negb userId clientId scopes]. now rewrite String.eqb_refl. }
  split; [rewrite Hexp'; reflexivity |].
  split; [eexists; split; [exact Hv |]; repeat split |].
  rewrite <- Hdb in Hv.
  apply (fetch_accepts now' w req slug _ _ k user
           (generateToken PREFIX_CLIENT_ID (random_a env))
           ["search"; "list_sources"; "get_info"] Hm Hpath Hv);
    try reflexivity; try assumption.
  discriminate.
Qed.

End InstallThenUse.

Section ExchangeThenUse.
Import Db OAuth Routes Trace Worker.
Variable url_hostname : string -> option string.

(** X24. The access token of a successful exchange is accepted by the
    gateway at the slug of the code's repository for the hour it lasts:
    the validation answers the user, client and scopes of the code, and a
    request that carries the token is served or rate-limited, never
    refused.  (The token links no subscription, so on a paid repository
    this needs the user of the code to be the owner, which is whom the
    authorization endpoint issues codes to.) *)
Theorem exchanged_token_is_accepted
    (env : Env) (s s' : Store) (body : Body) (tb : TokenBody)
    (c slug : string) (a : OAuthCode) (k : KnowledgeBase)
    (now' : Z) (w : World) (req : Request) :
  handleAuthorizationCode url_hostname env s body = (s', TokenJson tb) ->
  nonempty (code body) = Some c ->
  Js.single (List.filter (unused_with (OAuth.hashToken c)) (oauth_codes s)) = Some a ->
  getKnowledgeBaseBySlug s slug = Some k ->
  kb_by_id s (cd_knowledge_base_id a) = Some k ->
  (kb_pricing_model k = Paid -> cd_user_id a = kb_user_id k) ->
  Shape.free_of " " (cd_knowledge_base_id a) ->
  (now' <= now env + 3600 * 1000)%Z ->
  cd_user_id a <> "" ->
  db w = s' ->
  method req = "POST" ->
  mcp_slug (path req) = Some slug ->
  authorization req = Some ("Bearer " +:+ access_token tb) ->
  (exists tr,
      validateToken now' s' (authorization req) slug
      = (touch_token s' (uuid env) now', Returned tr)
      /\ valid tr = true /\ Worker.kb tr = Some k
      /\ userId tr = Some (cd_user_id a)
      /\ clientId tr = Some (cd_client_id a)
      /\ scopes tr = Some (cd_scopes a))
  /\ In (status (snd (fetch now' w req))) [200; 400; 429].
Proof.
  intros He Hc Ha Hslug Hkb Howner Hfree Hexp Huser Hdb Hm Hpath Hauth.
  destruct (exchange_issued url_hostname env s s' body tb He)
    as [c' [a' [row [Hc' [Ha' [Hci [_ [_ [Hs' [R1 [R2 [R3 [R4 [R5 [R6 [R7 [R8 [R9
         [_ [_ [Hat Hfresh]]]]]]]]]]]]]]]]]]]]].
  rewrite Hc in Hc'. injection Hc' as <-. rewrite Ha in Ha'. injection Ha' as <-.
  assert (Hkbs : knowledge_bases s' = knowledge_bases s) by (now rewrite Hs').
  assert (Hrow : oauth_tokens s' = (oauth_tokens s ++ [row])%list) by (now rewrite Hs').
  assert (Hsingle : Js.single
                      (List.filter (fun r => String.eqb (tk_access_token_hash r)
                                               (hashToken (access_token tb)))
                                   (oauth_tokens s')) = Some row).
  { change (hashToken (access_token tb)) with (OAuth.hashToken (access_token tb)).
    rewrite Hrow, List.filter_app.
    replace (List.filter _ (oauth_tokens s)) with (@nil OAuthToken).
    - cbn [List.filter app]. now rewrite R5, String.eqb_refl.
    - symmetry. clear - Hfresh. induction (oauth_tokens s) as [| r l IH]; [reflexivity |].
      cbn [List.filter].
      destruct (String.eqb (tk_access_token_hash r) (OAuth.hashToken (access_token tb)))
        eqn:E.
      + apply String.eqb_eq in E. exfalso. apply (Hfresh r); [now left | exact E].
      + apply IH. intros r' Hin. apply Hfresh. now right. }
  assert (Hid : tk_id row = uuid env).
  { rewrite Hs' in He. unfold handleAuthorizationCode in He.
    revert He. rewrite !oauthError_plain. rewrite Hc.
    destruct (nonempty (redirect_uri body)); [| discriminate].
    destruct (nonempty (client_id body)); [| discriminate].
    destruct (nonempty (code_verifier body)); [| discriminate].
    change (fun r => String.eqb (cd_code_hash r) (OAuth.hashToken c)
                     && is_null (cd_used_at r))
      with (unused_with (OAuth.hashToken c)).
    rewrite Ha. repeat case_match; try discriminate.
    match goal with H : insert_token _ _ = Some _ |- _ =>
      unfold insert_token in H; revert H; case_match; [discriminate |];
      intros [= <-] end.
    intros [= Heq _]. cbn [oauth_tokens with_tokens] in Heq.
    apply app_inj_tail in Heq as [_ <-]. reflexivity. }
  assert (Hval : validateAccessToken now' s' (hashToken (access_token tb))
                 = (touch_token s' (uuid env) now',
                    Returned {| valid := true; Worker.kb := Some k;
                                userId := Some (cd_user_id a);
                                clientId := Some (cd_client_id a);
                                scopes := Some (cd_scopes a);
                                subscriptionId := None;
                                error := None |})).
  { rewrite (validateAccessToken_valid now' s' _ row k Hsingle).
    - now rewrite Hid, R1, R3, R4, R9.
    - rewrite R7. apply Z.ltb_ge. exact Hexp.
    - rewrite R2. unfold kb_by_id in *. now rewrite Hkbs.
    - intros Hp Hne. exfalso. apply Hne. rewrite R3. now apply Howner. }
  assert (Hb : Shape.bearer_header (authorization req) (access_token tb)).
  { rewrite Hauth, Hat.
    apply (proj1 (issued_tokens_format_lemma) (cd_knowledge_base_id a) (random_a env) Hfree). }
  assert (Hslug' : getKnowledgeBaseBySlug s' slug = Some k).
  { unfold getKnowledgeBaseBySlug in *. now rewrite Hkbs. }
  assert (Hv : validateToken now' s' (authorization req) slug
               = (touch_token s' (uuid env) now',
                  Returned {| valid := true; Worker.kb := Some k;
                              userId := Some (cd_user_id a);
                              clientId := Some (cd_client_id a);
                              scopes := Some (cd_scopes a);
                              subscriptionId := None;
                              error := None |})).
  { rewrite (validateToken_bearer _ _ _ _ _ Hb), Hslug', Hval.
    cbn [valid Worker.kb negb userId clientId scopes]. now rewrite String.eqb_refl. }
  split; [eexists; split; [exact Hv |]; repeat split |].
  rewrite <- Hdb in Hv.
  apply (fetch_accepts now' w req slug _ _ k (cd_user_id a) (cd_client_id a)
           (cd_scopes a) Hm Hpath Hv); try reflexivity; try assumption.
  apply nonempty_inv in Hci as [_ Hne]. exact Hne.
Qed.

End ExchangeThenUse.

(* ===================================================================== *)
(** * The theorems at fixtures                                            *)
(* ===================================================================== *)



Lemma request_log_of_a_post_witness :
  (exists k m,
     Some Sample.kb_paid = Some k
     /\ Worker.db (fst (Worker.fetch_at 5000 5001
                          (Traffic.world_of Traffic.store_alice_paid)
                          (Traffic.post "pro" (Traffic.token_of 50))))
        = Db.with_requests
            (Db.mcp_requests (Worker.db (Traffic.world_of Traffic.store_alice_paid)) ++
             [{| Db.lg_knowledge_base_id := Db.kb_id k;
                 Db.lg_client_id :=
                   Js.or_undefined
                     (Some (OAuth.generateToken OAuth.PREFIX_CLIENT_ID [50]));
                 Db.lg_method := m;
                 Db.lg_status_code :=
                   Worker.status
                     (snd (Worker.fetch_at 5000 5001
                             (Traffic.world_of Traffic.store_alice_paid)
                             (Traffic.post "pro" (Traffic.token_of 50)))) |}])
            (Db.touch_token (Db.touch_token Traffic.store_alice_paid "token-alice" 5000)
                            "token-alice" 5001)
     /\ (Worker.status
           (snd (Worker.fetch_at 5000 5001 (Traffic.world_of Traffic.store_alice_paid)
                   (Traffic.post "pro" (Traffic.token_of 50)))) = 200 ->
         exists rq,
           Worker.parseMCPRequest
             (Worker.body (Traffic.post "pro" (Traffic.token_of 50))) = Some rq
           /\ Worker.rpc_method rq = Some m)
     /\ (Worker.status
           (snd (Worker.fetch_at 5000 5001 (Traffic.world_of Traffic.store_alice_paid)
                   (Traffic.post "pro" (Traffic.token_of 50)))) <> 200 ->
         m = "unknown")
     /\ ((5000 <= 5001)%Z ->
         exists tr,
           Worker.Returned
             {| Worker.valid := true; Worker.kb := Some Sample.kb_paid;
                Worker.userId := Some "alice";
                Worker.clientId :=
                  Some (OAuth.generateToken OAuth.PREFIX_CLIENT_ID [50]);
                Worker.scopes := Some ["search"; "list_sources"; "get_info"];
                Worker.subscriptionId := None; Worker.error := None |}
           = Worker.Returned tr
           /\ Worker.valid tr = true))
  /\ (Worker.db (fst (Worker.fetch_at 9000000 9000001
                        (Traffic.world_of Traffic.store_alice_paid)
                        (Traffic.post "pro" (Traffic.token_of 50))))
      = Db.touch_token Traffic.store_alice_paid "token-alice" 9000000
      /\ Db.mcp_requests (Db.touch_token Traffic.store_alice_paid "token-alice" 9000000)
         = Db.mcp_requests (Worker.db (Traffic.world_of Traffic.store_alice_paid)))
  /\ Worker.status
       (snd (Worker.fetch_at 9000000 9000001 (Traffic.world_of Traffic.store_alice_paid)
               (Traffic.post "pro" (Traffic.token_of 50)))) = 200.
Proof.
  split; [| split].
  - apply (request_log_of_a_post 5000 5001 (Traffic.world_of Traffic.store_alice_paid)
             (Traffic.post "pro" (Traffic.token_of 50)) "pro"
             (Db.touch_token Traffic.store_alice_paid "token-alice" 5000)
             (Db.touch_token (Db.touch_token Traffic.store_alice_paid "token-alice" 5000)
                             "token-alice" 5001)
             (Worker.Returned
                {| Worker.valid := true; Worker.kb := Some Sample.kb_paid;
                   Worker.userId := Some "alice";
                   Worker.clientId :=
                     Some (OAuth.generateToken OAuth.PREFIX_CLIENT_ID [50]);
                   Worker.scopes := Some ["search"; "list_sources"; "get_info"];
                   Worker.subscriptionId := None; Worker.error := None |})
             (Worker.Returned
                {| Worker.valid := true; Worker.kb := Some Sample.kb_paid;
                   Worker.userId := Some "alice";
                   Worker.clientId :=
                     Some (OAuth.generateToken OAuth.PREFIX_CLIENT_ID [50]);
                   Worker.scopes := Some ["search"; "list_sources"; "get_info"];
                   Worker.subscriptionId := None; Worker.error := None |})).
    + reflexivity.
    + reflexivity.
    + vm_compute; reflexivity.
    + vm_compute; reflexivity.
  - apply (request_log_of_a_post 9000000 9000001
             (Traffic.world_of Traffic.store_alice_paid)
             (Traffic.post "pro" (Traffic.token_of 50)) "pro"
             (Db.touch_token Traffic.store_alice_paid "token-alice" 9000000)
             (Db.touch_token Traffic.store_alice_paid "token-alice" 9000000)
             (Worker.Returned
                {| Worker.valid := true; Worker.kb := Some Sample.kb_paid;
                   Worker.userId := Some "alice";
                   Worker.clientId :=
                     Some (OAuth.generateToken OAuth.PREFIX_CLIENT_ID [50]);
                   Worker.scopes := Some ["search"; "list_sources"; "get_info"];
                   Worker.subscriptionId := None; Worker.error := None |})
             (Worker.Returned (Worker.invalid "Subscription has expired"))).
    + reflexivity.
    + reflexivity.
    + vm_compute; reflexivity.
    + vm_compute; reflexivity.
  - vm_compute; reflexivity.
Defined.

Lemma ambiguous_slug_is_refused_witness :
  Worker.getKnowledgeBaseBySlug
    (Worker.db (Traffic.world_of Demo.store_twins)) "docs" = None
  /\ Worker.status
       (snd (Worker.fetch 5000 (Traffic.world_of Demo.store_twins)
               (Demo.request "docs" (Some "Bearer sha_kb_x")))) = 401
  /\ fst (Worker.fetch 5000 (Traffic.world_of Demo.store_twins)
            (Demo.request "docs" (Some "Bearer sha_kb_x")))
     = Traffic.world_of Demo.store_twins.
Proof.
  apply (ambiguous_slug_is_refused 5000 (Traffic.world_of Demo.store_twins)
           (Demo.request "docs" (Some "Bearer sha_kb_x")) "docs"
           Sample.kb1 Demo.kb_twin).
  - left. reflexivity.
  - reflexivity.
  - left. reflexivity.
  - right. left. reflexivity.
  - discriminate.
  - reflexivity.
  - reflexivity.
  - reflexivity.
  - reflexivity.
Defined.

Lemma gateway_fails_open_witness :
  Worker.status
    (snd (Worker.fetch 5000 Demo.world_offline (Traffic.post "pro" (Traffic.token_of 50))))
  <> 429
  /\ Worker.kv
       (fst (Worker.fetch 5000 Demo.world_offline
               (Traffic.post "pro" (Traffic.token_of 50))))
     = Worker.kv Demo.world_offline
  /\ snd (Worker.fetch 5000 Demo.world_offline (Traffic.post "pro" (Traffic.token_of 50)))
     = {| Worker.status := 200; Worker.message := None;
          Worker.rate_limit :=
            Some {| Worker.allowed := true; Worker.remaining := Worker.CLIENT_LIMIT;
                    Worker.resetAt := (Worker.windowStart 5000 + Worker.WINDOW_SIZE)%Z;
                    Worker.limit := Worker.CLIENT_LIMIT |} |}.
Proof.
  destruct (gateway_fails_open 5000 Demo.world_offline
              (Traffic.post "pro" (Traffic.token_of 50)) eq_refl)
    as [H1 [H2 [_ H4]]].
  split; [exact H1 |]. split; [exact H2 |].
  apply (H4 "pro" (Db.touch_token Traffic.store_alice_paid "token-alice" 5000)
            {| Worker.valid := true; Worker.kb := Some Sample.kb_paid;
               Worker.userId := Some "alice";
               Worker.clientId :=
                 Some (OAuth.generateToken OAuth.PREFIX_CLIENT_ID [50]);
               Worker.scopes := Some ["search"; "list_sources"; "get_info"];
               Worker.subscriptionId := None; Worker.error := None |}
            {| Worker.ctx_kb := Sample.kb_paid; Worker.ctx_userId := "alice";
               Worker.ctx_clientId := OAuth.generateToken OAuth.PREFIX_CLIENT_ID [50];
               Worker.ctx_scopes := ["search"; "list_sources"; "get_info"] |}
            {| Worker.jsonrpc := Some "2.0"; Worker.rpc_method := Some "ping";
               Worker.has_id := true; Worker.tool_name := None |}).
  - reflexivity.
  - reflexivity.
  - vm_compute; reflexivity.
  - reflexivity.
  - vm_compute; reflexivity.
  - reflexivity.
Defined.

Lemma gateway_counts_per_client_witness :
  Worker.limit {| Worker.allowed := true; Worker.remaining := 29;
                  Worker.resetAt := 60; Worker.limit := 30 |}
  = Worker.CLIENT_LIMIT.
Proof.
  apply (gateway_counts_per_client 5000 (Traffic.world_of Traffic.store_alice_paid)
           (Traffic.post "pro" (Traffic.token_of 50))).
  vm_compute; reflexivity.
Defined.


Lemma code_is_issued_to_the_owner_witness :
  exists user client kb row,
    Routes.q_user (Sample.query None) = Some user
    /\ In client (Db.oauth_clients Sample.store0)
    /\ Routes.nonempty (Routes.q_client_id (Sample.query None))
       = Some (Db.oc_client_id client)
    /\ Db.oc_revoked_at client = None
    /\ Db.kb_by_id Sample.store0 (Db.oc_knowledge_base_id client) = Some kb
    /\ Db.kb_user_id kb = user
    /\ Routes.nonempty (Routes.q_redirect_uri (Sample.query None))
       = Some "https://x.test/cb"
    /\ OAuth.isValidRedirectUri Sample.hostname "https://x.test/cb"
         (Db.oc_redirect_uris client) = true
    /\ Routes.q_code_challenge_method (Sample.query None) = Some "S256"
    /\ Sample.code1
       = OAuth.generateAuthCode
           (Routes.random_a (Sample.env 1000 [1; 2; 3] [] "code-row-1"))
    /\ Sample.store_with_code
       = Db.with_codes (Db.oauth_codes Sample.store0 ++ [row]) Sample.store0
    /\ Db.cd_client_id row = Db.oc_client_id client
    /\ Db.cd_user_id row = user
    /\ Db.cd_knowledge_base_id row = Db.oc_knowledge_base_id client
    /\ Db.cd_redirect_uri row = "https://x.test/cb"
    /\ Db.cd_code_challenge row
       = Routes.nonempty (Routes.q_code_challenge (Sample.query None))
    /\ Db.cd_scopes row <> []
    /\ forall x, In x (Db.cd_scopes row) ->
                 In x (Db.oc_scopes client) /\ In x OAuth.OAUTH_SCOPES.
Proof.
  apply (code_is_issued_to_the_owner Sample.hostname
           (Sample.env 1000 [1; 2; 3] [] "code-row-1") Sample.store0
           Sample.store_with_code (Sample.query None)
           "https://x.test/cb" Sample.code1 (Some "xyz")).
  vm_compute; reflexivity.
Defined.

Lemma exchange_checks_the_binding_witness :
  exists c a row,
    Routes.nonempty (Routes.code (Sample.exchange_body Sample.code1)) = Some c
    /\ Js.single (List.filter (Trace.unused_with (OAuth.hashToken c))
                              (Db.oauth_codes Sample.store_with_code)) = Some a
    /\ Routes.nonempty (Routes.client_id (Sample.exchange_body Sample.code1))
       = Some (Db.cd_client_id a)
    /\ Routes.nonempty (Routes.redirect_uri (Sample.exchange_body Sample.code1))
       = Some (Db.cd_redirect_uri a)
    /\ (exists v,
          Routes.nonempty (Routes.code_verifier (Sample.exchange_body Sample.code1))
          = Some v
          /\ OAuth.validateCodeChallenge v (Js.or_else (Db.cd_code_challenge a) "")
               (Js.or_else (Db.cd_code_challenge_method a) "S256") = true)
    /\ Sample.store_with_tokens
       = Db.with_tokens (Db.oauth_tokens Sample.store_with_code ++ [row])
           (Db.mark_code_used Sample.store_with_code (Db.cd_id a)
              (Routes.now (Sample.env 2000 [4; 5; 6] [7; 8; 9] "token-row-1")))
    /\ Db.tk_client_id row = Db.cd_client_id a
    /\ Db.tk_knowledge_base_id row = Db.cd_knowledge_base_id a
    /\ Db.tk_user_id row = Db.cd_user_id a
    /\ Db.tk_scopes row = Db.cd_scopes a
    /\ Db.tk_access_token_hash row
       = OAuth.hashToken (OAuth.access_token Sample.tokens1)
    /\ Db.tk_refresh_token_hash row
       = Some (OAuth.hashToken (OAuth.refresh_token Sample.tokens1))
    /\ Db.tk_expires_at row
       = (Routes.now (Sample.env 2000 [4; 5; 6] [7; 8; 9] "token-row-1") + 3600 * 1000)%Z
    /\ Db.tk_refresh_expires_at row
       = Some (Routes.now (Sample.env 2000 [4; 5; 6] [7; 8; 9] "token-row-1")
               + 2592000 * 1000)%Z
    /\ Db.tk_subscription_id row = None
    /\ OAuth.scope Sample.tokens1 = Js.join_sp (Db.cd_scopes a)
    /\ OAuth.expires_in Sample.tokens1 = 3600
    /\ OAuth.access_token Sample.tokens1
       = OAuth.generateAccessToken (Db.cd_knowledge_base_id a)
           (Routes.random_a (Sample.env 2000 [4; 5; 6] [7; 8; 9] "token-row-1"))
    /\ (forall r, In r (Db.oauth_tokens Sample.store_with_code) ->
                  Db.tk_access_token_hash r
                  <> OAuth.hashToken (OAuth.access_token Sample.tokens1)).
Proof.
  apply (exchange_checks_the_binding Sample.hostname
           (Sample.env 2000 [4; 5; 6] [7; 8; 9] "token-row-1")
           Sample.store_with_code Sample.store_with_tokens
           (Sample.exchange_body Sample.code1) Sample.tokens1).
  vm_compute; reflexivity.
Defined.

Lemma stale_refresh_token_is_purged_witness :
  snd (Routes.handleRefreshToken Sample.hostname
         (Sample.env 2592002001 [21; 22; 23] [24; 25; 26] "unused")
         Sample.store_with_tokens (Sample.refresh_body Sample.refresh1))
  = OAuth.ErrorJson 400 "invalid_grant" "Refresh token has expired"
  /\ Db.oauth_tokens
       (fst (Routes.handleRefreshToken Sample.hostname
               (Sample.env 2592002001 [21; 22; 23] [24; 25; 26] "unused")
               Sample.store_with_tokens (Sample.refresh_body Sample.refresh1)))
     = List.filter (fun r => negb (String.eqb (Db.tk_id r) (Db.tk_id Demo.token_row1)))
                   (Db.oauth_tokens Sample.store_with_tokens)
  /\ Trace.retired (OAuth.hashToken Sample.refresh1)
       (fst (Routes.handleRefreshToken Sample.hostname
               (Sample.env 2592002001 [21; 22; 23] [24; 25; 26] "unused")
               Sample.store_with_tokens (Sample.refresh_body Sample.refresh1))).
Proof.
  apply (stale_refresh_token_is_purged Sample.hostname
           (Sample.env 2592002001 [21; 22; 23] [24; 25; 26] "unused")
           Sample.store_with_tokens (Sample.refresh_body Sample.refresh1)
           Sample.refresh1 Demo.token_row1).
  - vm_compute; reflexivity.
  - vm_compute; reflexivity.
  - exists 2592002000. split; [reflexivity | reflexivity].
Defined.

Lemma revoked_access_token_is_refused_witness :
  (forall r,
      In r (Db.oauth_tokens
              (fst (Routes.revoke_POST Sample.hostname Traffic.store_alice_paid
                      (Sample.json (Sample.revoke_body (Traffic.token_of 50)))))) ->
      Db.tk_access_token_hash r <> OAuth.hashToken (Traffic.token_of 50))
  /\ (forall now,
        Worker.validateAccessToken now
          (fst (Routes.revoke_POST Sample.hostname Traffic.store_alice_paid
                  (Sample.json (Sample.revoke_body (Traffic.token_of 50)))))
          (Worker.hashToken (Traffic.token_of 50))
        = (fst (Routes.revoke_POST Sample.hostname Traffic.store_alice_paid
                  (Sample.json (Sample.revoke_body (Traffic.token_of 50)))),
           Worker.Returned (Worker.invalid "Invalid access token")))
  /\ (forall now kv0 greq slug,
        Worker.method greq = "POST" ->
        Worker.mcp_slug (Worker.path greq) = Some slug ->
        Shape.bearer_header (Worker.authorization greq) (Traffic.token_of 50) ->
        Worker.status
          (snd (Worker.fetch now
                  {| Worker.db :=
                       fst (Routes.revoke_POST Sample.hostname Traffic.store_alice_paid
                              (Sample.json (Sample.revoke_body (Traffic.token_of 50))));
                     Worker.kv := kv0 |} greq)) = 401
        /\ fst (Worker.fetch now
                  {| Worker.db :=
                       fst (Routes.revoke_POST Sample.hostname Traffic.store_alice_paid
                              (Sample.json (Sample.revoke_body (Traffic.token_of 50))));
                     Worker.kv := kv0 |} greq)
           = {| Worker.db :=
                  fst (Routes.revoke_POST Sample.hostname Traffic.store_alice_paid
                         (Sample.json (Sample.revoke_body (Traffic.token_of 50))));
                Worker.kv := kv0 |}).
Proof.
  apply (revoked_access_token_is_refused Sample.hostname Traffic.store_alice_paid
           (Sample.json (Sample.revoke_body (Traffic.token_of 50)))
           (Sample.revoke_body (Traffic.token_of 50)) (Traffic.token_of 50)).
  - reflexivity.
  - reflexivity.
  - reflexivity.
  - vm_compute. discriminate.
  - discriminate.
Defined.

Lemma refresh_hint_spares_access_tokens_witness :
  snd (Routes.revoke_POST Sample.hostname Traffic.store_alice_paid
         (Sample.json (Demo.revoke_as_refresh (Traffic.token_of 50))))
  = OAuth.Empty 200
  /\ forall r,
       In r (Db.oauth_tokens
               (fst (Routes.revoke_POST Sample.hostname Traffic.store_alice_paid
                       (Sample.json (Demo.revoke_as_refresh (Traffic.token_of 50))))))
       <-> In r (Db.oauth_tokens Traffic.store_alice_paid)
           /\ Db.tk_refresh_token_hash r <> Some (OAuth.hashToken (Traffic.token_of 50)).
Proof.
  apply (refresh_hint_spares_access_tokens Sample.hostname Traffic.store_alice_paid
           (Sample.json (Demo.revoke_as_refresh (Traffic.token_of 50)))
           (Demo.revoke_as_refresh (Traffic.token_of 50)) (Traffic.token_of 50)).
  - reflexivity.
  - reflexivity.
  - reflexivity.
  - vm_compute. discriminate.
  - reflexivity.
Defined.

Lemma client_deletion_effect_witness :
  snd (Routes.clients_DELETE Sample.hostname (Sample.env 1500 [] [] "unused")
         Sample.store_with_tokens (Some "mallory") (Some Sample.delete_body))
  = OAuth.Empty 204
  /\ (forall r,
        In r (Db.oauth_tokens
                (fst (Routes.clients_DELETE Sample.hostname
                        (Sample.env 1500 [] [] "unused")
                        Sample.store_with_tokens (Some "mallory")
                        (Some Sample.delete_body))))
        <-> In r (Db.oauth_tokens Sample.store_with_tokens)
            /\ Db.tk_client_id r <> "mcp_client_1")
  /\ (forall c, In c (Db.oauth_clients Sample.store_with_tokens) ->
                 Db.oc_client_id c <> "mcp_client_1" \/ Db.oc_user_id c <> "mallory" ->
                 In c (Db.oauth_clients
                         (fst (Routes.clients_DELETE Sample.hostname
                                 (Sample.env 1500 [] [] "unused")
                                 Sample.store_with_tokens (Some "mallory")
                                 (Some Sample.delete_body)))))
  /\ (forall c, In c (Db.oauth_clients
                        (fst (Routes.clients_DELETE Sample.hostname
                                (Sample.env 1500 [] [] "unused")
                                Sample.store_with_tokens (Some "mallory")
                                (Some Sample.delete_body)))) ->
                 Db.oc_client_id c = "mcp_client_1" -> Db.oc_user_id c = "mallory" ->
                 Db.oc_revoked_at c
                 = Some (Routes.now (Sample.env 1500 [] [] "unused")))
  /\ ((forall c, In c (Db.oauth_clients Sample.store_with_tokens) ->
                 Db.oc_client_id c = "mcp_client_1" -> Db.oc_user_id c = "mallory") ->
      forall env2 q,
        Routes.nonempty (Routes.q_client_id q) = Some "mcp_client_1" ->
        forall uri issued st,
          snd (Routes.authorize Sample.hostname env2
                 (fst (Routes.clients_DELETE Sample.hostname
                         (Sample.env 1500 [] [] "unused")
                         Sample.store_with_tokens (Some "mallory")
                         (Some Sample.delete_body))) q)
          <> OAuth.CodeRedirect uri issued st).
Proof.
  apply (client_deletion_effect Sample.hostname (Sample.env 1500 [] [] "unused")
           Sample.store_with_tokens "mallory" Sample.delete_body "mcp_client_1").
  reflexivity.
Defined.

Lemma registered_client_is_vetted_witness :
  exists u b kb row,
    Some "owner" = Some u /\ Some (Demo.registration None) = Some b
    /\ In kb (Db.knowledge_bases Sample.store0)
    /\ Routes.nonempty (Clients.r_knowledge_base_id b) = Some (Db.kb_id kb)
    /\ Db.kb_user_id kb = u
    /\ (forall c, In c (Db.oauth_clients Sample.store0) ->
                  Db.oc_client_id c <> OAuth.generateClientId [1; 2])
    /\ fst (Clients.POST Sample.hostname (Sample.env 1000 [1; 2] [3; 4] "unused")
              Sample.store0 (Some "owner") (Some (Demo.registration None)))
       = Db.with_clients (Db.oauth_clients Sample.store0 ++ [row]) Sample.store0
    /\ Db.oc_client_id row = OAuth.generateClientId [1; 2]
    /\ Db.oc_client_secret_hash row = OAuth.hashToken (OAuth.generateClientSecret [3; 4])
    /\ Db.oc_knowledge_base_id row = Db.kb_id kb
    /\ Db.oc_user_id row = u
    /\ Db.oc_revoked_at row = None
    /\ Db.oc_redirect_uris row = ["https://x.test/cb"]
    /\ Db.oc_scopes row = ["search"; "list_sources"; "get_info"]
    /\ (forall x, In x ["search"; "list_sources"; "get_info"] ->
                  In x OAuth.DEFAULT_SCOPES)
    /\ (forall x, In x ["https://x.test/cb"] -> Sample.hostname x <> None).
Proof.
  apply (registered_client_is_vetted Sample.hostname
           (Sample.env 1000 [1; 2] [3; 4] "unused") Sample.store0
           (fst (Clients.POST Sample.hostname (Sample.env 1000 [1; 2] [3; 4] "unused")
                   Sample.store0 (Some "owner") (Some (Demo.registration None))))
           (Some "owner") (Some (Demo.registration None))
           (OAuth.generateClientId [1; 2]) (OAuth.generateClientSecret [3; 4])
           ["https://x.test/cb"] ["search"; "list_sources"; "get_info"] "docs").
  vm_compute; reflexivity.
Defined.

Lemma scopeless_client_cannot_authorize_witness :
  @nil string = []
  /\ forall env2 q uri issued st,
       Routes.nonempty (Routes.q_client_id q) = Some (OAuth.generateClientId [1; 2]) ->
       snd (Routes.authorize Sample.hostname env2
              (fst (Clients.POST Sample.hostname
                      (Sample.env 1000 [1; 2] [3; 4] "unused") Sample.store0
                      (Some "owner") (Some (Demo.registration (Some ["admin"])))))
              q)
       <> OAuth.CodeRedirect uri issued st.
Proof.
  apply (scopeless_client_cannot_authorize Sample.hostname
           (Sample.env 1000 [1; 2] [3; 4] "unused") Sample.store0
           (fst (Clients.POST Sample.hostname (Sample.env 1000 [1; 2] [3; 4] "unused")
                   Sample.store0 (Some "owner")
                   (Some (Demo.registration (Some ["admin"])))))
           (Some "owner") (Demo.registration (Some ["admin"]))
           (OAuth.generateClientId [1; 2]) (OAuth.generateClientSecret [3; 4])
           ["https://x.test/cb"] [] ["admin"] "docs").
  - vm_compute; reflexivity.
  - reflexivity.
  - intros x [<- | []] H. vm_compute in H. intuition discriminate.
Defined.

Lemma status_and_access_differ_witness :
  Subscriptions.isSubscribed
    (Subscriptions.getSubscriptionStatus Sample.store_sub "22222222-bbbb" "alice") = true
  /\ (Subscriptions.isSubscribed
        (Subscriptions.getSubscriptionStatus Sample.store_sub "22222222-bbbb" "alice")
      = true
      /\ Entitlement.hasAccess
           (Entitlement.hasKBAccess 9000001 Sample.store_sub "22222222-bbbb" "alice")
         = false)
  /\ (Subscriptions.isSubscribed
        (Subscriptions.getSubscriptionStatus Sample.store0 "33333333-cccc" "alice")
      = true
      /\ Entitlement.hasAccess
           (Entitlement.hasKBAccess 5000 Sample.store0 "33333333-cccc" "alice")
         = false).
Proof.
  destruct status_and_access_differ as [A [B C]].
  split; [| split].
  - apply (A 5000 Sample.store_sub "22222222-bbbb" "alice").
    + reflexivity.
    + cbn. lia.
  - apply (B 9000001 Sample.store_sub "22222222-bbbb" "alice" Sample.kb_paid
             Sample.sub_alice 9000000).
    + reflexivity.
    + discriminate.
    + reflexivity.
    + reflexivity.
    + now left.
    + reflexivity.
    + reflexivity.
  - apply (C 5000 Sample.store0 "33333333-cccc" "alice" Sample.kb_private).
    + reflexivity.
    + discriminate.
    + reflexivity.
    + now left.
Defined.

Lemma billing_event_cuts_access_witness :
  (snd (Webhook.POST "unused" Demo.ledger (Demo.delivery (Demo.past_due_report 9000)))
   = 200
   /\ Traffic.lapsed 5000
        (Webhook.store_of
           (fst (Webhook.POST "unused" Demo.ledger
                   (Demo.delivery (Demo.past_due_report 9000))))
           Traffic.store_alice_paid)
        (Some "sub-1")
   /\ Entitlement.hasAccess
        (Entitlement.hasKBAccess 5000
           (Webhook.store_of
              (fst (Webhook.POST "unused" Demo.ledger
                      (Demo.delivery (Demo.past_due_report 9000))))
              Traffic.store_alice_paid)
           "22222222-bbbb" "alice") = false)
  /\ Webhook.POST "unused" Demo.ledger
       (Demo.delivery (Demo.past_due_report 8640000000001))
     = (Demo.ledger, 500).
Proof.
  split.
  - destruct (billing_event_cuts_access "unused" Demo.ledger
                (Demo.delivery (Demo.past_due_report 9000))
                (Demo.past_due_report 9000) "sub_x" 5000
                Traffic.store_alice_paid)
      as [H _].
    + reflexivity.
    + reflexivity.
    + reflexivity.
    + discriminate.
    + split; [reflexivity | split; discriminate].
    + destruct H as [A [_ [B [_ C]]]].
      * intros p [[= <-] | [[= <-] | [[=] | []]]]; reflexivity.
      * split; [exact A |]. split.
        -- apply (B {| Webhook.row := Sample.sub_alice;
                       Webhook.stripe_subscription_id := Some "sub_x" |}).
           ++ now left.
           ++ reflexivity.
        -- apply (C "22222222-bbbb" "alice" Sample.kb_paid).
           ++ reflexivity.
           ++ discriminate.
           ++ reflexivity.
           ++ intros b [<- | []] _. reflexivity.
  - destruct (billing_event_cuts_access "unused" Demo.ledger
                (Demo.delivery (Demo.past_due_report 8640000000001))
                (Demo.past_due_report 8640000000001) "sub_x" 5000
                Traffic.store_alice_paid)
      as [_ H].
    + reflexivity.
    + reflexivity.
    + reflexivity.
    + discriminate.
    + split; [reflexivity | split; discriminate].
    + apply H. exists 8640000000001. split; [right; left; reflexivity |].
      vm_compute. reflexivity.
Defined.

Lemma checkout_grants_access_witness :
  exists id,
    Entitlement.hasKBAccess 5000
      (Webhook.store_of
         (Demo.ledger ++
          [{| Webhook.row :=
                {| Db.sub_id := "row-2"; Db.sub_knowledge_base_id := "22222222-bbbb";
                   Db.sub_subscriber_id := "bob"; Db.sub_status := Db.Active;
                   Db.sub_current_period_end := Some 9000000 |};
              Webhook.stripe_subscription_id := Some "sub_y" |}])%list
         Sample.store0)
      "22222222-bbbb" "bob"
    = {| Entitlement.hasAccess := true;
         Entitlement.subscription :=
           Some (id, Webhook.mapStripeStatus (Webhook.ss_status Demo.stripe_sub)) |}
    /\ (id = "row-2"
        \/ exists b, In b Demo.ledger
                     /\ Webhook.of_pair "22222222-bbbb" "bob" b = true
                     /\ Db.sub_id (Webhook.row b) = id).
Proof.
  apply (checkout_grants_access "row-2" Demo.ledger
           (Demo.ledger ++
            [{| Webhook.row :=
                  {| Db.sub_id := "row-2"; Db.sub_knowledge_base_id := "22222222-bbbb";
                     Db.sub_subscriber_id := "bob"; Db.sub_status := Db.Active;
                     Db.sub_current_period_end := Some 9000000 |};
                Webhook.stripe_subscription_id := Some "sub_y" |}])%list
           Demo.session Demo.stripe_sub "22222222-bbbb" "bob" 5000 Sample.store0
           Sample.kb_paid).
  - reflexivity.
  - reflexivity.
  - reflexivity.
  - reflexivity.
  - now left.
  - intros e [= <-]. lia.
  - cbn. lia.
  - reflexivity.
  - discriminate.
  - reflexivity.
  - reflexivity.
  - reflexivity.
Defined.

Lemma issued_tokens_pass_the_format_check_witness :
  Shape.bearer_header (Some ("Bearer " +:+ Sample.access1)) Sample.access1.
Proof.
  apply (proj1 issued_tokens_pass_the_format_check "11111111-aaaa" [4; 5; 6]).
  reflexivity.
Defined.

Lemma installed_token_is_accepted_witness :
  2592003000 = (Routes.now (Traffic.env_for 50 "alice") + 2592000000)%Z
  /\ (exists tr,
        Worker.validateToken 5000 Traffic.store_alice_paid
          (Worker.authorization (Traffic.post "pro" (Traffic.token_of 50))) "pro"
        = (Db.touch_token Traffic.store_alice_paid
             (Routes.uuid_b (Traffic.env_for 50 "alice")) 5000,
           Worker.Returned tr)
        /\ Worker.valid tr = true /\ Worker.kb tr = Some Sample.kb_paid
        /\ Worker.userId tr = Some "alice")
  /\ In (Worker.status
           (snd (Worker.fetch 5000 (Traffic.world_of Traffic.store_alice_paid)
                   (Traffic.post "pro" (Traffic.token_of 50)))))
        [200; 400; 429].
Proof.
  apply (installed_token_is_accepted (Traffic.env_for 50 "alice") Sample.store_sub
           Traffic.store_alice_paid "pro" "alice" (Traffic.token_of 50) 2592003000
           Sample.kb_paid 5000 (Traffic.world_of Traffic.store_alice_paid)
           (Traffic.post "pro" (Traffic.token_of 50))).
  - vm_compute; reflexivity.
  - reflexivity.
  - lia.
  - intros _ _ H. vm_compute in H. destruct H as [[H _] | [e [[= <-] H]]].
    + now apply H.
    + discriminate.
  - discriminate.
  - reflexivity.
  - reflexivity.
  - reflexivity.
  - reflexivity.
Defined.

Lemma exchanged_token_is_accepted_witness :
  (exists tr,
      Worker.validateToken 3000 Sample.store_with_tokens
        (Worker.authorization (Traffic.post "docs" Sample.access1)) "docs"
      = (Db.touch_token Sample.store_with_tokens
           (Routes.uuid (Sample.env 2000 [4; 5; 6] [7; 8; 9] "token-row-1")) 3000,
         Worker.Returned tr)
      /\ Worker.valid tr = true /\ Worker.kb tr = Some Sample.kb1
      /\ Worker.userId tr = Some (Db.cd_user_id Sample.code_row1)
      /\ Worker.clientId tr = Some (Db.cd_client_id Sample.code_row1)
      /\ Worker.scopes tr = Some (Db.cd_scopes Sample.code_row1))
  /\ In (Worker.status
           (snd (Worker.fetch 3000 (Traffic.world_of Sample.store_with_tokens)
                   (Traffic.post "docs" Sample.access1))))
        [200; 400; 429].
Proof.
  apply (exchanged_token_is_accepted Sample.hostname
           (Sample.env 2000 [4; 5; 6] [7; 8; 9] "token-row-1")
           Sample.store_with_code Sample.store_with_tokens
           (Sample.exchange_body Sample.code1) Sample.tokens1
           Sample.code1 "docs" Sample.code_row1 Sample.kb1 3000
           (Traffic.world_of Sample.store_with_tokens)
           (Traffic.post "docs" Sample.access1)).
  - vm_compute; reflexivity.
  - reflexivity.
  - vm_compute; reflexivity.
  - reflexivity.
  - reflexivity.
  - discriminate.
  - reflexivity.
  - cbn. lia.
  - discriminate.
  - reflexivity.
  - reflexivity.
  - reflexivity.
  - reflexivity.
Defined.
